(** * finance_app.py: a shallow embedding of the ledger, the goals, the rate
      fetcher, the formatter, the JSON backup and the tabs of the main area,
      with the properties of the specification checked against them and
      further properties of the code.

    Conventions of the embedding.
    - Amounts are Python floats.  The model takes the exact rational value of
      a finite float ([Qc], canonical rationals); infinities and NaN are left
      out.  The [+=] of a contribution is the float sum, rounded to the
      nearest float ([float_add]).  The product by an exchange rate and the
      sum of a column are taken exact, and what is stated of them is what
      holds of the rounded results as well: signs, zero terms, the rows
      selected.  The sign of a zero shows only in the formatter, which takes
      a [pyfloat].
    - Strings are byte strings; the Cyrillic literals and the currency
      symbols are their UTF-8 bytes.
    - [st.session_state] is a record; the Streamlit calls with a visible
      effect ([st.error], [st.success], [st.rerun]) and the HTTP request are
      events appended to a log.
    - A function that runs inside the script is a computation of the monad
      [py]: it reads and writes the runtime and either returns or raises.
      A raised exception does not undo the writes made before it. *)

From Stdlib Require Import Ascii String QArith Qabs Qcanon Qround Qpower Lqa.
From Stdlib Require Qcabs.
From stdpp Require Import sorting gmap strings list fin_maps numbers.

Local Open Scope Qc_scope.
Local Open Scope string_scope.

(** ** Module-level constants *)

(** CURRENCIES *)
Definition CURRENCIES : list string :=
  ["RUB"; "USD"; "EUR"; "CNY"; "GBP"; "VND"; "EGP"; "TRY"; "GEL"].

(** CURRENCY_SYMBOLS *)
Definition CURRENCY_SYMBOLS : gmap string string :=
  list_to_map
    [("RUB", "₽"); ("USD", "$"); ("EUR", "€"); ("CNY", "¥"); ("GBP", "£");
     ("VND", "₫"); ("EGP", "E£"); ("TRY", "₺"); ("GEL", "₾")].

(** EXPENSE_CATEGORIES and INCOME_CATEGORIES *)
Definition EXPENSE_CATEGORIES : list string :=
  ["Продукты"; "Транспорт"; "Развлечения"; "Коммунальные платежи";
   "Одежда"; "Здоровье"; "Образование"; "Накопления"; "Другое"].

Definition INCOME_CATEGORIES : list string :=
  ["Зарплата"; "Подработка"; "Инвестиции"; "Другое"].

(** ** Python values

    The values that reach the session store: what [json.loads] builds, and
    the pandas [Timestamp] that [DataFrame.to_dict('records')] leaves in the
    date column. *)

(** A pandas Timestamp by its civil fields. *)
Record timestamp := Timestamp {
  ts_year : nat; ts_month : nat; ts_day : nat;
  ts_hour : nat; ts_minute : nat; ts_second : nat;
  ts_microsecond : nat
}.

#[warnings="-register-all"]
Inductive pyval :=
| PNone
| PBool (b : bool)
| PNum (q : Qc)
| PStr (s : string)
| PList (l : list pyval)
| PDict (d : list (string * pyval))
| PTimestamp (t : timestamp).

(** [rates]: the dict the rate endpoint answers with, currency code to rate. *)
Abbreviation rates := (gmap string Qc).

(** ** Ledger and goal records *)

(** The 'Тип' column: 'Доход' or 'Расход'. *)
Inductive kind := Income | Expense.

Definition kind_str (k : kind) : string :=
  match k with Income => "Доход" | Expense => "Расход" end.

(** [INCOME_CATEGORIES if trans_type == 'Доход' else EXPENSE_CATEGORIES]:
    the categories the 'Категория' selector offers for a type. *)
Definition categories_of (trans_type : kind) : list string :=
  match trans_type with
  | Income => INCOME_CATEGORIES
  | Expense => EXPENSE_CATEGORIES
  end.

(** A row of the DataFrame [st.session_state.transactions]; the columns are
    'Дата', 'Тип', 'Категория', 'Сумма', 'Описание', 'Бюджет', 'Валюта'. *)
Record transaction := Transaction {
  tx_date : timestamp;
  tx_type : kind;
  tx_category : string;
  tx_amount : Qc;
  tx_description : string;
  tx_budget : Qc;
  tx_currency : string
}.

Abbreviation frame := (list transaction).

(** An entry of [st.session_state.goals]: the dict with the keys "name",
    "target_amount", "deadline" and "current_amount". *)
Record goal := Goal {
  name : string;
  target_amount : Qc;
  deadline : string;
  current_amount : Qc
}.

(** ** Floats

    Python floats are IEEE 754 binary64 numbers: 53 binary digits and an
    exponent, and every operation returns the float nearest to its exact
    result, the one with the even last digit when two are equally near. *)

(** The nearest integer to a non-negative rational, ties to the even one. *)
Definition round_half_even (q : Q) : Z :=
  let fl := Qfloor q in
  match (q - inject_Z fl ?= 1 # 2)%Q with
  | Lt => fl
  | Gt => (fl + 1)%Z
  | Eq => if Z.even fl then fl else (fl + 1)%Z
  end.

(** [2.0 ** e] *)
Definition pow2 (e : Z) : Q := (2 ^ e)%Q.

(** The binary exponent of the positive rational [n / d]: the [e] with
    [2 ** e <= n / d < 2 ** (e + 1)]. *)
Definition exponent (n d : positive) : Z :=
  let k := (Z.log2 (Zpos n) - Z.log2 (Zpos d))%Z in
  if Qle_bool (pow2 k) (Zpos n # d) then k else (k - 1)%Z.

(** The float nearest to [n / d], as a fraction in lowest terms.  The
    floats around [n / d] are the multiples of [quantum]: 53 digits down
    from the leading one, and never below [2 ** -1074], the step of the
    subnormal floats. *)
Definition nearest_float (n d : positive) : Q :=
  let quantum := pow2 (Z.max (exponent n d - 52) (-1074)) in
  Qred (inject_Z (round_half_even ((Zpos n # d) / quantum)) * quantum)%Q.

(** The float nearest to a rational.  A result beyond the largest float,
    which Python gives as [inf], is left out: the statements that depend on
    [binary64] are made for results up to [max_float]. *)
Definition binary64 (q : Qc) : Qc :=
  match Qnum q with
  | Z0 => 0
  | Zpos n => Q2Qc (nearest_float n (Qden q))
  | Zneg n => - Q2Qc (nearest_float n (Qden q))
  end.

(** [sys.float_info.max] *)
Definition max_float : Qc := Q2Qc (inject_Z ((2 ^ 53 - 1) * 2 ^ 971)).

(** [a + b] on floats *)
Definition float_add (a b : Qc) : Qc := binary64 (a + b).

(** ** Session state, events, runtime *)

(** The keys of [st.session_state].  [transactions] is the DataFrame the
    handlers work on and [transactions_data] the records [save_data] derives
    from it; [goals] is the list the handlers work on and [goals_data] the
    list [save_goals] stores, the same list object until an import puts
    another one under [goals_data].  The import writes the [_data] keys and
    the default currency with whatever the backup holds, so these three are
    Python values. *)
Record session_state := SessionState {
  transactions : frame;
  transactions_data : pyval;
  goals : list goal;
  goals_data : pyval;
  default_currency : pyval
}.

Inductive event :=
| HttpGet (url : string)      (* requests.get(url) *)
| StError (msg : string)      (* st.error(msg) *)
| StSuccess (msg : string)    (* st.success(msg) *)
| StRerun.                    (* st.rerun() *)

Record runtime := Runtime {
  session : session_state;
  log : list event
}.

Inductive exn :=
| RequestException
| JSONDecodeError
| KeyError (key : string)
| TypeError
| ValueError
| AttributeError.

Inductive result (A : Type) :=
| Ok (a : A)
| Raise (e : exn).
Arguments Ok {A} a.
Arguments Raise {A} e.

(** ** The monad of script computations *)

Definition py (A : Type) : Type := runtime -> result A * runtime.

Definition ret {A} (a : A) : py A := fun r => (Ok a, r).

Definition bind {A B} (m : py A) (k : A -> py B) : py B :=
  fun r => match m r with
           | (Ok a, r') => k a r'
           | (Raise e, r') => (Raise e, r')
           end.

Definition raise {A} (e : exn) : py A := fun r => (Raise e, r).

(** [try: body except: handler], the bare [except] of the source: every
    exception is caught, and the handler starts from the runtime the body
    left behind. *)
Definition try_except {A} (body handler : py A) : py A :=
  fun r => match body r with
           | (Ok a, r') => (Ok a, r')
           | (Raise _, r') => handler r'
           end.

(** stdpp's notations: [x ← m; k] binds, [m;; k] sequences. *)
#[global] Instance py_ret : MRet py := @ret.
#[global] Instance py_bind : MBind py := fun A B k m => bind m k.

Definition emit (e : event) : py unit :=
  fun r => (Ok tt, Runtime (session r) (log r ++ [e])).

Definition gets {A} (f : session_state -> A) : py A :=
  fun r => (Ok (f (session r)), r).

Definition modify (f : session_state -> session_state) : py unit :=
  fun r => (Ok tt, Runtime (f (session r)) (log r)).

Definition set_transactions (df : frame) (s : session_state) :=
  SessionState df (transactions_data s) (goals s) (goals_data s) (default_currency s).
Definition set_transactions_data (v : pyval) (s : session_state) :=
  SessionState (transactions s) v (goals s) (goals_data s) (default_currency s).
Definition set_goals (g : list goal) (s : session_state) :=
  SessionState (transactions s) (transactions_data s) g (goals_data s) (default_currency s).
Definition set_goals_data (v : pyval) (s : session_state) :=
  SessionState (transactions s) (transactions_data s) (goals s) v (default_currency s).
Definition set_default_currency (v : pyval) (s : session_state) :=
  SessionState (transactions s) (transactions_data s) (goals s) (goals_data s) v.

(** ** Rate fetcher *)

(** What the three steps of the [try] body of [get_exchange_rates] do for a
    URL: [requests.get] raises, or [response.json()] raises, or the body has
    no 'rates' entry, or the entry is returned.  A returned entry is taken
    to have the shape the endpoint documents, a dict from code to number:
    the handlers are modelled for such a remote.  The fetcher and the
    converter for a remote that answers with any JSON value whatever are
    [Untyped.get_exchange_rates] and [Untyped.convert_amount] below. *)
Inductive fetch_outcome :=
| RequestFailed
| BodyNotJson
| NoRatesKey
| RatesOf (r : rates).

Section RateFetcher.

Variable remote : string -> fetch_outcome.

Definition latest_url (base_currency : string) : string :=
  "https://api.exchangerate-api.com/v4/latest/" ++ base_currency.

(** The body of the [try] block. *)
Definition fetch_rates (base_currency : string) : py rates :=
  let url := latest_url base_currency in
  emit (HttpGet url);;
  match remote url with
  | RequestFailed => raise RequestException
  | BodyNotJson => raise JSONDecodeError
  | NoRatesKey => raise (KeyError "rates")
  | RatesOf r => ret r
  end.

(** The dict comprehension of the [except] block. *)
Definition fallback_rates (base_currency : string) : rates :=
  list_to_map
    (map (fun currency =>
            (currency, if decide (currency = base_currency) then 1 else 0))
         CURRENCIES).

Definition get_exchange_rates (base_currency : string) : py rates :=
  try_except
    (fetch_rates base_currency)
    (emit (StError "Ошибка при получении курсов валют");;
     ret (fallback_rates base_currency)).

(** [rates.get(to_currency, 0)] *)
Definition rates_get (r : rates) (to_currency : string) : Qc :=
  default 0 (r !! to_currency).

(** The product is the exact one; Python rounds it to a float. *)
Definition convert_amount (amount : Qc) (from_currency to_currency : string)
  : py Qc :=
  if decide (from_currency = to_currency) then ret amount
  else
    r ← get_exchange_rates from_currency;
    ret (amount * rates_get r to_currency).

End RateFetcher.

(** ** Dates *)

(** What [st.date_input] returns, a [datetime.date]. *)
Record date := Date { d_year : nat; d_month : nat; d_day : nat }.

(** [pd.to_datetime(d)] for a date: midnight of that day. *)
Definition to_datetime_date (d : date) : timestamp :=
  Timestamp (d_year d) (d_month d) (d_day d) 0 0 0 0.

Definition digit_char (d : nat) : ascii := ascii_of_nat (48 + d).

(** The last [width] decimal digits of [n], zero padded. *)
Fixpoint fixed_digits (width n : nat) : string :=
  match width with
  | O => ""
  | S w => String (digit_char ((n / 10 ^ w) mod 10)) (fixed_digits w n)
  end.

(** [d.strftime("%Y-%m-%d")] *)
Definition strftime_ymd (d : date) : string :=
  fixed_digits 4 (d_year d) ++ "-" ++ fixed_digits 2 (d_month d) ++ "-"
  ++ fixed_digits 2 (d_day d).

(** [str(ts)] of a Timestamp: ISO date, a space, the time, and the
    microseconds when there are any. *)
Definition timestamp_str (t : timestamp) : string :=
  fixed_digits 4 (ts_year t) ++ "-" ++ fixed_digits 2 (ts_month t) ++ "-"
  ++ fixed_digits 2 (ts_day t) ++ " " ++ fixed_digits 2 (ts_hour t) ++ ":"
  ++ fixed_digits 2 (ts_minute t) ++ ":" ++ fixed_digits 2 (ts_second t)
  ++ (if decide (ts_microsecond t = 0)%nat then ""
      else "." ++ fixed_digits 6 (ts_microsecond t)).

(** ** Saving the stores *)

(** A row as [DataFrame.to_dict('records')] gives it. *)
Definition record_of_transaction (t : transaction) : pyval :=
  PDict [("Дата", PTimestamp (tx_date t));
         ("Тип", PStr (kind_str (tx_type t)));
         ("Категория", PStr (tx_category t));
         ("Сумма", PNum (tx_amount t));
         ("Описание", PStr (tx_description t));
         ("Бюджет", PNum (tx_budget t));
         ("Валюта", PStr (tx_currency t))].

Definition to_dict_records (df : frame) : pyval :=
  PList (map record_of_transaction df).

Definition goal_dict (g : goal) : pyval :=
  PDict [("name", PStr (name g));
         ("target_amount", PNum (target_amount g));
         ("deadline", PStr (deadline g));
         ("current_amount", PNum (current_amount g))].

Definition save_data (df : frame) : py unit :=
  modify (set_transactions_data (to_dict_records df)).

Definition save_goals (gs : list goal) : py unit :=
  modify (set_goals_data (PList (map goal_dict gs))).

(** [delete_transaction(index)]: [drop] raises KeyError on a label that is
    not in the frame; [reset_index] renumbers the rows that follow. *)
Definition delete_transaction (index : nat) : py unit :=
  df ← gets transactions;
  match df !! index with
  | None => raise (KeyError "index")
  | Some _ =>
      modify (set_transactions (delete index df));;
      df' ← gets transactions;
      save_data df'
  end.

(** The dict [edited_data] of the history tab: every column but 'Бюджет'. *)
Record edited_data := EditedData {
  ed_date : timestamp;
  ed_type : kind;
  ed_category : string;
  ed_amount : Qc;
  ed_description : string;
  ed_currency : string
}.

(** The loop [for key, value in edited_data.items(): df.at[index, key] = value]
    on one row. *)
Definition apply_edit (e : edited_data) (t : transaction) : transaction :=
  Transaction (ed_date e) (ed_type e) (ed_category e) (ed_amount e)
              (ed_description e) (tx_budget t) (ed_currency e).

(** [edit_transaction(index, edited_data)].  The history tab calls it with
    the label of a row of the frame; for a label that is not in the frame
    pandas would add a row, which the model leaves out (the frame is
    returned as it is). *)
Definition edit_transaction (index : nat) (e : edited_data) : py unit :=
  df ← gets transactions;
  modify (set_transactions (alter (apply_edit e) index df));;
  df' ← gets transactions;
  save_data df'.

(** ** The button handlers of the script *)

Section Handlers.

Variable remote : string -> fetch_outcome.
(** [str(x)] of a float inside an f-string. *)
Variable float_str : Qc -> string.

(** Line 146 (and 223): [CURRENCIES.index(st.session_state.default_currency)]
    runs in every script run ahead of all the button handlers, and
    [list.index] raises ValueError for a value that is not in the list.
    A handler therefore runs with a default currency that is one of
    CURRENCIES. *)
Definition default_currency_code : py string :=
  dc ← gets default_currency;
  match dc with
  | PStr c => if decide (c ∈ CURRENCIES) then ret c else raise ValueError
  | _ => raise ValueError
  end.

Definition signed (trans_type : kind) (final_amount : Qc) : Qc :=
  match trans_type with Income => final_amount | Expense => - final_amount end.

Definition with_original (description : string) (amount : Qc)
           (currency : string) : string :=
  description ++ " (" ++ float_str amount ++ " " ++ currency ++ ")".

(** 'Добавить транзакцию' (lines 149-172).  [converted_amount] is computed
    when the chosen currency differs from the default one, and is the
    final amount exactly then. *)
Definition add_transaction (d : date) (trans_type : kind)
           (category currency : string) (amount : Qc) (description : string)
  : py unit :=
  dc ← default_currency_code;
  final_amount ← (if decide (currency = dc) then ret amount
                  else convert_amount remote amount currency dc);
  let new_transaction :=
    Transaction (to_datetime_date d) trans_type category
                (signed trans_type final_amount)
                (if decide (currency = dc) then description
                 else with_original description amount currency)
                0 dc in
  df ← gets transactions;
  modify (set_transactions (df ++ [new_transaction]));;
  df' ← gets transactions;
  save_data df';;
  emit (StSuccess "Транзакция добавлена!");;
  emit StRerun.

(** 'Установить бюджет' (lines 178-197): the frame part. *)
Definition with_budget (budget_amount : Qc) (t : transaction) : transaction :=
  Transaction (tx_date t) (tx_type t) (tx_category t) (tx_amount t)
              (tx_description t) budget_amount (tx_currency t).

Definition budget_row (now : timestamp) (dc category_budget : string)
           (budget_amount : Qc) : transaction :=
  Transaction now Expense category_budget 0 "Установка бюджета"
              budget_amount dc.

(** [mask] is the boolean column [df['Категория'] == category_budget];
    [not mask.any()] appends [new_row], otherwise
    [df.loc[mask, 'Бюджет'] = budget_amount] writes the rows the mask
    selects. *)
Definition set_budget_frame (now : timestamp) (dc category_budget : string)
           (budget_amount : Qc) (df : frame) : frame :=
  let mask := map (fun t => bool_decide (tx_category t = category_budget)) df in
  if negb (existsb id mask) then
    df ++ [budget_row now dc category_budget budget_amount]
  else
    zip_with (fun (m : bool) t => if m then with_budget budget_amount t else t)
             mask df.

Definition set_budget (now : timestamp) (category_budget : string)
           (budget_amount : Qc) : py unit :=
  dc ← default_currency_code;
  df ← gets transactions;
  modify (set_transactions
            (set_budget_frame now dc category_budget budget_amount df));;
  df' ← gets transactions;
  save_data df';;
  emit (StSuccess "Бюджет установлен!").

(** 'Добавить цель' (lines 205-214) *)
Definition add_goal (goal_name : string) (goal_amount : Qc)
           (goal_deadline : date) : py unit :=
  default_currency_code;;
  let new_goal := Goal goal_name goal_amount (strftime_ymd goal_deadline) 0 in
  gs ← gets goals;
  modify (set_goals (gs ++ [new_goal]));;
  gs' ← gets goals;
  save_goals gs';;
  emit (StSuccess "Цель добавлена!").

(** [options.index(x)] as the default of a selector: ValueError when [x] is
    not one of the options. *)
Definition selector_default (options : list string) (x : string) : py unit :=
  if decide (x ∈ options) then ret tt else raise ValueError.

(** 'Сохранить изменения' (lines 397-412), on the row labelled [index].
    The button belongs to a row of the frame: without such a row there is
    no button and nothing runs.  Ahead of the button, the category and the
    currency selectors of the row (lines 372-383) take the row's own
    category and currency as their defaults. *)
Definition save_changes (index : nat) (edited_date : date)
           (edited_type : kind) (edited_category edited_currency : string)
           (edited_amount : Qc) (edited_description : string) : py unit :=
  dc ← default_currency_code;
  df ← gets transactions;
  match df !! index with
  | None => ret tt
  | Some row =>
      selector_default (categories_of edited_type) (tx_category row);;
      selector_default CURRENCIES (tx_currency row);;
      final_amount ← (if decide (edited_currency = dc) then ret edited_amount
                      else convert_amount remote edited_amount
                                          edited_currency dc);
      edit_transaction index
        (EditedData (to_datetime_date edited_date) edited_type
                    edited_category (signed edited_type final_amount)
                    (if decide (edited_currency = dc) then edited_description
                     else with_original edited_description edited_amount
                                        edited_currency)
                    dc);;
      emit (StSuccess "Изменения сохранены!");;
      emit StRerun
  end.

(** 'Удалить' (lines 414-417) *)
Definition delete_clicked (index : nat) : py unit :=
  default_currency_code;;
  df ← gets transactions;
  match df !! index with
  | None => ret tt
  | Some _ =>
      delete_transaction index;;
      emit (StSuccess "Транзакция удалена!");;
      emit StRerun
  end.

(** 'Внести' (lines 453-472), on the goal at [idx] of the enumeration.
    [goals[idx]['current_amount'] += contribution] updates the dict in
    place; [goal] is that same dict, read for its name afterwards. *)
Definition add_contribution (contribution : Qc) (g : goal) : goal :=
  Goal (name g) (target_amount g) (deadline g)
       (float_add (current_amount g) contribution).

Definition contribute (now : timestamp) (idx : nat) (contribution : Qc)
  : py unit :=
  dc ← default_currency_code;
  gs ← gets goals;
  match gs !! idx with
  | None => ret tt
  | Some g =>
      modify (set_goals (alter (add_contribution contribution) idx gs));;
      gs' ← gets goals;
      save_goals gs';;
      let new_transaction :=
        Transaction now Expense "Накопления" (- contribution)
                    ("Вклад в цель: " ++ name g) 0 dc in
      df ← gets transactions;
      modify (set_transactions (df ++ [new_transaction]));;
      df' ← gets transactions;
      save_data df';;
      emit (StSuccess "Средства внесены!");;
      emit StRerun
  end.

End Handlers.

(** ** Formatter *)

(** The float [format_amount] is given.  [format] prints the sign of a
    float, and a zero has one as well: [-0.0] is what the ledger holds for
    an expense of amount 0.  An amount of the model, a value, stands for
    the float of that value, its zero for [0.0]. *)
Inductive pyfloat :=
| Float (value : Qc)
| NegativeZero.

Coercion Float : Qc >-> pyfloat.

Definition float_value (x : pyfloat) : Qc :=
  match x with Float value => value | NegativeZero => 0 end.

(** The sign of a float: set for the negative floats and for [-0.0]. *)
Definition sign_bit (x : pyfloat) : bool :=
  match x with Float value => bool_decide (value < 0) | NegativeZero => true end.

(** Decimal digits of a natural number, most significant first; the fuel
    is the number of binary digits, which bounds the number of decimal ones. *)
Fixpoint N_digits_fuel (fuel : nat) (n : N) : string :=
  match fuel with
  | O => String (digit_char (N.to_nat (n mod 10))) ""
  | S f =>
      if (n <? 10)%N then String (digit_char (N.to_nat n)) ""
      else N_digits_fuel f (n / 10)
           ++ String (digit_char (N.to_nat (n mod 10))) ""
  end.

Definition N_digits (n : N) : string := N_digits_fuel (N.size_nat n) n.

(** The [','] option of the format mini-language: the decimal digits in
    groups of three from the right, separated by commas. *)
Fixpoint thousands_fuel (fuel : nat) (n : N) : string :=
  match fuel with
  | O => N_digits n
  | S f =>
      if (n <? 1000)%N then N_digits n
      else thousands_fuel f (n / 1000)
           ++ "," ++ fixed_digits 3 (N.to_nat (n mod 1000))
  end.

Definition thousands (n : N) : string := thousands_fuel (N.size_nat n) n.

(** [int(amount)]: truncation towards zero. *)
Definition int_of (amount : Qc) : Z :=
  Z.quot (Qnum (this amount)) (Zpos (Qden (this amount))).

(** [f"{n:,}"] for an int. *)
Definition format_int_grouped (n : Z) : string :=
  (if (n <? 0)%Z then "-" else "") ++ thousands (Z.abs_N n).

(** The number of hundredths [amount] is rendered with, sign apart: the
    rounding of the ['f'] presentation type, to the nearest, ties to even. *)
Definition hundredths (amount : Qc) : N :=
  Z.to_N (round_half_even (Qabs (this amount) * inject_Z 100)%Q).

(** [f"{amount:,.2f}"]: the sign of the float, the integer part grouped,
    a point and two digits. *)
Definition format_fixed2 (amount : pyfloat) : string :=
  let h := hundredths (float_value amount) in
  (if sign_bit amount then "-" else "")
  ++ thousands (h / 100) ++ "." ++ fixed_digits 2 (N.to_nat (h mod 100)).

(** [CURRENCY_SYMBOLS.get(currency, currency)] *)
Definition currency_symbol (currency : string) : string :=
  default currency (CURRENCY_SYMBOLS !! currency).

(** [format_amount] once [currency] is settled. *)
Definition format_amount_in (amount : pyfloat) (currency : string) : string :=
  let symbol := currency_symbol currency in
  if decide (currency = "VND") then
    format_int_grouped (int_of (float_value amount)) ++ " " ++ symbol
  else
    format_fixed2 amount ++ " " ++ symbol.

(** [format_amount(amount, currency=None)].  [currency or default] takes the
    session's default currency for [None] and for the empty string.  The
    default currency is read through the check of line 146, which every run
    of the script has passed before it formats anything; the function
    itself has no such check and would render any other value with
    [CURRENCY_SYMBOLS.get]. *)
Definition format_amount (amount : pyfloat) (currency : option string)
  : py string :=
  c ← match currency with
      | Some c => if decide (c = "") then default_currency_code else ret c
      | None => default_currency_code
      end;
  ret (format_amount_in amount c).

(** ** Backup: export and import *)

(** [d[key]] on a dict kept as its list of items. *)
Fixpoint dict_get (key : string) (d : list (string * pyval)) : option pyval :=
  match d with
  | [] => None
  | (k, v) :: d' => if decide (k = key) then Some v else dict_get key d'
  end.

(** [v[key]] with a string key: KeyError on a dict without the key, TypeError
    on a value that is not a dict (a list, a string, a number, [None]). *)
Definition getitem (v : pyval) (key : string) : py pyval :=
  match v with
  | PDict d =>
      match dict_get key d with
      | Some x => ret x
      | None => raise (KeyError key)
      end
  | _ => raise TypeError
  end.

(** What [json.dumps(v, default=str)] writes and [json.loads] reads back:
    the value with every object JSON has no form for, here the Timestamps,
    replaced by its [str]. *)
Fixpoint jsonify (v : pyval) : pyval :=
  match v with
  | PList l => PList (map jsonify l)
  | PDict d => PDict (map (fun kv => match kv with (k, x) => (k, jsonify x) end) d)
  | PTimestamp t => PStr (timestamp_str t)
  | _ => v
  end.

(** No Timestamp inside. *)
Fixpoint json_native (v : pyval) : bool :=
  match v with
  | PList l => forallb json_native l
  | PDict d => forallb (fun kv => match kv with (_, x) => json_native x end) d
  | PTimestamp _ => false
  | _ => true
  end.

Section Backup.

(** [json.dumps(·, ensure_ascii=False, default=str)] and [json.loads],
    the latter with [None] for the inputs it raises on. *)
Variable json_dumps : pyval -> string.
Variable json_loads : string -> option pyval.

(** The dict [data] of [export_all_data]. *)
Definition backup_document (s : session_state) : pyval :=
  PDict [("transactions", transactions_data s);
         ("goals", goals_data s);
         ("settings", PDict [("default_currency", default_currency s)])].

Definition export_all_data : py string :=
  s ← gets id;
  ret (json_dumps (backup_document s)).

Definition import_all_data (json_str : string) : py bool :=
  try_except
    (data ← match json_loads json_str with
            | Some v => ret v
            | None => raise JSONDecodeError
            end;
     t ← getitem data "transactions";
     modify (set_transactions_data t);;
     g ← getitem data "goals";
     modify (set_goals_data g);;
     settings ← getitem data "settings";
     c ← getitem settings "default_currency";
     modify (set_default_currency c);;
     ret true)
    (ret false).

(** The settings tab (lines 220-250): the currency selector, and the
    upload, which imports the file it holds.  [upload_backup] is the run
    in which the file arrives.  The uploader keeps the file, so the run
    [st.rerun()] starts, and every later run that gets as far as the
    settings, imports it again: the same text into the same three
    fields. *)
Definition change_default_currency (new_default_currency : string) : py unit :=
  dc ← default_currency_code;
  if decide (new_default_currency = dc) then ret tt
  else
    modify (set_default_currency (PStr new_default_currency));;
    emit (StSuccess ("Основная валюта изменена на " ++ new_default_currency)).

(** 'Экспортировать все данные': the text goes to a download button. *)
Definition export_clicked : py unit :=
  default_currency_code;;
  export_all_data;;
  ret tt.

Definition upload_backup (content : string) : py unit :=
  default_currency_code;;
  ok ← import_all_data content;
  if ok : bool then
    emit (StSuccess "Данные успешно восстановлены!");;
    emit StRerun
  else
    emit (StError "Ошибка при восстановлении данных").

End Backup.

(** ** The rate fetcher, whatever the remote answers

    [get_exchange_rates] returns [data['rates']] unchecked, and
    [convert_amount] calls its [get] and multiplies outside the [try].
    Here the body of the response is any JSON value. *)

Inductive reply :=
| NoResponse              (* requests.get raises *)
| NotJson                 (* response.json() raises *)
| Body (data : pyval).    (* response.json() returns data *)

Module Untyped.
Section RateFetcher.

Variable remote : string -> reply.

(** The body of the [try] block. *)
Definition fetch_rates (base_currency : string) : py pyval :=
  let url := latest_url base_currency in
  emit (HttpGet url);;
  match remote url with
  | NoResponse => raise RequestException
  | NotJson => raise JSONDecodeError
  | Body data => getitem data "rates"
  end.

(** The dict comprehension of the [except] block. *)
Definition fallback_rates (base_currency : string) : pyval :=
  PDict (map (fun currency =>
                (currency,
                 PNum (if decide (currency = base_currency) then 1 else 0)))
             CURRENCIES).

Definition get_exchange_rates (base_currency : string) : py pyval :=
  try_except
    (fetch_rates base_currency)
    (emit (StError "Ошибка при получении курсов валют");;
     ret (fallback_rates base_currency)).

(** [rates.get(to_currency, 0)]: a dict has the method; a list, a string,
    a number, a bool and [None] have no attribute [get]. *)
Definition rates_get (rates : pyval) (to_currency : string) : py pyval :=
  match rates with
  | PDict d => ret (default (PNum 0) (dict_get to_currency d))
  | _ => raise AttributeError
  end.

(** [amount * x] for a float [amount]: the product with a number, a bool
    counting as 1 or 0; TypeError for a string, a list, a dict and
    [None]. *)
Definition multiply (amount : Qc) (x : pyval) : py Qc :=
  match x with
  | PNum q => ret (amount * q)
  | PBool b => ret (amount * (if b then 1 else 0))
  | _ => raise TypeError
  end.

Definition convert_amount (amount : Qc) (from_currency to_currency : string)
  : py Qc :=
  if decide (from_currency = to_currency) then ret amount
  else
    rates ← get_exchange_rates from_currency;
    x ← rates_get rates to_currency;
    multiply amount x.

End RateFetcher.
End Untyped.

(** The replies with the documented shape. *)
Definition reply_of (o : fetch_outcome) : reply :=
  match o with
  | RequestFailed => NoResponse
  | BodyNotJson => NotJson
  | NoRatesKey => Body (PDict [])
  | RatesOf r =>
      Body (PDict [("rates",
                    PDict (map (fun cq => (cq.1, PNum cq.2)) (map_to_list r)))])
  end.

(** ** Loading the stores *)

Definition is_digit (c : ascii) : bool :=
  let n := nat_of_ascii c in (48 <=? n)%nat && (n <=? 57)%nat.

(** Reads [width] decimal digits. *)
Fixpoint read_fixed (width : nat) (s : string) (acc : nat)
  : option (nat * string) :=
  match width with
  | O => Some (acc, s)
  | S w =>
      match s with
      | String c rest =>
          if is_digit c
          then read_fixed w rest (acc * 10 + (nat_of_ascii c - 48))
          else None
      | EmptyString => None
      end
  end.

Definition expect (c : ascii) (s : string) : option string :=
  match s with
  | String c' rest => if decide (c' = c) then Some rest else None
  | EmptyString => None
  end.

Definition valid_timestamp (t : timestamp) : Prop :=
  (ts_year t < 10 ^ 4 /\ 1 <= ts_month t <= 12 /\ 1 <= ts_day t <= 31
   /\ ts_hour t < 24 /\ ts_minute t < 60 /\ ts_second t < 60
   /\ ts_microsecond t < 10 ^ 6)%nat.

#[global] Instance valid_timestamp_dec t : Decision (valid_timestamp t).
Proof. unfold valid_timestamp. apply _. Defined.

(** The two forms [str] gives a Timestamp, with and without microseconds.
    They are the formats [pd.to_datetime] infers from such a text:
    ['%Y-%m-%d %H:%M:%S'] and ['%Y-%m-%d %H:%M:%S.%f']. *)
Inductive date_format := Seconds | Microseconds.

#[global] Instance date_format_eq_dec : EqDecision date_format.
Proof. solve_decision. Defined.

(** The form of [str(t)]. *)
Definition date_format_of (t : timestamp) : date_format :=
  if decide (ts_microsecond t = 0)%nat then Seconds else Microseconds.

(** Reads a text of one of the two forms: its form and its fields.  Any
    other text, in which pandas may still find a date, is left out
    ([None]). *)
Definition read_timestamp (s : string) : option (date_format * timestamp) :=
  '(y, s) ← read_fixed 4 s 0; s ← expect "-" s;
  '(mo, s) ← read_fixed 2 s 0; s ← expect "-" s;
  '(d, s) ← read_fixed 2 s 0; s ← expect " " s;
  '(h, s) ← read_fixed 2 s 0; s ← expect ":" s;
  '(mi, s) ← read_fixed 2 s 0; s ← expect ":" s;
  '(se, s) ← read_fixed 2 s 0;
  match s with
  | "" => Some (Seconds, Timestamp y mo d h mi se 0)
  | String "." rest =>
      '(us, s) ← read_fixed 6 rest 0;
      if decide (s = "") then Some (Microseconds, Timestamp y mo d h mi se us)
      else None
  | _ => None
  end.

Definition leap_year (y : nat) : bool :=
  ((y mod 4 =? 0)%nat && negb (y mod 100 =? 0)%nat) || (y mod 400 =? 0)%nat.

Definition days_in_month (y m : nat) : nat :=
  match m with
  | 2 => if leap_year y then 29 else 28
  | 4 | 6 | 9 | 11 => 30
  | _ => 31
  end.

(** The day is one the month has. *)
Definition in_calendar (t : timestamp) : Prop :=
  (ts_day t <= days_in_month (ts_year t) (ts_month t))%nat.

(** The years every pandas version holds whole, with its clock of
    nanoseconds: 1678 to 2261. *)
Definition in_pandas_years (t : timestamp) : Prop :=
  (1678 <= ts_year t <= 2261)%nat.

(** A Timestamp pandas has. *)
Definition pandas_timestamp (t : timestamp) : Prop :=
  valid_timestamp t /\ in_pandas_years t /\ in_calendar t.

#[global] Instance pandas_timestamp_dec t : Decision (pandas_timestamp t).
Proof. unfold pandas_timestamp, in_pandas_years, in_calendar. apply _. Defined.

(** One text of a column parsed with the format [f] inferred for the
    column.  A text of the other form does not match the format, and a
    day the month does not have is no date: ValueError for both.  Fields
    out of their ranges and years pandas may not hold are left out
    ([None]). *)
Definition strptime (f : date_format) (s : string) : option (result timestamp) :=
  '(f', t) ← read_timestamp s;
  if decide (valid_timestamp t /\ in_pandas_years t) then
    Some (if decide (f' = f /\ in_calendar t) then Ok t else Raise ValueError)
  else None.

(** The results of the elements in turn: the first exception ends it. *)
Fixpoint collect {A} (rs : list (result A)) : result (list A) :=
  match rs with
  | [] => Ok []
  | Ok a :: rs' =>
      match collect rs' with
      | Ok l => Ok (a :: l)
      | Raise e => Raise e
      end
  | Raise e :: _ => Raise e
  end.

Definition timestamp_of (v : pyval) : option timestamp :=
  match v with PTimestamp t => Some t | _ => None end.

Definition str_of (v : pyval) : option string :=
  match v with PStr s => Some s | _ => None end.

(** [pd.to_datetime(column)].  A column of Timestamps is returned as it
    is.  For a column of texts pandas infers one format, from the first
    text, and parses every text with it.  Columns that mix the two kinds,
    or hold anything else, are left out ([None]). *)
Definition to_datetime (column : list pyval) : option (result (list timestamp)) :=
  match column with
  | [] => Some (Ok [])
  | PTimestamp _ :: _ => Ok <$> mapM timestamp_of column
  | PStr s :: _ =>
      '(f, _) ← read_timestamp s;
      texts ← mapM str_of column;
      collect <$> mapM (strptime f) texts
  | _ => None
  end.

Definition kind_of (v : pyval) : option kind :=
  match v with
  | PStr s => if decide (s = "Доход") then Some Income
              else if decide (s = "Расход") then Some Expense else None
  | _ => None
  end.

Definition num_of (v : pyval) : option Qc :=
  match v with PNum q => Some q | _ => None end.

(** One row of [pd.DataFrame(records)]: the value of its date column, and
    the row once that value is a Timestamp.  The record must have the seven
    columns, each but the date with a value of the column's kind.  Anything
    else the typed frame has no form for ([None]). *)
Definition row_of_record (v : pyval) : option (pyval * (timestamp -> transaction)) :=
  match v with
  | PDict d =>
      date ← dict_get "Дата" d;
      type ← dict_get "Тип" d ≫= kind_of;
      category ← dict_get "Категория" d ≫= str_of;
      amount ← dict_get "Сумма" d ≫= num_of;
      description ← dict_get "Описание" d ≫= str_of;
      budget ← dict_get "Бюджет" d ≫= num_of;
      currency ← dict_get "Валюта" d ≫= str_of;
      Some (date,
            fun t => Transaction t type category amount description budget
                                 currency)
  | _ => None
  end.

(** What [load_data()] does with the stored records: it returns the frame
    built from them, the date column passed whole through
    [pd.to_datetime], or raises what [pd.to_datetime] raises.  No record
    gives the empty frame. *)
Definition load_data_outcome (s : session_state) : option (result frame) :=
  match transactions_data s with
  | PList records =>
      rows ← mapM row_of_record records;
      dates ← to_datetime (rows.*1);
      Some (match dates with
            | Ok ts => Ok (zip_with (fun row t => row.2 t) rows ts)
            | Raise e => Raise e
            end)
  | _ => None
  end.

(** [load_data()]: the frame it returns, when it returns one. *)
Definition load_data (s : session_state) : option frame :=
  match load_data_outcome s with
  | Some (Ok df) => Some df
  | _ => None
  end.


(** ** A reader and a writer of JSON text

    [json.loads] and [json.dumps] are parameters of the backup functions.
    The pair below reads and writes the JSON text the backup consists of,
    and stands for them where a statement is run on a concrete input.
    Numbers are exact; [NaN], [Infinity] and surrogate escapes are not
    read. *)
Module Json.

Definition dquote : ascii := "034"%char.
Definition backslash : ascii := "092"%char.

Definition is_ws (c : ascii) : bool :=
  let n := nat_of_ascii c in
  (n =? 32)%nat || (n =? 9)%nat || (n =? 10)%nat || (n =? 13)%nat.

Fixpoint skip_ws (s : string) : string :=
  match s with
  | String c rest => if is_ws c then skip_ws rest else s
  | EmptyString => s
  end.

Fixpoint span_digits (s : string) : string * string :=
  match s with
  | String c rest =>
      if is_digit c
      then let '(ds, r) := span_digits rest in (String c ds, r)
      else ("", s)
  | EmptyString => ("", "")
  end.

Definition N_of_digits (ds : string) : N :=
  fold_left (fun acc c => (acc * 10 + N.of_nat (nat_of_ascii c - 48))%N)
            (list_ascii_of_string ds) 0%N.

(** int part, optional fraction, optional exponent *)
Definition read_number (s : string) : option (Qc * string) :=
  let '(neg, s) := match s with
                   | String "-" rest => (true, rest)
                   | _ => (false, s)
                   end in
  let '(ip, s) := span_digits s in
  match ip with
  | EmptyString => None
  | String c more =>
      if decide (c = "0"%char /\ more ≠ "") then None else
      '(fd, s) ← match s with
                 | String "." rest =>
                     let '(fd, r) := span_digits rest in
                     if decide (fd = "") then None else Some (fd, r)
                 | _ => Some ("", s)
                 end;
      '(ex, s) ← match s with
                 | String c rest =>
                     if decide (c = "e"%char \/ c = "E"%char) then
                       let '(sg, rest) :=
                         match rest with
                         | String "-" r => (true, r)
                         | String "+" r => (false, r)
                         | _ => (false, rest)
                         end in
                       let '(ed, r) := span_digits rest in
                       if decide (ed = "") then None
                       else let e := Z.of_N (N_of_digits ed) in
                            Some (if sg : bool then (- e)%Z else e, r)
                     else Some (0%Z, s)
                 | EmptyString => Some (0%Z, s)
                 end;
      let mantissa := Z.of_N (N_of_digits (ip ++ fd)) in
      let scale := (ex - Z.of_nat (String.length fd))%Z in
      let q := (inject_Z mantissa * Qpower (inject_Z 10) scale)%Q in
      Some (Q2Qc (if neg then - q else q)%Q, s)
  end.

Definition hex_value (c : ascii) : option nat :=
  let n := nat_of_ascii c in
  if is_digit c then Some (n - 48)%nat
  else if ((97 <=? n) && (n <=? 102))%nat then Some (n - 87)%nat
  else if ((65 <=? n) && (n <=? 70))%nat then Some (n - 55)%nat
  else None.

(** UTF-8 bytes of a code point of the basic plane. *)
Definition utf8 (cp : nat) : option string :=
  if (cp <? 128)%nat then Some (String (ascii_of_nat cp) "")
  else if (cp <? 2048)%nat then
    Some (String (ascii_of_nat (192 + cp / 64))
         (String (ascii_of_nat (128 + cp mod 64)) ""))
  else if ((54 * 1024 <=? cp) && (cp <? 56 * 1024))%nat then None
  else
    Some (String (ascii_of_nat (224 + cp / 4096))
         (String (ascii_of_nat (128 + (cp / 64) mod 64))
         (String (ascii_of_nat (128 + cp mod 64)) ""))).

(** The characters after the opening quote, up to the closing one. *)
Fixpoint read_string (s : string) : option (string * string) :=
  match s with
  | EmptyString => None
  | String c rest =>
      if decide (c = dquote) then Some ("", rest)
      else if decide (c = backslash) then
        match rest with
        | String e rest' =>
            if decide (e = "u"%char) then
              match rest' with
              | String h1 (String h2 (String h3 (String h4 rest''))) =>
                  a ← hex_value h1; b ← hex_value h2;
                  c ← hex_value h3; d ← hex_value h4;
                  bytes ← utf8 (((a * 16 + b) * 16 + c) * 16 + d);
                  '(str, r) ← read_string rest'';
                  Some (bytes ++ str, r)
              | _ => None
              end
            else
              ch ← (if decide (e = dquote) then Some dquote
                    else if decide (e = backslash) then Some backslash
                    else if decide (e = "/"%char) then Some "/"%char
                    else if decide (e = "b"%char) then Some "008"%char
                    else if decide (e = "f"%char) then Some "012"%char
                    else if decide (e = "n"%char) then Some "010"%char
                    else if decide (e = "r"%char) then Some "013"%char
                    else if decide (e = "t"%char) then Some "009"%char
                    else None);
              '(str, r) ← read_string rest';
              Some (String ch str, r)
        | EmptyString => None
        end
      else if (nat_of_ascii c <? 32)%nat then None
      else '(str, r) ← read_string rest; Some (String c str, r)
  end.

(** [d[k] = v] on the list of items: a key that is there keeps its place. *)
Fixpoint dict_set (k : string) (v : pyval) (d : list (string * pyval))
  : list (string * pyval) :=
  match d with
  | [] => [(k, v)]
  | (k', v') :: d' =>
      if decide (k' = k) then (k, v) :: d' else (k', v') :: dict_set k v d'
  end.

Inductive mode :=
| Value
| Elements (acc : list pyval)
| Members (acc : list (string * pyval)).

Definition literal (word : string) (v : pyval) (s : string)
  : option (pyval * string) :=
  if String.prefix word s
  then Some (v, String.substring (String.length word)
                                 (String.length s - String.length word) s)
  else None.

(** The text after the blanks and the character [c], when [c] comes next. *)
Definition after_char (c : ascii) (s : string) : option string :=
  match skip_ws s with
  | String c' rest => if decide (c' = c) then Some rest else None
  | EmptyString => None
  end.

Fixpoint read (fuel : nat) (m : mode) (s : string) : option (pyval * string) :=
  match fuel with
  | O => None
  | S fuel =>
      match m with
      | Value =>
          match skip_ws s with
          | EmptyString => None
          | String c rest =>
              if decide (c = "["%char) then
                match after_char "]" rest with
                | Some rest' => Some (PList [], rest')
                | None => read fuel (Elements []) rest
                end
              else if decide (c = "{"%char) then
                match after_char "}" rest with
                | Some rest' => Some (PDict [], rest')
                | None => read fuel (Members []) rest
                end
              else if decide (c = dquote) then
                '(str, r) ← read_string rest; Some (PStr str, r)
              else if decide (c = "n"%char) then
                literal "null" PNone (String c rest)
              else if decide (c = "t"%char) then
                literal "true" (PBool true) (String c rest)
              else if decide (c = "f"%char) then
                literal "false" (PBool false) (String c rest)
              else '(q, r) ← read_number (String c rest); Some (PNum q, r)
          end
      | Elements acc =>
          '(v, r) ← read fuel Value s;
          match after_char "," r with
          | Some r' => read fuel (Elements (v :: acc)) r'
          | None =>
              r' ← after_char "]" r; Some (PList (rev (v :: acc)), r')
          end
      | Members acc =>
          r ← after_char dquote s;
          '(k, r) ← read_string r;
          r ← after_char ":" r;
          '(v, r) ← read fuel Value r;
          match after_char "," r with
          | Some r' => read fuel (Members (dict_set k v acc)) r'
          | None =>
              r' ← after_char "}" r; Some (PDict (dict_set k v acc), r')
          end
      end
  end.

(** A whole document: one value, and white space around it. *)
Definition loads (s : string) : option pyval :=
  '(v, r) ← read (2 * String.length s + 2) Value s;
  if decide (skip_ws r = "") then Some v else None.

Definition escape_char (c : ascii) : string :=
  let n := nat_of_ascii c in
  if decide (c = dquote) then String backslash (String dquote "")
  else if decide (c = backslash) then String backslash (String backslash "")
  else if (n =? 10)%nat then String backslash "n"
  else if (n =? 13)%nat then String backslash "r"
  else if (n =? 9)%nat then String backslash "t"
  else if (n =? 8)%nat then String backslash "b"
  else if (n =? 12)%nat then String backslash "f"
  else if (n <? 32)%nat then
    String backslash "u00"
    ++ String (digit_char (n / 16))
         (String (if (n mod 16 <? 10)%nat then digit_char (n mod 16)
                  else ascii_of_nat (87 + n mod 16)) "")
  else String c "".

Fixpoint escape (s : string) : string :=
  match s with
  | EmptyString => ""
  | String c rest => escape_char c ++ escape rest
  end.

Definition quoted (s : string) : string :=
  String dquote (escape s) ++ String dquote "".

(** The fractional digits of [r], which is below 1, cut after [fuel]. *)
Fixpoint fraction_digits (fuel : nat) (r : Q) : string :=
  match fuel with
  | O => ""
  | S f =>
      let r10 := (r * inject_Z 10)%Q in
      let d := Qfloor r10 in
      let r' := Qred (r10 - inject_Z d)%Q in
      String (digit_char (Z.to_nat d))
             (if Qeq_bool r' 0 then "" else fraction_digits f r')
  end.

Definition number (q : Qc) : string :=
  let a := Qabs (this q) in
  let ip := Qfloor a in
  let r := Qred (a - inject_Z ip)%Q in
  (if decide (q < 0) then "-" else "") ++ N_digits (Z.to_N ip)
  ++ (if Qeq_bool r 0 then "" else "." ++ fraction_digits 17 r).

Fixpoint dumps (v : pyval) : string :=
  match v with
  | PNone => "null"
  | PBool true => "true"
  | PBool false => "false"
  | PNum q => number q
  | PStr s => quoted s
  | PList l => "[" ++ String.concat ", " (map dumps l) ++ "]"
  | PDict d =>
      "{" ++ String.concat ", "
               (map (fun kv => match kv with
                               | (k, x) => quoted k ++ ": " ++ dumps x
                               end) d)
      ++ "}"
  | PTimestamp t => quoted (timestamp_str t)
  end.

(** [str(x)] of a float in the same digits, with the [.0] of a whole one. *)
Definition float_str (q : Qc) : string :=
  if Qeq_bool (this q) (inject_Z (Qfloor (this q)))
  then number q ++ ".0" else number q.

End Json.

(** The state of a fresh session: [load_data()] and [load_goals()] find no
    stored data and the default currency is 'RUB'. *)
Definition initial_session : session_state :=
  SessionState [] (PList []) [] (PList []) (PStr "RUB").

(** ** The script as a state machine

    One interaction is one run of the script with one button reporting a
    click (or one widget a new value). *)

Inductive click :=
| AddTransaction (d : date) (trans_type : kind) (category currency : string)
                 (amount : Qc) (description : string)
| SetBudget (now : timestamp) (category_budget : string) (budget_amount : Qc)
| AddGoal (goal_name : string) (goal_amount : Qc) (goal_deadline : date)
| ChangeDefaultCurrency (new_default_currency : string)
| ExportAll
| UploadBackup (content : string)
| SaveChanges (index : nat) (edited_date : date) (edited_type : kind)
              (edited_category edited_currency : string) (edited_amount : Qc)
              (edited_description : string)
| Delete (index : nat)
| Contribute (now : timestamp) (idx : nat) (contribution : Qc).

(** [valid_date d]: [d] is a date [str] and [pd.to_datetime] agree on. *)
Definition valid_date (d : date) : Prop := valid_timestamp (to_datetime_date d).

#[global] Instance valid_date_dec d : Decision (valid_date d).
Proof. unfold valid_date. apply _. Defined.

(** What the widgets let through: a number input with [min_value=0.0]
    gives a number that is not negative, a selector one of its options, a
    date input a date; the clock reads a date and a time. *)
Definition widget_input (c : click) : Prop :=
  match c with
  | AddTransaction d trans_type category currency amount _ =>
      valid_date d /\ category ∈ categories_of trans_type
      /\ currency ∈ CURRENCIES /\ 0 <= amount
  | SetBudget now category_budget budget_amount =>
      valid_timestamp now /\ category_budget ∈ EXPENSE_CATEGORIES
      /\ 0 <= budget_amount
  | AddGoal _ goal_amount goal_deadline =>
      valid_date goal_deadline /\ 0 <= goal_amount
  | ChangeDefaultCurrency new_default_currency =>
      new_default_currency ∈ CURRENCIES
  | ExportAll => True
  | UploadBackup _ => True
  | SaveChanges _ edited_date edited_type edited_category edited_currency
                edited_amount _ =>
      valid_date edited_date /\ edited_category ∈ categories_of edited_type
      /\ edited_currency ∈ CURRENCIES /\ 0 <= edited_amount
  | Delete _ => True
  | Contribute now _ contribution => valid_timestamp now /\ 0 <= contribution
  end.

Section Script.

Variable remote : string -> fetch_outcome.
Variable float_str : Qc -> string.
Variable json_dumps : pyval -> string.
Variable json_loads : string -> option pyval.

Definition handle (c : click) : py unit :=
  match c with
  | AddTransaction d trans_type category currency amount description =>
      add_transaction remote float_str d trans_type category currency amount
                      description
  | SetBudget now category_budget budget_amount =>
      set_budget now category_budget budget_amount
  | AddGoal goal_name goal_amount goal_deadline =>
      add_goal goal_name goal_amount goal_deadline
  | ChangeDefaultCurrency new_default_currency =>
      change_default_currency new_default_currency
  | ExportAll => export_clicked json_dumps
  | UploadBackup content => upload_backup json_loads content
  | SaveChanges index edited_date edited_type edited_category edited_currency
                edited_amount edited_description =>
      save_changes remote float_str index edited_date edited_type
                   edited_category edited_currency edited_amount
                   edited_description
  | Delete index => delete_clicked index
  | Contribute now idx contribution => contribute now idx contribution
  end.

(** The runtime after a run, whether the run returned or raised. *)
Definition after (c : click) (r : runtime) : runtime := snd (handle c r).

Inductive reachable : runtime -> Prop :=
| reachable_init : reachable (Runtime initial_session [])
| reachable_step r c :
    reachable r -> widget_input c -> reachable (after c r).

End Script.

(** ** Predicates and sample data used by the statements *)

Definition initial_runtime : runtime := Runtime initial_session [].

(** A remote that cannot be reached. *)
Definition offline : string -> fetch_outcome := fun _ => RequestFailed.

Definition fetch_failed (o : fetch_outcome) : Prop :=
  match o with RatesOf _ => False | _ => True end.

(** [v[key]] as a partial function: [getitem] raises where it is [None]. *)
Definition item (v : pyval) (key : string) : option pyval :=
  match v with PDict d => dict_get key d | _ => None end.

(** The [try] block of [get_exchange_rates] raises on a reply: no
    response, no JSON, or a body that has no entry 'rates' (a dict without
    the key, or no dict at all). *)
Definition fetch_fails (o : reply) : Prop :=
  match o with
  | NoResponse | NotJson => True
  | Body data => item data "rates" = None
  end.

(** A remote whose table has a rate for 'EUR' only, and one that answers
    with a list where the table should be. *)
Definition euro_only : string -> reply :=
  fun _ => Body (PDict [("rates", PDict [("EUR", PNum (Q2Qc 0.9))])]).

Definition rates_as_list : string -> reply :=
  fun _ => Body (PDict [("rates", PList [PNum 1])]).

(** The default currency of the session is the supported code [dc]. *)
Definition supported_default (r : runtime) (dc : string) : Prop :=
  default_currency (session r) = PStr dc /\ dc ∈ CURRENCIES.

Abbreviation in_category c := (fun t : transaction => tx_category t = c).

Ltac run_py :=
  unfold mbind, py_bind, bind, mret, py_ret, ret, raise, gets, modify, emit,
    save_data, save_goals, try_except; simpl.

(** The amount of a row agrees in sign with its type: not negative for
    'Доход', not positive for 'Расход'. *)
Definition sign_ok (t : transaction) : Prop :=
  match tx_type t with
  | Income => 0 <= tx_amount t
  | Expense => tx_amount t <= 0
  end.

(** The strict reading: positive for 'Доход', negative for 'Расход'. *)
Definition sign_strict (t : transaction) : Prop :=
  match tx_type t with
  | Income => 0 < tx_amount t
  | Expense => tx_amount t < 0
  end.

(** No rate the remote answers with is negative. *)
Definition rates_nonneg (remote : string -> fetch_outcome) : Prop :=
  forall url rs c q, remote url = RatesOf rs -> rs !! c = Some q -> 0 <= q.

(** The row with another date. *)
Definition with_date (row : transaction) (t : timestamp) : transaction :=
  Transaction t (tx_type row) (tx_category row) (tx_amount row)
              (tx_description row) (tx_budget row) (tx_currency row).

(** The dates of the ledger are written in one form: all with
    microseconds or all without. *)
Definition one_format (df : frame) : Prop :=
  forall row row', row ∈ df -> row' ∈ df ->
    date_format_of (tx_date row) = date_format_of (tx_date row').

(** The dates of the ledger are Timestamps pandas has. *)
Definition pandas_dates (df : frame) : Prop :=
  Forall (fun row => pandas_timestamp (tx_date row)) df.

(** The dates of the rows are dates [str] and [pd.to_datetime] agree on. *)
Definition dates_valid (df : frame) : Prop :=
  Forall (fun t => valid_timestamp (tx_date t)) df.

(** The stored data, read with a predicate [N] on values: the ledger
    records are what [save_data] wrote, with dates in range, or satisfy [N];
    the goals and the default currency satisfy [N]. *)
Definition stored_ok (N : pyval -> Prop) (s : session_state) : Prop :=
  ((exists df, transactions_data s = to_dict_records df /\ dates_valid df)
   \/ N (transactions_data s))
  /\ N (goals_data s)
  /\ N (default_currency s).

(** Timestamps occur in the stored data only as the dates of ledger rows. *)
Definition timestamps_only_as_dates (s : session_state) : Prop :=
  stored_ok (fun v => json_native v = true) s.

(** What every run of the script keeps true of a row and of the session. *)
Definition row_ok (D : timestamp -> Prop) (t : transaction) : Prop :=
  sign_ok t /\ D (tx_date t).

Definition session_ok (D : timestamp -> Prop) (N : pyval -> Prop)
           (s : session_state) : Prop :=
  Forall (row_ok D) (transactions s) /\ stored_ok N s.

(** Settles a decidable closed proposition by evaluating its decision. *)
Ltac by_decision := apply (bool_decide_unpack _); vm_compute; exact I.

Ltac decide_keys :=
  repeat match goal with
         | |- context [decide (?a = ?b)] =>
             first [ rewrite (decide_True (P := a = b)) by reflexivity
                   | rewrite (decide_False (P := a = b)) by discriminate ]
         end.

(** *** The shape of a rendered amount *)

Definition chars (s : string) : list ascii := list_ascii_of_string s.

Definition all_digits (s : string) : Prop := Forall (fun c => is_digit c = true) (chars s).

(** Digits in groups: a first group of one to three digits, then groups of
    exactly three, each after a comma. *)
Inductive grouped : string -> Prop :=
| grouped_first ds :
    all_digits ds -> (1 <= String.length ds <= 3)%nat -> grouped ds
| grouped_next s ds :
    grouped s -> all_digits ds -> String.length ds = 3%nat ->
    grouped (s ++ "," ++ ds).

Definition has_point (s : string) : Prop := "."%char ∈ chars s.

(** The number a string of digits denotes, read from the left; characters
    that are no digits, the commas between groups, are passed over. *)
Definition read_digit (acc : N) (c : ascii) : N :=
  if is_digit c then (acc * 10 + N.of_nat (nat_of_ascii c - 48))%N else acc.

Definition digits_value_from (acc : N) (s : string) : N :=
  fold_left read_digit (chars s) acc.

Definition digits_value (s : string) : N := digits_value_from 0 s.

Definition short_group (n : nat) : bool :=
  let s := N_digits (N.of_nat n) in
  forallb is_digit (chars s)
  && (1 <=? String.length s)%nat && (String.length s <=? 3)%nat.

(** What the reader has collected so far holds no Timestamp. *)
Definition mode_native (m : Json.mode) : Prop :=
  match m with
  | Json.Value => True
  | Json.Elements acc => forallb json_native acc = true
  | Json.Members acc =>
      forallb (fun kv => match kv with (_, x) => json_native x end) acc = true
  end.

(** ** Sample sessions *)

Definition may_day : date := Date 2024 5 1.
Definition noon : timestamp := Timestamp 2024 5 1 12 0 0 0.

(** One run of the script with the remote out of reach and the reference
    JSON reader and writer. *)
Definition run : click -> runtime -> runtime :=
  after offline Json.float_str Json.dumps Json.loads.

Definition purchase (amount : Q) : click :=
  AddTransaction may_day Expense "Продукты" "RUB" (Q2Qc amount) "".

(** Two purchases of the same category. *)
Definition two_purchases : runtime :=
  run (purchase 50) (run (purchase 200) initial_runtime).

(** A salary, a goal, and a contribution to it. *)
Definition saving_for_car : runtime :=
  run (AddGoal "Car" (Q2Qc 10000) (Date 2025 12 31))
      (run (AddTransaction may_day Income "Зарплата" "RUB" (Q2Qc 1000) "")
           initial_runtime).

(** The same session after 2500 went into the goal. *)
Definition after_contribution : runtime :=
  run (Contribute noon 0 (Q2Qc 2500)) saving_for_car.

(** The session of [saving_for_car] after 1e16 went into the goal. *)
Definition goal_of_1e16 : runtime :=
  run (Contribute noon 0 (Q2Qc 1e16)) saving_for_car.



(** The backup text of a document that has the ledger but not the goals. *)
Definition ledger_only_backup : string :=
  "{" ++ Json.quoted "transactions" ++ ": []}".

(** A row of the category with amount 0: the row the budget is kept on. *)
Definition zero_amount_row (c : string) (t : transaction) : Prop :=
  tx_category t = c /\ tx_amount t = 0.

(** A row of the category that carries a budget. *)
Definition carries_budget (c : string) (t : transaction) : Prop :=
  tx_category t = c /\ tx_budget t ≠ 0.

(** ** The main area

    What the tabs of the main area compute from the ledger and the goals
    in every run of the script. *)

#[global] Instance kind_eq_dec : EqDecision kind.
Proof. solve_decision. Defined.

(** [abs(x)] of a number. *)
Abbreviation py_abs := Qcabs.Qcabs.

(** [series.sum()]: 0 for the empty column.  The sum is the exact one;
    pandas adds floats, in an order of its own for long columns. *)
Definition column_sum (amounts : list Qc) : Qc := foldr Qcplus 0 amounts.

(** The three metrics of the overview tab (lines 258-271). *)
Definition total_balance (df : frame) : Qc := column_sum (map tx_amount df).

Definition income (df : frame) : Qc :=
  column_sum (map tx_amount (filter (fun t => 0 < tx_amount t) df)).

Definition expenses (df : frame) : Qc :=
  py_abs (column_sum (map tx_amount (filter (fun t => tx_amount t < 0) df))).

(** The rows of a frame with their index labels.  The frame of the session
    is always numbered from 0: [pd.concat(..., ignore_index=True)] and
    [reset_index(drop=True)] renumber it, and a selection keeps the labels
    of the rows it selects. *)
Definition labelled (df : frame) : list (nat * transaction) :=
  imap (fun index row => (index, row)) df.

(** [filtered_history] of the history tab (lines 346-351).  The two
    multiselects filter only when something is selected in them. *)
Definition filtered_history (type_filter : list kind)
           (category_filter : list string) (min_amount : Qc) (df : frame)
  : list (nat * transaction) :=
  let filtered_history := labelled df in
  let filtered_history :=
    if decide (type_filter = []) then filtered_history
    else filter (fun ir => tx_type ir.2 ∈ type_filter) filtered_history in
  let filtered_history :=
    if decide (category_filter = []) then filtered_history
    else filter (fun ir => tx_category ir.2 ∈ category_filter) filtered_history in
  filter (fun ir => min_amount <= py_abs (tx_amount ir.2)) filtered_history.

(** Lines 366-383.  The type selector of a row starts at the row's own
    type; the category selector takes the row's category as its default
    among the categories of the type selected, and the currency selector
    the row's currency among CURRENCIES. *)
Definition row_selectors (edited_type : kind) (row : transaction) : py unit :=
  selector_default (categories_of edited_type) (tx_category row);;
  selector_default CURRENCIES (tx_currency row).

(** [ts.strftime('%d.%m.%Y')] *)
Definition strftime_dmy (t : timestamp) : string :=
  fixed_digits 2 (ts_day t) ++ "." ++ fixed_digits 2 (ts_month t) ++ "."
  ++ fixed_digits 4 (ts_year t).

(** A row of [export_df]: the date and the amount are text. *)
Record export_row := ExportRow {
  ex_date : string;
  ex_type : kind;
  ex_category : string;
  ex_amount : string;
  ex_description : string;
  ex_budget : Qc;
  ex_currency : string
}.

(** [df.apply(f, axis=1)]: [f] on every row, in order; the first exception
    ends it. *)
Fixpoint apply_rows {A B} (f : A -> py B) (rows : list A) : py (list B) :=
  match rows with
  | [] => ret []
  | row :: rows' =>
      y ← f row;
      ys ← apply_rows f rows';
      ret (y :: ys)
  end.

(** The frame [export_to_csv] hands to [to_csv] (lines 85-91).  The history
    tab calls it with a frame that is not empty (line 353). *)
Definition export_df (df : frame) : py (list export_row) :=
  amounts ← apply_rows
              (fun row => format_amount (py_abs (tx_amount row))
                                        (Some (tx_currency row)))
              df;
  ret (zip_with
         (fun row amount =>
            ExportRow (strftime_dmy (tx_date row)) (tx_type row)
                      (tx_category row)
                      (if decide (tx_type row = Expense) then "-" ++ amount
                       else amount)
                      (tx_description row) (tx_budget row) (tx_currency row))
         df amounts).

(** The byte order mark [encode('utf-8-sig')] puts in front. *)
Definition utf8_sig : string :=
  String (ascii_of_nat 239) (String (ascii_of_nat 187) (String (ascii_of_nat 191) "")).

Section Csv.

(** [DataFrame.to_csv(index=False)], the text of the table. *)
Variable to_csv : list export_row -> string.

Definition export_to_csv (df : frame) : py string :=
  rows ← export_df df;
  ret (utf8_sig ++ to_csv rows).

End Csv.

(** The goals tab (lines 439-440): the progress in percent, and the value
    the progress bar is given, [min(progress/100, 1.0)]. *)
Definition progress (g : goal) : Qc :=
  if decide (0 < target_amount g)
  then current_amount g / target_amount g * Q2Qc 100
  else 0.

Definition progress_value (g : goal) : Qc :=
  let v := progress g / Q2Qc 100 in
  if decide (1 < v) then 1 else v.

(** *** Grouping *)

#[global] Instance timestamp_eq_dec : EqDecision timestamp.
Proof. solve_decision. Defined.

(** The order of Timestamps: the civil fields compared from the year
    down. *)
Definition timestamp_fields (t : timestamp) : list nat :=
  [ts_year t; ts_month t; ts_day t; ts_hour t; ts_minute t; ts_second t;
   ts_microsecond t].

Fixpoint fields_leb (a b : list nat) : bool :=
  match a, b with
  | [], _ => true
  | _ :: _, [] => false
  | x :: a', y :: b' => (x <? y)%nat || ((x =? y)%nat && fields_leb a' b')
  end.

Definition timestamp_le (a b : timestamp) : Prop :=
  fields_leb (timestamp_fields a) (timestamp_fields b) = true.

#[global] Instance timestamp_le_dec : RelDecision timestamp_le.
Proof. intros a b. unfold timestamp_le. apply _. Defined.

(** The order of strings, character by character. *)
Definition string_le (a b : string) : Prop := String.leb a b = true.

#[global] Instance string_le_dec : RelDecision string_le.
Proof. intros a b. unfold string_le. apply _. Defined.

Section GroupBy.
Context {K : Type} `{EqDecision K}.
Variable le : relation K.
Context `{!RelDecision le}.
Variable key : transaction -> K.

(** The group keys of [df.groupby(key)]: the keys that occur, each once,
    in ascending order. *)
Definition group_keys (df : frame) : list K :=
  merge_sort le (remove_dups (map key df)).

(** The rows of one group. *)
Definition group (k : K) (df : frame) : frame :=
  filter (fun row => key row = k) df.

(** [df.groupby(key)['Сумма'].sum()] *)
Definition groupby_sum (df : frame) : list (K * Qc) :=
  map (fun k => (k, column_sum (map tx_amount (group k df)))) (group_keys df).

End GroupBy.

(** [series.cumsum()] *)
Fixpoint cumsum_from (acc : Qc) (values : list Qc) : list Qc :=
  match values with
  | [] => []
  | x :: values' => (acc + x) :: cumsum_from (acc + x) values'
  end.

Definition cumsum (values : list Qc) : list Qc := cumsum_from 0 values.

(** [daily_balance] of the overview tab (line 289): the sums of the
    amounts by date, accumulated.  The values are the exact sums. *)
Definition daily_balance (df : frame) : list (timestamp * Qc) :=
  let sums := groupby_sum timestamp_le tx_date df in
  zip (sums.*1) (cumsum (sums.*2)).

(** [filtered_df] of the analytics tab (lines 309-312): the rows dated
    from [pd.to_datetime(start_date)] to [pd.to_datetime(end_date)], both
    midnights, ends included. *)
Definition in_period (start_date end_date : date) (row : transaction) : Prop :=
  timestamp_le (to_datetime_date start_date) (tx_date row)
  /\ timestamp_le (tx_date row) (to_datetime_date end_date).

Definition filtered_df (start_date end_date : date) (df : frame) : frame :=
  filter (in_period start_date end_date) df.

Section Analytics.

(** [.sum()] of the amounts of a group followed by [.round(2)], as pandas
    and numpy compute the two on floats. *)
Variable sum_round2 : list Qc -> Qc.

(** [expenses_analysis] (lines 315-321): for each category with expenses
    in the period, the formatted total and the number of rows. *)
Definition expenses_analysis (start_date end_date : date) (df : frame)
  : py (list (string * (string * nat))) :=
  let spent := filter (fun row => tx_amount row < 0)
                      (filtered_df start_date end_date df) in
  apply_rows
    (fun category =>
       let rows := group tx_category category spent in
       total ← format_amount (py_abs (sum_round2 (map tx_amount rows))) None;
       ret (category, (total, length rows)))
    (group_keys string_le tx_category spent).

End Analytics.

(** ** Predicates used by the further statements *)

(** [convert_amount] from [from_currency] to [to_currency] multiplies by
    [rate] and appends [events] to the log: nothing when the two are the
    same currency, the request otherwise, with the rate of the fetched
    table, or, after the [st.error] of a failed fetch, of the fallback
    table. *)
Definition converts (remote : string -> fetch_outcome)
           (from_currency to_currency : string) (rate : Qc)
           (events : list event) : Prop :=
  (forall a r, convert_amount remote a from_currency to_currency r
               = (Ok (a * rate), Runtime (session r) (log r ++ events)))
  /\ (from_currency = to_currency -> rate = 1 /\ events = [])
  /\ (from_currency ≠ to_currency ->
      (exists rs, remote (latest_url from_currency) = RatesOf rs
                  /\ rate = rates_get rs to_currency
                  /\ events = [HttpGet (latest_url from_currency)])
      \/ (fetch_failed (remote (latest_url from_currency))
          /\ rate = rates_get (fallback_rates from_currency) to_currency
          /\ events = [HttpGet (latest_url from_currency);
                       StError "Ошибка при получении курсов валют"])).

(** [R] holds of every row of the ledger and [G] of every goal. *)
Definition kept (R : transaction -> Prop) (G : goal -> Prop) (r : runtime)
  : Prop :=
  Forall R (transactions (session r)) /\ Forall G (goals (session r)).

(** What the handlers keep true of a row: its category is one the selector
    offers for its type, its currency is a supported one, its budget is
    not negative and its date is one [str] and [pd.to_datetime] agree on. *)
Definition row_well_formed (row : transaction) : Prop :=
  tx_category row ∈ categories_of (tx_type row)
  /\ tx_currency row ∈ CURRENCIES
  /\ 0 <= tx_budget row
  /\ valid_timestamp (tx_date row).

(** And of a goal: neither amount is negative. *)
Definition goal_well_formed (g : goal) : Prop :=
  0 <= target_amount g /\ 0 <= current_amount g.

(** ** More sample data *)

(** The first row of [two_purchases]. *)
Definition first_purchase : transaction :=
  Transaction (to_datetime_date may_day) Expense "Продукты" (- Q2Qc 200) "" 0 "RUB".

(** The goal of [after_contribution]. *)
Definition car_goal : goal :=
  Goal "Car" (Q2Qc 10000) (strftime_ymd (Date 2025 12 31))
       (float_add 0 (Q2Qc 2500)).

(** The goal of [saving_for_car], before any contribution. *)
Definition new_car_goal : goal :=
  Goal "Car" (Q2Qc 10000) (strftime_ymd (Date 2025 12 31)) 0.

(** A backup whose entries are not what the app writes: a number for the
    ledger, [null] for the goals, and a currency the app does not know. *)
Definition odd_backup_document : pyval :=
  PDict [("transactions", PNum (Q2Qc 5));
         ("goals", PNone);
         ("settings", PDict [("default_currency", PStr "BTC")])].

Definition odd_backup : string := Json.dumps odd_backup_document.

(** The ledger of [after_contribution]: a salary of 1000 dated at midnight
    and a contribution of 2500 dated at noon of the same day. *)
Definition salary_and_contribution : frame :=
  transactions (session after_contribution).

(** A backup with an empty ledger, no goals and the default currency
    'USD'. *)
Definition empty_backup : string :=
  Json.dumps (PDict [("transactions", PList []);
                     ("goals", PList []);
                     ("settings", PDict [("default_currency", PStr "USD")])]).

(** * Properties *)

(** ** Running a computation *)

Lemma bind_ok {A B} (m : py A) (k : A -> py B) r a r' :
  m r = (Ok a, r') -> (m ≫= k) r = k a r'.
Proof. intros H. unfold mbind, py_bind, bind. by rewrite H. Qed.

Lemma bind_raise {A B} (m : py A) (k : A -> py B) r e r' :
  m r = (Raise e, r') -> (m ≫= k) r = (Raise e, r').
Proof. intros H. unfold mbind, py_bind, bind. by rewrite H. Qed.

Lemma default_currency_code_ok r dc :
  supported_default r dc -> default_currency_code r = (Ok dc, r).
Proof.
  intros [Hdc Hin]. unfold default_currency_code. run_py. rewrite Hdc.
  by rewrite decide_True.
Qed.

Lemma default_currency_code_cases r :
  (exists dc, supported_default r dc /\ default_currency_code r = (Ok dc, r))
  \/ default_currency_code r = (Raise ValueError, r).
Proof.
  unfold default_currency_code, supported_default. run_py.
  destruct (default_currency (session r)); try by right.
  case_decide; [left|by right]. eauto.
Qed.

Lemma supported_default_RUB r :
  default_currency (session r) = PStr "RUB" -> supported_default r "RUB".
Proof. intros H. split; [done|]. apply list_elem_of_here. Qed.

(** ** Floats *)

Lemma round_half_even_nearest (q : Q) :
  (0 <= q)%Q ->
  (0 <= round_half_even q)%Z
  /\ (q - (1 # 2) <= inject_Z (round_half_even q) <= q + (1 # 2))%Q.
Proof.
  intros Hq. unfold round_half_even.
  pose proof (Qfloor_le q) as Hlo. pose proof (Qlt_floor q) as Hhi.
  rewrite inject_Z_plus in Hhi. change (inject_Z 1) with 1%Q in Hhi.
  assert (0 <= Qfloor q)%Z as Hfl.
  { change 0%Z with (Qfloor 0). by apply Qfloor_resp_le. }
  destruct (q - inject_Z (Qfloor q) ?= 1 # 2)%Q eqn:E.
  - apply Qeq_alt in E. destruct (Z.even (Qfloor q)).
    + split; [done|]. lra.
    + split; [lia|]. rewrite inject_Z_plus. change (inject_Z 1) with 1%Q. lra.
  - apply Qlt_alt in E. split; [done|]. lra.
  - apply Qgt_alt in E. split; [lia|].
    rewrite inject_Z_plus. change (inject_Z 1) with 1%Q. lra.
Qed.

(** Two equally near integers: the even one is taken. *)
Lemma round_half_even_tie (q : Q) :
  (Qabs (inject_Z (round_half_even q) - q) == 1 # 2)%Q ->
  Z.even (round_half_even q) = true.
Proof.
  unfold round_half_even.
  pose proof (Qfloor_le q) as Hlo. pose proof (Qlt_floor q) as Hhi.
  rewrite inject_Z_plus in Hhi. change (inject_Z 1) with 1%Q in Hhi.
  destruct (q - inject_Z (Qfloor q) ?= 1 # 2)%Q eqn:E.
  - intros _. destruct (Z.even (Qfloor q)) eqn:Ee; [done|].
    rewrite Z.even_add, Ee. reflexivity.
  - apply Qlt_alt in E. intros H. exfalso. revert H.
    apply Qabs_case; intros _ H; lra.
  - apply Qgt_alt in E. rewrite inject_Z_plus. change (inject_Z 1) with 1%Q.
    intros H. exfalso. revert H. apply Qabs_case; intros _ H; lra.
Qed.

Lemma pow2_pos e : (0 < pow2 e)%Q.
Proof. apply Qpower_0_lt. reflexivity. Qed.

Lemma exponent_le n d : (pow2 (exponent n d) <= Zpos n # d)%Q.
Proof.
  unfold exponent. cbv zeta.
  destruct (Qle_bool _ _) eqn:E; [by apply Qle_bool_iff|]. clear E.
  pose proof (Z.log2_nonneg (Z.pos n)) as Ha.
  pose proof (Z.log2_nonneg (Z.pos d)) as Hb.
  destruct (Z.log2_spec (Z.pos n)) as [Hn _]; [done|].
  destruct (Z.log2_spec (Z.pos d)) as [_ Hd]; [done|].
  replace (Z.log2 (Z.pos n) - Z.log2 (Z.pos d) - 1)%Z
    with (Z.log2 (Z.pos n) - Z.succ (Z.log2 (Z.pos d)))%Z by lia.
  unfold pow2. rewrite Qpower_minus by done.
  change 2%Q with (inject_Z 2). rewrite <- !Zpower_Qpower by lia.
  apply Qle_shift_div_r.
  { change 0%Q with (inject_Z 0). rewrite <- Zlt_Qlt. lia. }
  set (A := (2 ^ Z.log2 (Z.pos n))%Z) in *.
  set (B := (2 ^ Z.succ (Z.log2 (Z.pos d)))%Z) in *.
  unfold Qle, Qmult, inject_Z. cbn [Qnum Qden].
  rewrite Pos.mul_1_r. nia.
Qed.

Lemma nearest_float_nonneg n d : (0 <= nearest_float n d)%Q.
Proof.
  unfold nearest_float. cbv zeta. rewrite Qred_correct.
  set (u := pow2 _). assert (0 < u)%Q as Hu by apply pow2_pos.
  assert (0 <= (Z.pos n # d) / u)%Q as Hm.
  { apply Qle_shift_div_l; [done|]. rewrite Qmult_0_l. done. }
  destruct (round_half_even_nearest _ Hm) as [H0 _].
  apply Qmult_le_0_compat; [|by apply Qlt_le_weak].
  change 0%Q with (inject_Z 0). by rewrite <- Zle_Qle.
Qed.

(** The nearest float is within half a step of the number: a relative
    error of [2 ** -53], or [2 ** -1075] among the subnormal floats. *)
Lemma nearest_float_error n d :
  (Qabs (nearest_float n d - (Zpos n # d))
   <= (Zpos n # d) * pow2 (-53) + pow2 (-1075))%Q.
Proof.
  unfold nearest_float. cbv zeta. rewrite Qred_correct.
  pose proof (exponent_le n d) as He.
  set (x := (Z.pos n # d)) in *.
  set (P := Z.max (exponent n d - 52) (-1074)).
  set (u := pow2 P). assert (0 < u)%Q as Hu by apply pow2_pos.
  assert (0 < x)%Q as Hx by done.
  assert (0 <= x / u)%Q as Hm.
  { apply Qle_shift_div_l; [done|]. rewrite Qmult_0_l. by apply Qlt_le_weak. }
  destruct (round_half_even_nearest _ Hm) as [_ [Hlo Hhi]].
  set (m := inject_Z (round_half_even (x / u))) in *.
  assert (x == (x / u) * u)%Q as Ex by (field; lra).
  assert (u * (1 # 2) <= x * pow2 (-53) + pow2 (-1075))%Q as Hq.
  { pose proof (pow2_pos (-1075)) as H1. pose proof (pow2_pos (-53)) as H2.
    destruct (Z.max_spec (exponent n d - 52) (-1074)) as [[_ E]|[_ E]].
    - assert (u * (1 # 2) == pow2 (-1075))%Q as ->; [|nra].
      unfold u, P. rewrite E. reflexivity.
    - assert (u * (1 # 2) == pow2 (exponent n d) * pow2 (-53))%Q as ->; [|nra].
      unfold u, P. rewrite E. unfold pow2.
      replace (exponent n d - 52)%Z with (exponent n d + -52)%Z by lia.
      rewrite Qpower_plus by done.
      assert ((2 ^ (-52)) * (1 # 2) == 2 ^ (-53))%Q as <- by reflexivity.
      ring. }
  apply Qabs_case; intros _; nra.
Qed.

Ltac Qc_to_Q :=
  unfold Qcle, Qclt, Qcabs.Qcabs, Qcminus, Qcplus, Qcmult, Qcopp, Q2Qc;
  cbn [this]; rewrite ?Qred_correct.

Lemma binary64_nonneg (q : Qc) : 0 <= q -> 0 <= binary64 q.
Proof.
  intros Hq. unfold binary64.
  destruct q as [[[|n|n] d] Hc]; cbn [Qnum Qden this].
  - done.
  - Qc_to_Q. apply nearest_float_nonneg.
  - exfalso. unfold Qcle, Qle in Hq. simpl in Hq. lia.
Qed.

Lemma binary64_error (q : Qc) :
  py_abs (binary64 q - q)
  <= py_abs q * Q2Qc (pow2 (-53)) + Q2Qc (pow2 (-1075)).
Proof.
  unfold binary64. destruct q as [[[|n|n] d] Hc]; cbn [Qnum Qden this].
  - vm_compute. discriminate.
  - Qc_to_Q. rewrite (Qabs_pos (Z.pos n # d)) by done.
    apply nearest_float_error.
  - Qc_to_Q. pose proof (nearest_float_error n d) as H.
    assert (Qabs (Z.neg n # d) == Z.pos n # d)%Q as -> by reflexivity.
    assert (- nearest_float n d + - (Z.neg n # d)
            == - (nearest_float n d - (Z.pos n # d)))%Q as ->.
    { assert (Z.neg n # d == - (Z.pos n # d))%Q as -> by reflexivity. ring. }
    by rewrite Qabs_opp.
Qed.

Lemma float_add_nonneg (a b : Qc) : 0 <= a -> 0 <= b -> 0 <= float_add a b.
Proof.
  intros Ha Hb. apply binary64_nonneg.
  rewrite <- (Qcplus_0_l 0). by apply Qcplus_le_compat.
Qed.

(** The sums Python prints as 0.30000000000000004 and 1e+16: the first is
    not the float 0.3, and in the second the 1.0 added is lost. *)
Example float_add_tenths :
  float_add (binary64 (Q2Qc 0.1)) (binary64 (Q2Qc 0.2))
  = Q2Qc (1351079888211149 # 4503599627370496)
  /\ binary64 (Q2Qc 0.3) = Q2Qc (5404319552844595 # 18014398509481984)
  /\ float_add (binary64 (Q2Qc 0.1)) (binary64 (Q2Qc 0.2))
     <> binary64 (Q2Qc 0.3).
Proof.
  split; [|split].
  - apply Qc_is_canon. vm_compute. reflexivity.
  - apply Qc_is_canon. vm_compute. reflexivity.
  - intros E. apply (f_equal this) in E. vm_compute in E. discriminate E.
Qed.

Example float_add_absorbs : float_add (Q2Qc 1e16) 1 = Q2Qc 1e16.
Proof. apply Qc_is_canon. vm_compute. reflexivity. Qed.

(** ** Rate fetcher *)

Lemma lookup_comprehension (f : string -> Qc) (l : list string) (c : string) :
  (list_to_map (map (fun k => (k, f k)) l) : rates) !! c
  = if decide (c ∈ l) then Some (f c) else None.
Proof.
  induction l as [|k l IH].
  - rewrite decide_False by apply not_elem_of_nil. apply lookup_empty.
  - change (map (fun k0 => (k0, f k0)) (k :: l))
      with ((k, f k) :: map (fun k0 => (k0, f k0)) l).
    rewrite list_to_map_cons.
    destruct (decide (k = c)) as [->|Hne].
    + rewrite lookup_insert_eq, decide_True; [done | apply list_elem_of_here].
    + rewrite lookup_insert_ne by done. rewrite IH.
      destruct (decide (c ∈ l)) as [Hin|Hnin].
      * rewrite decide_True; [done | by apply list_elem_of_further].
      * rewrite decide_False; [done |].
        rewrite elem_of_cons. intros [->|?]; done.
Qed.

Lemma fallback_rates_lookup (base c : string) :
  fallback_rates base !! c
  = if decide (c ∈ CURRENCIES)
    then Some (if decide (c = base) then 1 else 0) else None.
Proof. unfold fallback_rates. apply lookup_comprehension. Qed.

Lemma get_exchange_rates_failed remote base r :
  fetch_failed (remote (latest_url base)) ->
  get_exchange_rates remote base r
  = (Ok (fallback_rates base),
     Runtime (session r)
             (log r ++ [HttpGet (latest_url base)]
                    ++ [StError "Ошибка при получении курсов валют"])).
Proof.
  intros Hf. unfold get_exchange_rates, try_except, fetch_rates.
  unfold mbind, py_bind, bind, emit, raise, ret, mret, py_ret; simpl.
  destruct (remote (latest_url base)); simpl in *; try done;
    by rewrite <- app_assoc.
Qed.

Lemma get_exchange_rates_fetched remote base r rs :
  remote (latest_url base) = RatesOf rs ->
  get_exchange_rates remote base r
  = (Ok rs, Runtime (session r) (log r ++ [HttpGet (latest_url base)])).
Proof.
  intros Hf. unfold get_exchange_rates, try_except, fetch_rates.
  unfold mbind, py_bind, bind, emit, raise, ret, mret, py_ret; simpl.
  by rewrite Hf.
Qed.

(** C7. When the fetch fails at any of its three steps, [get_exchange_rates]
    still returns: the result maps a supported base currency to 1 and every
    other supported currency to 0, the request and one [st.error] are all
    that is added to the log, and the session is not touched. *)
Theorem get_exchange_rates_fallback remote (base : string) (r : runtime) :
  fetch_failed (remote (latest_url base)) ->
  exists table,
    get_exchange_rates remote base r
    = (Ok table,
       Runtime (session r)
               (log r ++ [HttpGet (latest_url base)]
                      ++ [StError "Ошибка при получении курсов валют"]))
    /\ (base ∈ CURRENCIES -> table !! base = Some 1)
    /\ (forall c, c ∈ CURRENCIES -> c ≠ base -> table !! c = Some 0)
    /\ (forall c, c ∉ CURRENCIES -> table !! c = None).
Proof.
  intros Hf. exists (fallback_rates base). split; [|split; [|split]].
  - by apply get_exchange_rates_failed.
  - intros Hb. rewrite fallback_rates_lookup. by rewrite !decide_True.
  - intros c Hc Hne. rewrite fallback_rates_lookup.
    by rewrite decide_True, decide_False.
  - intros c Hc. rewrite fallback_rates_lookup. by rewrite decide_False.
Qed.

(** C7 at work: 'USD' as the base, with the remote out of reach. *)
Lemma get_exchange_rates_fallback_witness :
  fetch_failed (offline (latest_url "USD"))
  /\ exists table,
       get_exchange_rates offline "USD" initial_runtime
       = (Ok table,
          Runtime (session initial_runtime)
                  (log initial_runtime ++ [HttpGet (latest_url "USD")]
                     ++ [StError "Ошибка при получении курсов валют"])%list)
       /\ ("USD" ∈ CURRENCIES -> table !! "USD" = Some 1)
       /\ (forall c, c ∈ CURRENCIES -> c ≠ "USD" -> table !! c = Some 0)
       /\ (forall c, c ∉ CURRENCIES -> table !! c = None).
Proof.
  split; [exact I|].
  apply (get_exchange_rates_fallback offline "USD" initial_runtime). exact I.
Defined.

(** C9. Converting into the same currency returns the amount and leaves the
    runtime as it was: nothing is appended to the log, so no request is
    made. *)
Theorem convert_amount_same_currency remote (a : Qc) (X : string) (r : runtime) :
  convert_amount remote a X X r = (Ok a, r).
Proof. unfold convert_amount. by rewrite decide_True. Qed.

Lemma convert_amount_distinct remote a from to r :
  from ≠ to ->
  convert_amount remote a from to r
  = match get_exchange_rates remote from r with
    | (Ok rs, r') => (Ok (a * rates_get rs to), r')
    | (Raise e, r') => (Raise e, r')
    end.
Proof.
  intros Hne. unfold convert_amount. rewrite decide_False by done.
  unfold mbind, py_bind, bind. by destruct (get_exchange_rates remote from r) as [[]].
Qed.

Lemma dict_get_comprehension (f : string -> pyval) (l : list string)
      (c : string) :
  dict_get c (map (fun k => (k, f k)) l)
  = if decide (c ∈ l) then Some (f c) else None.
Proof.
  induction l as [|k l IH].
  - by rewrite decide_False by apply not_elem_of_nil.
  - simpl. destruct (decide (k = c)) as [->|Hne].
    + by rewrite decide_True by apply list_elem_of_here.
    + rewrite IH. destruct (decide (c ∈ l)) as [Hin|Hnin].
      * by rewrite decide_True by (by apply list_elem_of_further).
      * rewrite decide_False; [done|].
        rewrite elem_of_cons. intros [->|?]; done.
Qed.

Lemma dict_get_of_table (l : list (string * Qc)) (c : string) :
  dict_get c (map (fun cq => (cq.1, PNum cq.2)) l)
  = PNum <$> (list_to_map l : rates) !! c.
Proof.
  induction l as [|[k q] l IH].
  { rewrite list_to_map_nil. by rewrite lookup_empty. }
  rewrite list_to_map_cons. cbn [map dict_get fst snd].
  destruct (decide (k = c)) as [->|Hne].
  - by rewrite lookup_insert_eq.
  - by rewrite lookup_insert_ne.
Qed.

Lemma untyped_get_exchange_rates_failed remote base r :
  fetch_fails (remote (latest_url base)) ->
  Untyped.get_exchange_rates remote base r
  = (Ok (Untyped.fallback_rates base),
     Runtime (session r)
             (log r ++ [HttpGet (latest_url base)]
                    ++ [StError "Ошибка при получении курсов валют"])).
Proof.
  intros Hf. unfold Untyped.get_exchange_rates, try_except, Untyped.fetch_rates.
  unfold mbind, py_bind, bind, emit, raise, ret, mret, py_ret; simpl.
  destruct (remote (latest_url base)) as [| |data]; simpl in *;
    try (by rewrite <- app_assoc).
  destruct data; simpl in *; try (by rewrite <- app_assoc).
  rewrite Hf. simpl. by rewrite <- app_assoc.
Qed.

Lemma untyped_get_exchange_rates_fetched remote base r data v :
  remote (latest_url base) = Body data -> item data "rates" = Some v ->
  Untyped.get_exchange_rates remote base r
  = (Ok v, Runtime (session r) (log r ++ [HttpGet (latest_url base)])).
Proof.
  intros Ho Hv. unfold Untyped.get_exchange_rates, try_except, Untyped.fetch_rates.
  unfold mbind, py_bind, bind, emit, raise, ret, mret, py_ret; simpl.
  rewrite Ho. destruct data; simpl in *; try done. by rewrite Hv.
Qed.

Lemma untyped_convert_amount_distinct remote a from to r :
  from ≠ to ->
  Untyped.convert_amount remote a from to r
  = match Untyped.get_exchange_rates remote from r with
    | (Ok rates, r') =>
        match Untyped.rates_get rates to r' with
        | (Ok x, r'') => Untyped.multiply a x r''
        | (Raise e, r'') => (Raise e, r'')
        end
    | (Raise e, r') => (Raise e, r')
    end.
Proof.
  intros Hne. unfold Untyped.convert_amount. rewrite decide_False by done.
  unfold mbind, py_bind, bind.
  by destruct (Untyped.get_exchange_rates remote from r) as [[]].
Qed.

(** On the replies of the documented shape the two converters agree. *)
Lemma untyped_convert_amount_typed remote a from to r :
  Untyped.convert_amount (fun url => reply_of (remote url)) a from to r
  = convert_amount remote a from to r.
Proof.
  destruct (decide (from = to)) as [->|Hne].
  { unfold Untyped.convert_amount, convert_amount. by rewrite !decide_True. }
  rewrite untyped_convert_amount_distinct, convert_amount_distinct by done.
  destruct (remote (latest_url from)) as [| | |rs] eqn:Ho.
  1-3: rewrite untyped_get_exchange_rates_failed by (by rewrite Ho);
       rewrite get_exchange_rates_failed by (by rewrite Ho);
       unfold Untyped.rates_get, Untyped.fallback_rates, rates_get, ret;
       rewrite dict_get_comprehension, fallback_rates_lookup;
       by case_decide.
  erewrite untyped_get_exchange_rates_fetched; [| by rewrite Ho | reflexivity].
  erewrite get_exchange_rates_fetched by done.
  unfold Untyped.rates_get, rates_get, ret.
  rewrite dict_get_of_table, list_to_map_to_list.
  by destruct (rs !! to).
Qed.

Lemma untyped_convert_amount_failed remote a from to r :
  from ≠ to -> fetch_fails (remote (latest_url from)) ->
  Untyped.convert_amount remote a from to r
  = (Ok 0,
     Runtime (session r)
             (log r ++ [HttpGet (latest_url from);
                        StError "Ошибка при получении курсов валют"])).
Proof.
  intros Hne Hf. rewrite untyped_convert_amount_distinct by done.
  rewrite untyped_get_exchange_rates_failed by done.
  unfold Untyped.rates_get, Untyped.fallback_rates, ret.
  rewrite dict_get_comprehension.
  assert (forall x : Qc, a * 0 = 0) as E by (intros _; ring).
  case_decide; simpl; unfold ret.
  - rewrite decide_False by done. by rewrite (E 0).
  - by rewrite (E 0).
Qed.

Lemma untyped_convert_amount_fetched remote a from to r data rates :
  from ≠ to ->
  remote (latest_url from) = Body data -> item data "rates" = Some rates ->
  Untyped.convert_amount remote a from to r
  = ((match rates with
      | PDict d =>
          match default (PNum 0) (dict_get to d) with
          | PNum q => Ok (a * q)
          | PBool b => Ok (a * (if b then 1 else 0))
          | _ => Raise TypeError
          end
      | _ => Raise AttributeError
      end),
     Runtime (session r) (log r ++ [HttpGet (latest_url from)])).
Proof.
  intros Hne Ho Hrates. rewrite untyped_convert_amount_distinct by done.
  erewrite untyped_get_exchange_rates_fetched by done.
  destruct rates; try done. simpl.
  by destruct (default (PNum 0) (dict_get to d)).
Qed.

(** C10.  For distinct currencies [convert_amount] returns when the fetch
    fails, with 0 for every target, and when the fetched 'rates' value is a
    dict in which the target has no entry, where the lookup defaults to 0
    and the result is [a * 0 = 0], no KeyError, or has a number (one a
    float can hold) or a bool.  It does not return for every reply: a
    'rates' value that is not a dict makes [rates.get] raise
    AttributeError, and an entry that is neither a number nor a bool makes
    the product raise TypeError, both outside the [try]; the request has
    been made by then, and the session is as it was in every case. *)
Theorem convert_amount_returns_or_raises remote (a : Qc) (from to : string)
        (r : runtime) :
  from ≠ to ->
  let out := Untyped.convert_amount remote a from to r in
  session (snd out) = session r
  /\ (fetch_fails (remote (latest_url from)) ->
      fst out = Ok 0
      /\ log (snd out)
         = (log r ++ [HttpGet (latest_url from);
                      StError "Ошибка при получении курсов валют"])%list)
  /\ (forall data rates,
        remote (latest_url from) = Body data ->
        item data "rates" = Some rates ->
        log (snd out) = (log r ++ [HttpGet (latest_url from)])%list
        /\ (forall d, rates = PDict d ->
              (dict_get to d = None -> fst out = Ok (a * 0) /\ a * 0 = 0)
              /\ (forall q, dict_get to d = Some (PNum q) ->
                            py_abs q <= max_float ->
                            exists q', fst out = Ok q')
              /\ (forall b, dict_get to d = Some (PBool b) ->
                            exists q', fst out = Ok q')
              /\ (forall x, dict_get to d = Some x ->
                            (forall q, x ≠ PNum q) -> (forall b, x ≠ PBool b) ->
                            fst out = Raise TypeError))
        /\ ((forall d, rates ≠ PDict d) -> fst out = Raise AttributeError)).
Proof.
  intros Hne. cbv zeta.
  assert (fetch_fails (remote (latest_url from))
          \/ exists data rates, remote (latest_url from) = Body data
                                /\ item data "rates" = Some rates)
    as [Hf|(data & rates & Ho & Hrates)].
  { destruct (remote (latest_url from)) as [| |data]; [by left..|].
    simpl. destruct (item data "rates") as [rates|] eqn:E; [right | by left].
    by exists data, rates. }
  - rewrite untyped_convert_amount_failed by done. simpl.
    split; [done|]. split; [done|].
    intros data rates Ho Hrates. exfalso. rewrite Ho in Hf. simpl in Hf.
    by rewrite Hrates in Hf.
  - rewrite (untyped_convert_amount_fetched remote a from to r data rates)
      by done.
    simpl. split; [done|]. split.
    { intros Hf. exfalso. rewrite Ho in Hf. simpl in Hf.
      by rewrite Hrates in Hf. }
    intros data' rates' Ho' Hr'. rewrite Ho in Ho'. injection Ho' as <-.
    rewrite Hrates in Hr'. injection Hr' as <-.
    split; [done|]. split.
    + intros d ->. split; [|split; [|split]].
      * intros ->. simpl. split; [done | ring].
      * intros q -> _. simpl. eauto.
      * intros b ->. simpl. eauto.
      * intros x -> Hq Hb. simpl. destruct x; try done.
        -- by destruct (Hb b).
        -- by destruct (Hq q).
    + intros Hd. destruct rates; try done. by destruct (Hd d).
Qed.

(** C10 at work: 100 'USD' into 'RUB' with a remote that has a rate for
    'EUR' only. *)
Lemma convert_amount_returns_or_raises_witness :
  "USD" ≠ "RUB"
  /\ let out := Untyped.convert_amount euro_only (Q2Qc 100) "USD" "RUB"
                                       initial_runtime in
     session (snd out) = session initial_runtime
     /\ (fetch_fails (euro_only (latest_url "USD")) ->
         fst out = Ok 0
         /\ log (snd out)
            = (log initial_runtime
               ++ [HttpGet (latest_url "USD");
                   StError "Ошибка при получении курсов валют"])%list)
     /\ (forall data rates,
           euro_only (latest_url "USD") = Body data ->
           item data "rates" = Some rates ->
           log (snd out)
           = (log initial_runtime ++ [HttpGet (latest_url "USD")])%list
           /\ (forall d, rates = PDict d ->
                 (dict_get "RUB" d = None ->
                  fst out = Ok (Q2Qc 100 * 0) /\ Q2Qc 100 * 0 = 0)
                 /\ (forall q, dict_get "RUB" d = Some (PNum q) ->
                               py_abs q <= max_float ->
                               exists q', fst out = Ok q')
                 /\ (forall b, dict_get "RUB" d = Some (PBool b) ->
                               exists q', fst out = Ok q')
                 /\ (forall x, dict_get "RUB" d = Some x ->
                               (forall q, x ≠ PNum q) ->
                               (forall b, x ≠ PBool b) ->
                               fst out = Raise TypeError))
           /\ ((forall d, rates ≠ PDict d) -> fst out = Raise AttributeError)).
Proof.
  assert ("USD" ≠ "RUB") as Hne by discriminate.
  split; [exact Hne|].
  exact (convert_amount_returns_or_raises euro_only (Q2Qc 100) "USD" "RUB"
           initial_runtime Hne).
Defined.

(** A remote that answers [{"rates": [1]}]: the fetch succeeds, no
    [st.error] is shown, and [rates.get] raises. *)
Lemma convert_amount_raises_on_a_list :
  "USD" ≠ "RUB"
  /\ fst (Untyped.get_exchange_rates rates_as_list "USD" initial_runtime)
     = Ok (PList [PNum 1])
  /\ Untyped.convert_amount rates_as_list (Q2Qc 100) "USD" "RUB" initial_runtime
     = (Raise AttributeError,
        Runtime initial_session [HttpGet (latest_url "USD")])
  /\ ~ exists q r',
         Untyped.convert_amount rates_as_list (Q2Qc 100) "USD" "RUB"
                                initial_runtime
         = (Ok q, r').
Proof.
  split; [discriminate|]. split; [reflexivity|].
  assert (Untyped.convert_amount rates_as_list (Q2Qc 100) "USD" "RUB"
                                 initial_runtime
          = (Raise AttributeError,
             Runtime initial_session [HttpGet (latest_url "USD")])) as E
    by reflexivity.
  split; [exact E|]. intros (q & r' & H). rewrite E in H. discriminate H.
Qed.

(** A remote that answers with a rate for 'EUR' only: 'RUB' is missing from
    the table, and the conversion returns 0 where [rates[to]] would raise. *)
Example convert_amount_missing_rate :
  let remote := fun _ : string => RatesOf {[ "EUR" := Q2Qc 0.9 ]} in
  fst (convert_amount remote (Q2Qc 100) "USD" "EUR" initial_runtime) = Ok (Q2Qc 90)
  /\ fst (convert_amount remote (Q2Qc 100) "USD" "RUB" initial_runtime) = Ok 0
  /\ log (snd (convert_amount remote (Q2Qc 100) "USD" "RUB" initial_runtime))
     = [HttpGet (latest_url "USD")].
Proof.
  cbv zeta. rewrite !convert_amount_distinct by discriminate.
  erewrite !get_exchange_rates_fetched by reflexivity.
  repeat split; simpl; f_equal; apply Qc_is_canon; vm_compute; reflexivity.
Qed.

Lemma fallback_rates_nonneg base c q : fallback_rates base !! c = Some q -> 0 <= q.
Proof.
  rewrite fallback_rates_lookup. repeat case_decide; intros [= <-]; done.
Qed.

Lemma convert_amount_nonneg remote a from to r :
  rates_nonneg remote -> 0 <= a ->
  exists q r', convert_amount remote a from to r = (Ok q, r')
               /\ session r' = session r /\ 0 <= q.
Proof.
  intros Hr Ha. unfold convert_amount. case_decide.
  { exists a, r. done. }
  assert (forall rs, (forall c q, rs !! c = Some q -> 0 <= q) ->
                     0 <= a * rates_get rs to) as Hmul.
  { intros rs Hrs. apply Qcmult_nonneg_nonneg; [done|]. unfold rates_get.
    destruct (rs !! to) eqn:E; simpl; [by eapply Hrs | done]. }
  destruct (remote (latest_url from)) eqn:Ho.
  1-3: erewrite bind_ok by (apply get_exchange_rates_failed; rewrite Ho; exact I);
       eexists _, _; split; [done|]; split; [done|];
       apply Hmul, fallback_rates_nonneg.
  erewrite bind_ok by (by apply get_exchange_rates_fetched).
  eexists _, _. split; [done|]. split; [done|]. apply Hmul. intros. by eapply Hr.
Qed.

(** ** Budgets *)

Lemma mask_any c (df : frame) :
  existsb id (map (fun t => bool_decide (tx_category t = c)) df) = true
  <-> Exists (in_category c) df.
Proof.
  induction df as [|t df IH]; simpl.
  - split; [done | by intros ?%Exists_nil].
  - rewrite Exists_cons, orb_true_iff, IH, bool_decide_eq_true. done.
Qed.

Lemma loc_mask c a (df : frame) :
  zip_with (fun (m : bool) t => if m then with_budget a t else t)
           (map (fun t => bool_decide (tx_category t = c)) df) df
  = map (fun t => if decide (in_category c t) then with_budget a t else t) df.
Proof.
  induction df as [|t df IH]; simpl; [done|]. rewrite IH. f_equal.
  destruct (decide (tx_category t = c)) as [H|H];
    [rewrite bool_decide_eq_true_2 | rewrite bool_decide_eq_false_2]; done.
Qed.

Lemma set_budget_frame_found now dc c a df :
  Exists (in_category c) df ->
  set_budget_frame now dc c a df
  = map (fun t => if decide (in_category c t) then with_budget a t else t) df.
Proof.
  intros H. unfold set_budget_frame. cbv zeta.
  apply mask_any in H. rewrite H. simpl. apply loc_mask.
Qed.

Lemma set_budget_frame_missing now dc c a df :
  ~ Exists (in_category c) df ->
  set_budget_frame now dc c a df = (df ++ [budget_row now dc c a])%list.
Proof.
  intros H. unfold set_budget_frame. cbv zeta.
  rewrite <- mask_any in H. apply not_true_is_false in H. by rewrite H.
Qed.

Lemma set_budget_run now c a r dc :
  supported_default r dc ->
  set_budget now c a r
  = (Ok tt,
     let df' := set_budget_frame now dc c a (transactions (session r)) in
     Runtime (SessionState df' (to_dict_records df') (goals (session r))
                           (goals_data (session r))
                           (default_currency (session r)))
             (log r ++ [StSuccess "Бюджет установлен!"])%list).
Proof.
  intros Hdc. unfold set_budget.
  erewrite bind_ok by (by apply default_currency_code_ok).
  by run_py.
Qed.

Lemma set_budget_frame_budget now dc c a df t :
  t ∈ set_budget_frame now dc c a df -> tx_category t = c -> tx_budget t = a.
Proof.
  destruct (decide (Exists (in_category c) df)) as [He|He].
  - rewrite set_budget_frame_found by done.
    intros (t0 & -> & Hin)%list_elem_of_fmap Hc.
    destruct (decide (tx_category t0 = c)); [done|]. done.
  - rewrite set_budget_frame_missing by done.
    intros [Hin| ->%list_elem_of_singleton]%elem_of_app Hc; [|done].
    exfalso. apply He, list.Exists_exists. eauto.
Qed.

(** C2 (as amended).  In a session whose default currency is a supported
    one, [set_budget] returns and looks at the category alone: when the
    ledger has rows of the category, the budget of each of them is
    overwritten and nothing else changes; when it has none, exactly one row
    is appended, dated now, a 'Расход' of amount 0 with the budget.
    Afterwards every row of the category carries the budget, and the stored
    records are those of the new frame. *)
Theorem set_budget_by_category now (c : string) (a : Qc) (r : runtime) dc :
  supported_default r dc ->
  exists r',
    set_budget now c a r = (Ok tt, r')
    /\ (Exists (in_category c) (transactions (session r)) ->
        transactions (session r')
        = map (fun t => if decide (tx_category t = c) then with_budget a t else t)
              (transactions (session r)))
    /\ (~ Exists (in_category c) (transactions (session r)) ->
        transactions (session r')
        = (transactions (session r)
           ++ [Transaction now Expense c 0 "Установка бюджета" a dc])%list)
    /\ (forall t, t ∈ transactions (session r') -> tx_category t = c ->
                  tx_budget t = a)
    /\ transactions_data (session r')
       = to_dict_records (transactions (session r')).
Proof.
  intros Hdc. eexists. split; [by apply set_budget_run|]. simpl.
  split; [|split; [|split]]; [| | |done].
  - apply set_budget_frame_found.
  - apply set_budget_frame_missing.
  - apply set_budget_frame_budget.
Qed.

(** C2 (as amended) at work: a budget of 5000 after two purchases. *)
Lemma set_budget_by_category_witness :
  supported_default two_purchases "RUB"
  /\ exists r',
       set_budget noon "Продукты" (Q2Qc 5000) two_purchases = (Ok tt, r')
       /\ (Exists (in_category "Продукты") (transactions (session two_purchases)) ->
           transactions (session r')
           = map (fun t => if decide (tx_category t = "Продукты")
                           then with_budget (Q2Qc 5000) t else t)
                 (transactions (session two_purchases)))
       /\ (~ Exists (in_category "Продукты") (transactions (session two_purchases)) ->
           transactions (session r')
           = (transactions (session two_purchases)
              ++ [Transaction noon Expense "Продукты" 0 "Установка бюджета"
                              (Q2Qc 5000) "RUB"])%list)
       /\ (forall t, t ∈ transactions (session r') -> tx_category t = "Продукты" ->
                     tx_budget t = Q2Qc 5000)
       /\ transactions_data (session r')
          = to_dict_records (transactions (session r')).
Proof.
  assert (supported_default two_purchases "RUB") as Hdc
    by (by apply supported_default_RUB).
  split; [exact Hdc|].
  apply (set_budget_by_category noon "Продукты" (Q2Qc 5000) two_purchases "RUB" Hdc).
Defined.

(** C2, as stated, fails: the ledger has two purchases of the category and
    no row with amount 0; [set_budget] adds no row and writes the budget on
    both purchases. *)
Lemma set_budget_writes_every_row_of_category :
  let df := transactions (session two_purchases) in
  let df' := transactions (session (snd (set_budget noon "Продукты" (Q2Qc 5000)
                                                   two_purchases))) in
  filter (zero_amount_row "Продукты") df = []
  /\ length df' = length df
  /\ filter (zero_amount_row "Продукты") df' = []
  /\ length (filter (carries_budget "Продукты") df') = 2%nat
  /\ map tx_amount df' = [- Q2Qc 200; - Q2Qc 50]
  /\ map tx_budget df' = [Q2Qc 5000; Q2Qc 5000].
Proof. vm_compute. repeat split; reflexivity. Qed.

Lemma set_budget_frame_absorb now1 now2 dc c a1 a2 df :
  set_budget_frame now2 dc c a2 (set_budget_frame now1 dc c a1 df)
  = set_budget_frame now1 dc c a2 df.
Proof.
  destruct (decide (Exists (in_category c) df)) as [He|He].
  - rewrite (set_budget_frame_found now1 dc c a1), (set_budget_frame_found now1 dc c a2) by done.
    rewrite set_budget_frame_found.
    + rewrite map_map. apply map_ext. intros t.
      destruct (decide (tx_category t = c)) as [Hc|Hc]; simpl.
      * by rewrite decide_True.
      * by rewrite decide_False.
    + apply list.Exists_exists in He as (t & Hin & Hc). apply list.Exists_exists.
      exists (with_budget a1 t). split; [|done].
      apply list_elem_of_fmap. exists t. by rewrite decide_True.
  - rewrite (set_budget_frame_missing now1 dc c a1), (set_budget_frame_missing now1 dc c a2) by done.
    rewrite set_budget_frame_found.
    + rewrite map_app. simpl. rewrite decide_True by done. f_equal.
      rewrite <- (map_id df) at 2. apply map_ext_in. intros t Hin.
      rewrite decide_False; [done|]. intros Hc. apply He, list.Exists_exists.
      exists t. split; [by apply list_elem_of_In | done].
    + apply Exists_app. right. by apply Exists_cons_hd.
Qed.

Lemma filter_none (c : string) (df : frame) :
  ~ Exists (in_category c) df -> filter (in_category c) df = [].
Proof.
  induction df as [|t df IH]; [done|]. intros He.
  rewrite list.filter_cons_False.
  - apply IH. intros H. apply He. by apply Exists_cons_tl.
  - intros Hc. apply He. by apply Exists_cons_hd.
Qed.

Lemma filter_patched (c : string) a (df : frame) :
  length (filter (in_category c)
            (map (fun t => if decide (tx_category t = c) then with_budget a t else t) df))
  = length (filter (in_category c) df).
Proof.
  induction df as [|t df IH]; [done|].
  rewrite map_cons.
  destruct (decide (tx_category t = c)) as [Hc|Hc].
  - rewrite !list.filter_cons_True by (simpl; done). simpl. by rewrite IH.
  - by rewrite !list.filter_cons_False.
Qed.

Lemma set_budget_frame_count now dc c a (df : frame) :
  length (filter (in_category c) (set_budget_frame now dc c a df))
  = Nat.max 1 (length (filter (in_category c) df)).
Proof.
  destruct (decide (Exists (in_category c) df)) as [He|He].
  - rewrite set_budget_frame_found by done. rewrite filter_patched.
    apply list.Exists_exists in He as (t & Hin & Hc).
    assert (t ∈ filter (in_category c) df) as Hf
      by (by apply list.list_elem_of_filter).
    destruct (filter (in_category c) df); [by apply elem_of_nil in Hf | simpl; lia].
  - rewrite set_budget_frame_missing by done.
    rewrite list.filter_app, length_app, filter_none by done.
    by rewrite list.filter_cons_True.
Qed.

(** C3 (as amended).  Two calls for one category leave the ledger a single
    call with the second amount would have left at the time of the first:
    every row of the category carries the second amount, the category has
    as many rows as before, or one if it had none, and that one is the
    synthetic row of amount 0. *)
Theorem set_budget_twice now1 now2 (c : string) (a1 a2 : Qc) (r : runtime) dc :
  supported_default r dc ->
  exists r1 r2,
    set_budget now1 c a1 r = (Ok tt, r1)
    /\ set_budget now2 c a2 r1 = (Ok tt, r2)
    /\ transactions (session r2)
       = set_budget_frame now1 dc c a2 (transactions (session r))
    /\ (forall t, t ∈ transactions (session r2) -> tx_category t = c ->
                  tx_budget t = a2)
    /\ length (filter (in_category c) (transactions (session r2)))
       = Nat.max 1 (length (filter (in_category c) (transactions (session r))))
    /\ (~ Exists (in_category c) (transactions (session r)) ->
        transactions (session r2)
        = (transactions (session r)
           ++ [Transaction now1 Expense c 0 "Установка бюджета" a2 dc])%list).
Proof.
  intros Hdc. eexists. eexists.
  split; [by apply set_budget_run|]. split.
  { apply set_budget_run. destruct Hdc. by split. }
  simpl. rewrite set_budget_frame_absorb.
  split; [done|]. split; [apply set_budget_frame_budget|].
  split; [apply set_budget_frame_count|]. apply set_budget_frame_missing.
Qed.

(** C3 (as amended) at work: 3000 and then 5000 in a fresh session. *)
Lemma set_budget_twice_witness :
  supported_default initial_runtime "RUB"
  /\ exists r1 r2,
       set_budget noon "Продукты" (Q2Qc 3000) initial_runtime = (Ok tt, r1)
       /\ set_budget noon "Продукты" (Q2Qc 5000) r1 = (Ok tt, r2)
       /\ transactions (session r2)
          = set_budget_frame noon "RUB" "Продукты" (Q2Qc 5000)
                             (transactions (session initial_runtime))
       /\ (forall t, t ∈ transactions (session r2) -> tx_category t = "Продукты" ->
                     tx_budget t = Q2Qc 5000)
       /\ length (filter (in_category "Продукты") (transactions (session r2)))
          = Nat.max 1 (length (filter (in_category "Продукты")
                                      (transactions (session initial_runtime))))
       /\ (~ Exists (in_category "Продукты") (transactions (session initial_runtime)) ->
           transactions (session r2)
           = (transactions (session initial_runtime)
              ++ [Transaction noon Expense "Продукты" 0 "Установка бюджета"
                              (Q2Qc 5000) "RUB"])%list).
Proof.
  assert (supported_default initial_runtime "RUB") as Hdc
    by (by apply supported_default_RUB).
  split; [exact Hdc|].
  apply (set_budget_twice noon noon "Продукты" (Q2Qc 3000) (Q2Qc 5000)
                          initial_runtime "RUB" Hdc).
Defined.

(** C3, as stated, fails: after two calls on the ledger of two purchases no
    row has amount 0, and two rows carry the budget, not one. *)
Lemma set_budget_twice_two_rows :
  let r1 := snd (set_budget noon "Продукты" (Q2Qc 3000) two_purchases) in
  let r2 := snd (set_budget noon "Продукты" (Q2Qc 5000) r1) in
  let df := transactions (session r2) in
  length (filter (zero_amount_row "Продукты") df) = 0%nat
  /\ length (filter (carries_budget "Продукты") df) = 2%nat
  /\ length (filter (in_category "Продукты") df) = 2%nat
  /\ map tx_budget df = [Q2Qc 5000; Q2Qc 5000].
Proof. vm_compute. repeat split; reflexivity. Qed.

(** ** Contributions to a goal *)

Lemma contribute_run now idx a r dc g :
  supported_default r dc ->
  goals (session r) !! idx = Some g ->
  contribute now idx a r
  = (Ok tt,
     let gs' := alter (add_contribution a) idx (goals (session r)) in
     let df' := (transactions (session r)
                 ++ [Transaction now Expense "Накопления" (- a)
                                 ("Вклад в цель: " ++ name g) 0 dc])%list in
     Runtime (SessionState df' (to_dict_records df') gs'
                           (PList (map goal_dict gs'))
                           (default_currency (session r)))
             (log r ++ [StSuccess "Средства внесены!"] ++ [StRerun])%list).
Proof.
  intros Hdc Hg. unfold contribute.
  erewrite bind_ok by (by apply default_currency_code_ok).
  run_py. rewrite Hg. simpl. by rewrite <- app_assoc.
Qed.

(** C6.  In a session whose default currency is a supported one, a
    contribution of [a] to the goal at an index in range returns.  The
    [current_amount] of that goal becomes the float sum of its value and
    [a]: the float nearest to their sum, within a relative error of
    [2 ** -53] of it (and [2 ** -1075] near zero), and so the sum itself
    when that is a float; its other fields and every other goal stay as
    they were.  Exactly one row is appended to the ledger: a 'Расход' of
    amount [- a] in the category 'Накопления', dated now, with budget 0 and
    the default currency.  Stated for a sum up to the largest float;
    beyond it Python stores [inf]. *)
Theorem contribute_goal_and_ledger now (i : nat) (a : Qc) (r : runtime) dc :
  supported_default r dc ->
  (i < length (goals (session r)))%nat ->
  (forall g, goals (session r) !! i = Some g ->
             py_abs (current_amount g + a) <= max_float) ->
  exists g r',
    goals (session r) !! i = Some g
    /\ contribute now i a r = (Ok tt, r')
    /\ goals (session r') !! i
       = Some (Goal (name g) (target_amount g) (deadline g)
                    (float_add (current_amount g) a))
    /\ py_abs (float_add (current_amount g) a - (current_amount g + a))
       <= py_abs (current_amount g + a) * Q2Qc (pow2 (-53))
          + Q2Qc (pow2 (-1075))
    /\ (binary64 (current_amount g + a) = current_amount g + a ->
        float_add (current_amount g) a = current_amount g + a)
    /\ (forall j, j ≠ i -> goals (session r') !! j = goals (session r) !! j)
    /\ length (goals (session r')) = length (goals (session r))
    /\ exists row,
         transactions (session r') = (transactions (session r) ++ [row])%list
         /\ tx_type row = Expense
         /\ tx_amount row = - a
         /\ tx_category row = "Накопления"
         /\ tx_budget row = 0
         /\ tx_currency row = dc
         /\ tx_date row = now.
Proof.
  intros Hdc Hi _.
  destruct (lookup_lt_is_Some_2 _ _ Hi) as [g Hg].
  exists g. eexists. split; [done|]. split; [by apply contribute_run|].
  simpl. split; [|split; [|split; [|split; [|split]]]].
  - rewrite list_lookup_alter, decide_True, Hg by done. done.
  - apply binary64_error.
  - done.
  - intros j Hj. by rewrite list_lookup_alter_ne.
  - by rewrite length_alter.
  - eexists. split; [done|]. by simpl.
Qed.

(** C6 at work: 2500 into the goal 'Car' of 10000. *)
Lemma contribute_goal_and_ledger_witness :
  supported_default saving_for_car "RUB"
  /\ (0 < length (goals (session saving_for_car)))%nat
  /\ (forall g, goals (session saving_for_car) !! 0%nat = Some g ->
                py_abs (current_amount g + Q2Qc 2500) <= max_float)
  /\ exists g r',
       goals (session saving_for_car) !! 0%nat = Some g
       /\ contribute noon 0 (Q2Qc 2500) saving_for_car = (Ok tt, r')
       /\ goals (session r') !! 0%nat
          = Some (Goal (name g) (target_amount g) (deadline g)
                       (float_add (current_amount g) (Q2Qc 2500)))
       /\ py_abs (float_add (current_amount g) (Q2Qc 2500)
                  - (current_amount g + Q2Qc 2500))
          <= py_abs (current_amount g + Q2Qc 2500) * Q2Qc (pow2 (-53))
             + Q2Qc (pow2 (-1075))
       /\ (binary64 (current_amount g + Q2Qc 2500)
           = current_amount g + Q2Qc 2500 ->
           float_add (current_amount g) (Q2Qc 2500)
           = current_amount g + Q2Qc 2500)
       /\ (forall j, j ≠ 0%nat ->
             goals (session r') !! j = goals (session saving_for_car) !! j)
       /\ length (goals (session r')) = length (goals (session saving_for_car))
       /\ exists row,
            transactions (session r')
            = (transactions (session saving_for_car) ++ [row])%list
            /\ tx_type row = Expense
            /\ tx_amount row = - Q2Qc 2500
            /\ tx_category row = "Накопления"
            /\ tx_budget row = 0
            /\ tx_currency row = "RUB"
            /\ tx_date row = noon.
Proof.
  assert (supported_default saving_for_car "RUB") as Hdc
    by (by apply supported_default_RUB).
  assert (0 < length (goals (session saving_for_car)))%nat as Hi
    by (vm_compute; lia).
  assert (forall g, goals (session saving_for_car) !! 0%nat = Some g ->
                    py_abs (current_amount g + Q2Qc 2500) <= max_float) as Hmax.
  { intros g [= <-]. vm_compute. discriminate. }
  split; [exact Hdc|]. split; [exact Hi|]. split; [exact Hmax|].
  apply (contribute_goal_and_ledger noon 0 (Q2Qc 2500) saving_for_car "RUB"
           Hdc Hi Hmax).
Defined.

(** A goal that holds 1e16 takes a contribution of 1.0 and holds 1e16
    still: the ledger row of [- 1] is appended, the goal's amount has not
    grown by 1, nor at all. *)
Lemma contribution_of_one_is_absorbed :
  supported_default goal_of_1e16 "RUB"
  /\ (0 < length (goals (session goal_of_1e16)))%nat
  /\ exists g g' r',
       goals (session goal_of_1e16) !! 0%nat = Some g
       /\ contribute noon 0 1 goal_of_1e16 = (Ok tt, r')
       /\ goals (session r') !! 0%nat = Some g'
       /\ current_amount g = Q2Qc 1e16
       /\ current_amount g' = current_amount g
       /\ current_amount g' ≠ current_amount g + 1
       /\ transactions (session r')
          = (transactions (session goal_of_1e16)
             ++ [Transaction noon Expense "Накопления" (- (1))
                             "Вклад в цель: Car" 0 "RUB"])%list.
Proof.
  assert (supported_default goal_of_1e16 "RUB") as Hdc
    by (by apply supported_default_RUB).
  split; [exact Hdc|]. split; [vm_compute; lia|].
  eexists _, _, _. split; [reflexivity|].
  split; [by eapply contribute_run|].
  split; [reflexivity|]. cbn [current_amount].
  split; [apply Qc_is_canon; vm_compute; reflexivity|].
  split; [apply Qc_is_canon; vm_compute; reflexivity|].
  split; [|reflexivity].
  intros E. apply (f_equal this) in E. vm_compute in E. discriminate E.
Qed.

(** ** Import *)

Lemma getitem_some v key x r : item v key = Some x -> getitem v key r = (Ok x, r).
Proof. destruct v; simpl; try done. intros ->. done. Qed.

Lemma getitem_none v key r :
  item v key = None -> exists e, getitem v key r = (Raise e, r).
Proof. destruct v; simpl; try (by eexists). intros ->. by eexists. Qed.

Lemma import_all_data_run json_loads json_str r :
  import_all_data json_loads json_str r
  = match json_loads json_str with
    | None => (Ok false, r)
    | Some data =>
        match item data "transactions" with
        | None => (Ok false, r)
        | Some t =>
            let r1 := Runtime (set_transactions_data t (session r)) (log r) in
            match item data "goals" with
            | None => (Ok false, r1)
            | Some g =>
                let r2 := Runtime (set_goals_data g (session r1)) (log r) in
                match item data "settings" ≫= fun s => item s "default_currency" with
                | None => (Ok false, r2)
                | Some c =>
                    (Ok true, Runtime (set_default_currency c (session r2)) (log r))
                end
            end
        end
    end.
Proof.
  unfold import_all_data, try_except.
  destruct (json_loads json_str) as [data|]; [|done].
  erewrite bind_ok by done.
  destruct (item data "transactions") as [t|] eqn:Ht.
  2: { destruct (getitem_none _ _ r Ht) as [e He]. by erewrite bind_raise by done. }
  erewrite bind_ok by (by apply getitem_some).
  erewrite bind_ok by done.
  destruct (item data "goals") as [g|] eqn:Hg.
  2: { destruct (getitem_none _ _ (Runtime (set_transactions_data t (session r)) (log r)) Hg) as [e He].
       by erewrite bind_raise by done. }
  erewrite bind_ok by (by apply getitem_some).
  erewrite bind_ok by done.
  destruct (item data "settings") as [s|] eqn:Hs; simpl.
  2: { match goal with |- context [getitem data "settings" ≫= ?k] =>
         match goal with |- context [(?m ≫= _) ?r0] =>
           destruct (getitem_none _ _ r0 Hs) as [e He] end end.
       by erewrite bind_raise by done. }
  erewrite bind_ok by (by apply getitem_some).
  destruct (item s "default_currency") as [c|] eqn:Hc.
  2: { match goal with |- context [(?m ≫= _) ?r0] =>
         destruct (getitem_none _ _ r0 Hc) as [e He] end.
       by erewrite bind_raise by done. }
  erewrite bind_ok by (by apply getitem_some).
  by erewrite bind_ok by done.
Qed.

Lemma import_all_data_live json_loads json_str r :
  transactions (session (snd (import_all_data json_loads json_str r)))
  = transactions (session r)
  /\ goals (session (snd (import_all_data json_loads json_str r)))
     = goals (session r).
Proof.
  rewrite import_all_data_run.
  repeat (case_match; simpl; try done).
Qed.

(** [import_all_data] never raises: it returns [True] or [False]. *)
Lemma import_all_data_returns json_loads json_str r :
  exists (ok : bool) r', import_all_data json_loads json_str r = (Ok ok, r').
Proof.
  rewrite import_all_data_run.
  repeat (case_match; simpl); by eexists _, _.
Qed.

(** When it returns [True], the three stored fields are the three entries of
    the document, and nothing else of the runtime changes. *)
Lemma import_all_data_success json_loads json_str r r' :
  import_all_data json_loads json_str r = (Ok true, r') ->
  exists data t g settings c,
    json_loads json_str = Some data
    /\ item data "transactions" = Some t
    /\ item data "goals" = Some g
    /\ item data "settings" = Some settings
    /\ item settings "default_currency" = Some c
    /\ r' = Runtime (SessionState (transactions (session r)) t
                                  (goals (session r)) g c)
                    (log r).
Proof.
  rewrite import_all_data_run.
  destruct (json_loads json_str) as [data|] eqn:Hd; [|done].
  destruct (item data "transactions") as [t|] eqn:Ht; [|done].
  destruct (item data "goals") as [g|] eqn:Hg; [|done]. simpl.
  destruct (item data "settings") as [settings|] eqn:Hs; [|done]. simpl.
  destruct (item settings "default_currency") as [c|] eqn:Hc; [|done].
  intros [= <-]. by eexists data, t, g, settings, c.
Qed.

(** Text that is not JSON leaves the runtime as it was. *)
Lemma import_all_data_malformed json_loads json_str r :
  json_loads json_str = None ->
  import_all_data json_loads json_str r = (Ok false, r).
Proof. intros H. by rewrite import_all_data_run, H. Qed.

(** So does a document without 'transactions', the first key read. *)
Lemma import_all_data_without_transactions json_loads json_str r data :
  json_loads json_str = Some data -> item data "transactions" = None ->
  import_all_data json_loads json_str r = (Ok false, r).
Proof. intros H Ht. by rewrite import_all_data_run, H, Ht. Qed.

(** A document with 'transactions' and without 'goals': the failure is
    reported after the ledger records are replaced. *)
Lemma import_all_data_without_goals json_loads json_str r data t :
  json_loads json_str = Some data ->
  item data "transactions" = Some t -> item data "goals" = None ->
  import_all_data json_loads json_str r
  = (Ok false, Runtime (set_transactions_data t (session r)) (log r)).
Proof. intros H Ht Hg. by rewrite import_all_data_run, H, Ht, Hg. Qed.

(** A document with 'transactions' and 'goals' and without the default
    currency: both stores are replaced, and the failure is reported. *)
Lemma import_all_data_without_settings json_loads json_str r data t g :
  json_loads json_str = Some data ->
  item data "transactions" = Some t -> item data "goals" = Some g ->
  item data "settings" ≫= (fun s => item s "default_currency") = None ->
  import_all_data json_loads json_str r
  = (Ok false,
     Runtime (set_goals_data g (set_transactions_data t (session r))) (log r)).
Proof. intros H Ht Hg Hs. by rewrite import_all_data_run, H, Ht, Hg, Hs. Qed.


(** C1: a backup that has 'transactions' but not 'goals'.  The import
    reports failure, and the stored ledger records are already replaced. *)
Theorem import_without_goals_replaces_ledger :
  Json.loads ledger_only_backup = Some (PDict [("transactions", PList [])])
  /\ import_all_data Json.loads ledger_only_backup two_purchases
     = (Ok false,
        Runtime (set_transactions_data (PList []) (session two_purchases))
                (log two_purchases))
  /\ transactions_data (session two_purchases)
     = to_dict_records (transactions (session two_purchases))
  /\ length (transactions (session two_purchases)) = 2%nat.
Proof. repeat split; vm_compute; reflexivity. Qed.

(** ** Export and import *)

Lemma digit_char_value d :
  (d < 10)%nat ->
  is_digit (digit_char d) = true /\ (nat_of_ascii (digit_char d) - 48 = d)%nat.
Proof.
  intros Hd. unfold is_digit, digit_char.
  rewrite nat_ascii_embedding by lia.
  split; [|lia].
  apply andb_true_iff. split; apply Nat.leb_le; lia.
Qed.








Section pyval_induction.
Variable P : pyval -> Prop.
Hypothesis HNone : P PNone.
Hypothesis HBool : forall b, P (PBool b).
Hypothesis HNum : forall q, P (PNum q).
Hypothesis HStr : forall s, P (PStr s).
Hypothesis HList : forall l, Forall P l -> P (PList l).
Hypothesis HDict : forall d, Forall (fun kv => P (snd kv)) d -> P (PDict d).
Hypothesis HTimestamp : forall t, P (PTimestamp t).

End pyval_induction.


Lemma kind_of_kind_str k : kind_of (PStr (kind_str k)) = Some k.
Proof. by destruct k. Qed.

Lemma row_of_record_to_dict t :
  row_of_record (record_of_transaction t)
  = Some (PTimestamp (tx_date t), with_date t).
Proof.
  destruct t as [d k c a ds b cu]. unfold row_of_record, record_of_transaction.
  cbn -[kind_of]. decide_keys. cbn -[kind_of]. rewrite kind_of_kind_str. done.
Qed.


Lemma with_date_own (df : frame) :
  zip_with (fun (row : pyval * (timestamp -> transaction)) t => row.2 t)
           (map (fun t => (PTimestamp (tx_date t), with_date t)) df)
           (map tx_date df)
  = df.
Proof.
  induction df as [|[d k c a ds b cu] df IH]; [done|]. simpl. by rewrite IH.
Qed.


(** What [save_data] stored is read back as it was: the dates are
    Timestamps, which [pd.to_datetime] returns as they are. *)
Lemma load_data_outcome_saved s df :
  transactions_data s = to_dict_records df ->
  load_data_outcome s = Some (Ok df).
Proof.
  intros E. unfold load_data_outcome. rewrite E. unfold to_dict_records.
  assert (mapM row_of_record (map record_of_transaction df)
          = Some (map (fun t => (PTimestamp (tx_date t), with_date t)) df))
    as ->.
  { apply mapM_Some. clear E.
    induction df as [|t df IH]; simpl; constructor; [|done].
    apply row_of_record_to_dict. }
  cbn [mbind option_bind].
  assert (to_datetime
            ((map (fun t => (PTimestamp (tx_date t), with_date t)) df).*1)
          = Some (Ok (map tx_date df))) as ->.
  { rewrite <- list_fmap_compose.
    destruct df as [|t df]; [done|]. unfold to_datetime.
    change (((fst ∘ (fun t => (PTimestamp (tx_date t), with_date t)))
               <$> (t :: df)))
      with (PTimestamp (tx_date t)
            :: map (fun t => PTimestamp (tx_date t)) df).
    assert (mapM timestamp_of
                 (PTimestamp (tx_date t)
                  :: map (fun t => PTimestamp (tx_date t)) df)
            = Some (map tx_date (t :: df))) as ->; [|done].
    apply mapM_Some. constructor; [done|].
    clear. induction df as [|t df IH]; simpl; constructor; done. }
  cbn [mbind option_bind]. by rewrite with_date_own.
Qed.

Lemma load_data_to_dict_records s df :
  transactions_data s = to_dict_records df -> load_data s = Some df.
Proof.
  intros E. unfold load_data. by rewrite (load_data_outcome_saved s df E).
Qed.


Lemma one_format_head row (df : frame) :
  one_format (row :: df)
  <-> Forall (fun t => date_format_of t = date_format_of (tx_date row))
             (map tx_date (row :: df)).
Proof.
  rewrite Forall_fmap, list.Forall_forall. unfold one_format. split.
  - intros H t Ht. apply H; [done | apply list_elem_of_here].
  - intros H t t' Ht Ht'. simpl in H. by rewrite (H t Ht), (H t' Ht').
Qed.






(** The ledger of the witness is read back after the import: both dates
    are written without microseconds. *)
Example load_data_after_import_of_after_contribution :
  pandas_dates (transactions (session after_contribution))
  /\ one_format (transactions (session after_contribution))
  /\ load_data_outcome
       (set_transactions_data
          (jsonify (transactions_data (session after_contribution)))
          (session after_contribution))
     = Some (Ok (transactions (session after_contribution))).
Proof.
  split; [unfold pandas_dates; by_decision|].
  split; [|vm_compute; reflexivity].
  apply (one_format_head _ _). by_decision.
Qed.


(** ** What every run of the script keeps *)

Lemma Qc_opp_nonpos (a : Qc) : 0 <= a -> - a <= 0.
Proof. intros H. apply Qcopp_le_compat in H. exact H. Qed.

Lemma signed_ok k q : 0 <= q -> match k with Income => 0 <= signed k q | Expense => signed k q <= 0 end.
Proof. intros H. destruct k; simpl; [done | by apply Qc_opp_nonpos]. Qed.

(** Every item of a value without Timestamps is without Timestamps. *)
Lemma item_native v key x :
  json_native v = true -> item v key = Some x -> json_native x = true.
Proof.
  destruct v as [| | | | |d|]; simpl; try done.
  induction d as [|[k y] d IH]; simpl; [done|].
  intros [Hy Hd]%andb_prop. case_decide; [by intros [= <-] | by apply IH].
Qed.

Lemma goals_native (gs : list goal) : json_native (PList (map goal_dict gs)) = true.
Proof. simpl. induction gs as [|g gs IH]; [done|]. simpl. by rewrite IH. Qed.

Section Invariant.
Variable remote : string -> fetch_outcome.
Variable float_str : Qc -> string.
Variable json_dumps : pyval -> string.
Variable json_loads : string -> option pyval.
Hypothesis rates_ok : rates_nonneg remote.

(** [N] holds of what [json.loads] returns, of the items of such a value,
    of the saved goals and of a currency code. *)
Variable N : pyval -> Prop.
Hypothesis loads_N : forall text v, json_loads text = Some v -> N v.
Hypothesis item_N : forall v key x, N v -> item v key = Some x -> N x.
Hypothesis goals_N : forall gs : list goal, N (PList (map goal_dict gs)).
Hypothesis code_N : forall c : string, N (PStr c).

(** [D] holds of the dates the widgets and the clock give, and the records
    saved from rows with such dates are in order: their dates are in range,
    or [N] holds of them. *)
Variable D : timestamp -> Prop.
Hypothesis D_valid : forall t, valid_timestamp t -> D t.
Hypothesis saved_N :
  forall df, Forall (row_ok D) df -> dates_valid df \/ N (to_dict_records df).

Lemma saved_session_ok df gs gd dc :
  Forall (row_ok D) df -> N gd -> N dc ->
  session_ok D N (SessionState df (to_dict_records df) gs gd dc).
Proof.
  intros Hdf Hgd Hdc. split; [done|]. split; [|done].
  destruct (saved_N df Hdf) as [Hv|Hn]; [left; by exists df | by right].
Qed.

Lemma row_ok_new d k category q description budget dc :
  valid_timestamp d -> 0 <= q ->
  row_ok D (Transaction d k category (signed k q) description budget dc).
Proof.
  intros Hd Hq. split; [|by apply D_valid].
  unfold sign_ok. simpl. by apply signed_ok.
Qed.

Ltac enter r dc Hdc :=
  let E := fresh "E" in
  destruct (default_currency_code_cases r) as [(dc & Hdc & E)|E];
  [erewrite bind_ok by exact E | erewrite bind_raise by exact E; assumption].

Lemma add_transaction_ok d k category currency amount description r :
  valid_date d -> 0 <= amount -> session_ok D N (session r) ->
  session_ok D N (session (snd (add_transaction remote float_str d k category
                                            currency amount description r))).
Proof.
  intros Hd Ha Hok. pose proof Hok as (Hdf & Hl & Hgd & Hdc'). unfold add_transaction. enter r dc Hdc.
  destruct (decide (currency = dc)) as [->|Hne].
  - run_py. apply saved_session_ok; [|done..].
    apply Forall_app. split; [done|]. constructor; [|constructor].
    by apply row_ok_new.
  - destruct (convert_amount_nonneg remote amount currency dc r rates_ok Ha)
      as (q & r' & Hc & Hs & Hq).
    erewrite bind_ok by done. run_py. rewrite Hs.
    apply saved_session_ok; [|done..].
    apply Forall_app. split; [done|]. constructor; [|constructor].
    by apply row_ok_new.
Qed.

Lemma set_budget_ok now c a r :
  valid_timestamp now -> session_ok D N (session r) ->
  session_ok D N (session (snd (set_budget now c a r))).
Proof.
  intros Hnow Hok. pose proof Hok as (Hdf & Hl & Hgd & Hdc').
  destruct (default_currency_code_cases r) as [(dc & Hdc & E)|E].
  - rewrite (set_budget_run now c a r dc Hdc). simpl.
    apply saved_session_ok; [|done..].
    destruct (decide (Exists (in_category c) (transactions (session r)))).
    + rewrite set_budget_frame_found by done. apply Forall_fmap.
      eapply list.Forall_impl; [exact Hdf|]. intros t Ht. simpl.
      by case_decide.
    + rewrite set_budget_frame_missing by done. apply Forall_app.
      split; [done|]. constructor; [|constructor].
      split; [done | by apply D_valid].
  - unfold set_budget. by erewrite bind_raise by done.
Qed.

Lemma add_goal_ok goal_name goal_amount goal_deadline r :
  session_ok D N (session r) ->
  session_ok D N (session (snd (add_goal goal_name goal_amount goal_deadline r))).
Proof.
  intros Hok. pose proof Hok as (Hdf & Hl & Hgd & Hdc'). unfold add_goal. enter r dc Hdc.
  run_py. split; [done|]. split; [done|]. split; [|done].
  apply (goals_N (goals (session r) ++ [_])).
Qed.

Lemma change_default_currency_ok c r :
  session_ok D N (session r) ->
  session_ok D N (session (snd (change_default_currency c r))).
Proof.
  intros Hok. pose proof Hok as (Hdf & Hl & Hgd & Hdc'). unfold change_default_currency.
  enter r dc Hdc. case_decide; run_py; [done|].
  split; [done|]. split; [done|]. split; [done|]. apply code_N.
Qed.

Lemma export_clicked_ok r :
  session_ok D N (session r) -> session_ok D N (session (snd (export_clicked json_dumps r))).
Proof. intros Hok. unfold export_clicked. enter r dc Hdc. by run_py. Qed.

Lemma import_all_data_ok json_str r :
  session_ok D N (session r) ->
  session_ok D N (session (snd (import_all_data json_loads json_str r))).
Proof.
  intros Hok. pose proof Hok as (Hdf & Hl & Hgd & Hdc'). rewrite import_all_data_run.
  destruct (json_loads json_str) as [data|] eqn:Hdata; [|by repeat split].
  apply loads_N in Hdata.
  destruct (item data "transactions") as [t|] eqn:Ht; [|by repeat split].
  apply (item_N _ _ _ Hdata) in Ht.
  destruct (item data "goals") as [g|] eqn:Hg; simpl.
  2: { split; [done|]. split; [by right|done]. }
  apply (item_N _ _ _ Hdata) in Hg.
  destruct (item data "settings") as [s|] eqn:Hs; simpl.
  2: { split; [done|]. split; [by right|done]. }
  apply (item_N _ _ _ Hdata) in Hs.
  destruct (item s "default_currency") as [c|] eqn:Hc; simpl.
  2: { split; [done|]. split; [by right|done]. }
  apply (item_N _ _ _ Hs) in Hc.
  split; [done|]. split; [by right|done].
Qed.

Lemma upload_backup_ok content r :
  session_ok D N (session r) ->
  session_ok D N (session (snd (upload_backup json_loads content r))).
Proof.
  intros Hok. unfold upload_backup. enter r dc Hdc.
  pose proof (import_all_data_ok content r Hok) as Hi.
  unfold mbind, py_bind, bind.
  destruct (import_all_data json_loads content r) as [[[]|] r']; simpl in *;
    by run_py.
Qed.

Lemma save_changes_ok index d k category currency amount description r :
  valid_date d -> 0 <= amount -> session_ok D N (session r) ->
  session_ok D N (session (snd (save_changes remote float_str index d k category
                                         currency amount description r))).
Proof.
  intros Hd Ha Hok. pose proof Hok as (Hdf & Hl & Hgd & Hdc').
  unfold save_changes, selector_default. enter r dc Hdc.
  run_py.
  destruct (transactions (session r) !! index) as [row|] eqn:Hrow; [|done].
  case_decide; [|done]. case_decide; [|done]. simpl.
  assert (forall q e, 0 <= q ->
            ed_date e = to_datetime_date d ->
            ed_type e = k -> ed_amount e = signed k q ->
            Forall (row_ok D) (alter (apply_edit e) index (transactions (session r))))
    as Halter.
  { intros q e Hq Hdate Hk Hamt. apply Forall_alter; [done|]. intros t0 _ _.
    destruct e as [ed ek ec ea eds ecu]. simpl in *. subst.
    by apply row_ok_new. }
  destruct (decide (currency = dc)) as [->|Hne].
  - unfold edit_transaction. run_py. apply saved_session_ok; [|done..].
    by eapply Halter.
  - destruct (convert_amount_nonneg remote amount currency dc r rates_ok Ha)
      as (q & r' & Hc & Hs & Hq).
    rewrite Hc. unfold edit_transaction. run_py. rewrite Hs.
    apply saved_session_ok; [|done..]. by eapply Halter.
Qed.

Lemma delete_clicked_ok index r :
  session_ok D N (session r) -> session_ok D N (session (snd (delete_clicked index r))).
Proof.
  intros Hok. pose proof Hok as (Hdf & Hl & Hgd & Hdc'). unfold delete_clicked. enter r dc Hdc.
  unfold delete_transaction. run_py.
  destruct (transactions (session r) !! index) eqn:Hrow; [|by repeat split].
  rewrite Hrow. run_py. apply saved_session_ok; [|done..].
  by apply Forall_delete.
Qed.

Lemma contribute_ok now idx a r :
  valid_timestamp now -> 0 <= a -> session_ok D N (session r) ->
  session_ok D N (session (snd (contribute now idx a r))).
Proof.
  intros Hnow Ha Hok. pose proof Hok as (Hdf & Hl & Hgd & Hdc').
  destruct (default_currency_code_cases r) as [(dc & Hdc & E)|E].
  - destruct (goals (session r) !! idx) as [g|] eqn:Hg.
    + rewrite (contribute_run now idx a r dc g Hdc Hg). simpl.
      apply saved_session_ok; [|apply goals_N|done].
      apply Forall_app. split; [done|]. constructor; [|constructor].
      split; [by apply Qc_opp_nonpos | by apply D_valid].
    + unfold contribute. erewrite bind_ok by done. run_py. rewrite Hg.
      by repeat split.
  - unfold contribute. by erewrite bind_raise by done.
Qed.

Lemma step_session_ok c r :
  widget_input c -> session_ok D N (session r) ->
  session_ok D N (session (after remote float_str json_dumps json_loads c r)).
Proof.
  intros Hin Hok. unfold after. destruct c; simpl in Hin |- *.
  - apply add_transaction_ok; tauto.
  - apply set_budget_ok; tauto.
  - by apply add_goal_ok.
  - by apply change_default_currency_ok.
  - by apply export_clicked_ok.
  - by apply upload_backup_ok.
  - apply save_changes_ok; tauto.
  - by apply delete_clicked_ok.
  - apply contribute_ok; tauto.
Qed.

Lemma reachable_session_ok r :
  reachable remote float_str json_dumps json_loads r -> session_ok D N (session r).
Proof.
  induction 1 as [|r c Hr IH Hin]; [|by apply step_session_ok].
  split; [constructor|]. split; [right; apply (goals_N [])|].
  split; [apply (goals_N []) | apply code_N].
Qed.
End Invariant.

(** Every reachable session keeps its signs, whatever the reader of JSON
    text returns, and so does every run from a session that has them. *)
Lemma step_sign_ok remote float_str json_dumps json_loads c r :
  rates_nonneg remote -> widget_input c ->
  Forall sign_ok (transactions (session r)) ->
  Forall sign_ok (transactions (session (after remote float_str json_dumps
                                               json_loads c r))).
Proof.
  intros Hr Hin Hok.
  assert (session_ok (fun _ => True) (fun _ => True) (session r)) as Hs.
  { split; [|split; [by right | done]].
    eapply list.Forall_impl; [exact Hok|]. by intros t ?. }
  destruct (step_session_ok remote float_str json_dumps json_loads Hr
              (fun _ => True) (fun _ _ _ => I) (fun _ _ _ _ _ => I)
              (fun _ => I) (fun _ => I)
              (fun _ => True) (fun _ _ => I) (fun _ _ => or_intror I)
              c r Hin Hs) as [Hrows _].
  eapply list.Forall_impl; [exact Hrows|]. by intros t [? _].
Qed.

(** With a reader that builds no Timestamp, as [json.loads], every reachable
    session holds Timestamps only as the dates of its ledger records. *)
Lemma reachable_timestamps_only_as_dates remote float_str json_dumps json_loads r :
  rates_nonneg remote ->
  (forall text v, json_loads text = Some v -> json_native v = true) ->
  reachable remote float_str json_dumps json_loads r ->
  timestamps_only_as_dates (session r).
Proof.
  intros Hr Hn Hreach.
  refine (proj2 (reachable_session_ok remote float_str json_dumps json_loads Hr
                   (fun v => json_native v = true) Hn item_native goals_native
                   (fun _ => eq_refl) valid_timestamp (fun _ H => H) _ r Hreach)).
  intros df Hdf. left.
  eapply list.Forall_impl; [exact Hdf|]. by intros t [_ ?].
Qed.

(** The reference reader builds no Timestamp. *)
Lemma dict_set_native k v d :
  json_native v = true ->
  forallb (fun kv => match kv with (_, x) => json_native x end) d = true ->
  forallb (fun kv => match kv with (_, x) => json_native x end) (Json.dict_set k v d) = true.
Proof.
  intros Hv. induction d as [|[k' v'] d IH]; simpl.
  - by rewrite Hv.
  - intros [Hv' Hd]%andb_prop. case_decide; simpl.
    + by rewrite Hv, Hd.
    + by rewrite Hv', IH.
Qed.

Lemma literal_native word v s x r :
  json_native v = true -> Json.literal word v s = Some (x, r) -> json_native x = true.
Proof. unfold Json.literal. intros Hv. case_match; [|done]. by intros [= <- _]. Qed.

Lemma forallb_rev_true {A} (f : A -> bool) (l : list A) :
  forallb f l = true -> forallb f (rev l) = true.
Proof.
  rewrite !forallb_forall. intros H x Hx. apply H. by apply in_rev.
Qed.

Lemma read_native fuel m s v r :
  Json.read fuel m s = Some (v, r) -> mode_native m -> json_native v = true.
Proof.
  revert m s v r. induction fuel as [|fuel IH]; intros m s v r; [done|].
  destruct m as [|acc|acc]; cbn [Json.read mode_native].
  - destruct (Json.skip_ws s) as [|c rest]; [done|].
    repeat case_decide.
    + destruct (Json.after_char "]" rest); [by intros [= <- _]|].
      intros Hr _. by eapply IH.
    + destruct (Json.after_char "}" rest); [by intros [= <- _]|].
      intros Hr _. by eapply IH.
    + destruct (Json.read_string rest) as [[str r']|]; [|done]. by intros [= <- _].
    + intros Hr _. eapply literal_native; [|exact Hr]; done.
    + intros Hr _. eapply literal_native; [|exact Hr]; done.
    + intros Hr _. eapply literal_native; [|exact Hr]; done.
    + destruct (Json.read_number _) as [[q r']|]; [|done]. by intros [= <- _].
  - destruct (Json.read fuel Json.Value s) as [[x r']|] eqn:Hx; [|done].
    cbn [mbind option_bind]. intros Hr Hacc.
    assert (json_native x = true) as Hnx by (by eapply IH).
    destruct (Json.after_char "," r').
    + eapply IH; [exact Hr|]. simpl. by rewrite Hnx, Hacc.
    + destruct (Json.after_char "]" r'); [|done]. injection Hr as <- _.
      change (forallb json_native (rev (x :: acc)) = true).
      apply forallb_rev_true. simpl. by rewrite Hnx, Hacc.
  - destruct (Json.after_char Json.dquote s) as [r1|]; [|done]. cbn [mbind option_bind].
    destruct (Json.read_string r1) as [[k r2]|]; [|done]. cbn [mbind option_bind].
    destruct (Json.after_char ":" r2) as [r3|]; [|done]. cbn [mbind option_bind].
    destruct (Json.read fuel Json.Value r3) as [[x r4]|] eqn:Hx; [|done].
    cbn [mbind option_bind]. intros Hr Hacc.
    assert (json_native x = true) as Hnx by (by eapply IH).
    destruct (Json.after_char "," r4).
    + eapply IH; [exact Hr|]. simpl. by apply dict_set_native.
    + destruct (Json.after_char "}" r4); [|done]. injection Hr as <- _.
      simpl. by apply dict_set_native.
Qed.

Lemma loads_native text v : Json.loads text = Some v -> json_native v = true.
Proof.
  unfold Json.loads.
  destruct (Json.read _ Json.Value text) as [[x r]|] eqn:Hx; [|done].
  cbn [mbind option_bind]. case_decide; [|done]. intros [= <-].
  by eapply read_native.
Qed.

Lemma reachable_with_reference_reader remote float_str json_dumps r :
  rates_nonneg remote ->
  reachable remote float_str json_dumps Json.loads r ->
  timestamps_only_as_dates (session r).
Proof.
  intros Hr. apply reachable_timestamps_only_as_dates; [done|].
  apply loads_native.
Qed.

(** C4 (as amended).  With number inputs that are not negative and a remote
    whose rates are not negative, the amount of each row agrees in sign
    with its type, at least 0 for 'Доход' and at most 0 for 'Расход', in
    every session the script can reach; and every run of the script, the
    append, the edit, the delete, [set_budget] and [contribute] among them,
    keeps it so from any session where it holds. *)
Theorem ledger_signs_match_kind remote float_str json_dumps json_loads :
  rates_nonneg remote ->
  (forall r, reachable remote float_str json_dumps json_loads r ->
             Forall sign_ok (transactions (session r)))
  /\ (forall c r, widget_input c ->
        Forall sign_ok (transactions (session r)) ->
        Forall sign_ok (transactions (session (after remote float_str json_dumps
                                                     json_loads c r)))).
Proof.
  intros Hr. split.
  - induction 1 as [|r c Hreach IH Hin]; [constructor|].
    by apply step_sign_ok.
  - intros c r. by apply step_sign_ok.
Qed.

Lemma offline_rates_nonneg : rates_nonneg offline.
Proof. intros url rs c q H. discriminate H. Qed.

Lemma two_purchases_reachable :
  reachable offline Json.float_str Json.dumps Json.loads two_purchases.
Proof.
  apply reachable_step; [apply reachable_step; [apply reachable_init|]|];
    (split; [by_decision|];
     split; [apply list_elem_of_here | split; [apply list_elem_of_here | done]]).
Qed.

(** C4 (as amended) at work: the remote out of reach, and the session
    after two purchases among the reachable ones. *)
Lemma ledger_signs_match_kind_witness :
  rates_nonneg offline
  /\ ((forall r, reachable offline Json.float_str Json.dumps Json.loads r ->
                 Forall sign_ok (transactions (session r)))
      /\ (forall c r, widget_input c ->
            Forall sign_ok (transactions (session r)) ->
            Forall sign_ok (transactions (session (after offline Json.float_str
                                                         Json.dumps Json.loads
                                                         c r)))))
  /\ Forall sign_ok (transactions (session two_purchases)).
Proof.
  pose proof (ledger_signs_match_kind offline Json.float_str Json.dumps
                                      Json.loads offline_rates_nonneg) as H.
  split; [exact offline_rates_nonneg|]. split; [exact H|].
  exact (proj1 H two_purchases two_purchases_reachable).
Defined.

(** C4, as stated, fails: setting a budget in a fresh session is a run of
    the script, and the row it adds is a 'Расход' with amount 0, which is
    not negative. *)
Lemma budget_row_amount_not_negative :
  let r := run (SetBudget noon "Продукты" (Q2Qc 5000)) initial_runtime in
  reachable offline Json.float_str Json.dumps Json.loads r
  /\ map tx_type (transactions (session r)) = [Expense]
  /\ map tx_amount (transactions (session r)) = [0]
  /\ ~ Forall sign_strict (transactions (session r)).
Proof.
  split; [|split; [|split]].
  - apply reachable_step; [apply reachable_init|].
    split; [by_decision|]. split; [apply list_elem_of_here | done].
  - reflexivity.
  - reflexivity.
  - intros H. apply Forall_inv in H. vm_compute in H. discriminate H.
Qed.

(** ** Formatter *)

Lemma chars_app s1 s2 : chars (s1 ++ s2) = (chars s1 ++ chars s2)%list.
Proof.
  induction s1 as [|c s1 IH]; [done|].
  change (chars (String c (s1 ++ s2)) = c :: (chars s1 ++ chars s2))%list.
  unfold chars in *. simpl. by rewrite IH.
Qed.

Lemma short_groups : forallb short_group (seq 0 1000) = true.
Proof. vm_compute. reflexivity. Qed.

Lemma N_digits_short (n : N) :
  (n < 1000)%N -> all_digits (N_digits n) /\ (1 <= String.length (N_digits n) <= 3)%nat.
Proof.
  intros Hn. pose proof short_groups as H.
  rewrite forallb_forall in H.
  specialize (H (N.to_nat n)). unfold short_group in H.
  rewrite N2Nat.id in H.
  assert (In (N.to_nat n) (seq 0 1000)) as Hin.
  { apply in_seq. lia. }
  apply H in Hin. destruct (andb_prop _ _ Hin) as [Hin' H3].
  destruct (andb_prop _ _ Hin') as [Hd H1].
  apply Nat.leb_le in H1, H3. split; [|lia].
  unfold all_digits. apply List.Forall_forall. intros c Hc.
  rewrite forallb_forall in Hd. by apply Hd.
Qed.

Lemma string_length_app s1 s2 :
  String.length (s1 ++ s2) = (String.length s1 + String.length s2)%nat.
Proof.
  induction s1 as [|c s1 IH]; [done|].
  change (S (String.length (s1 ++ s2)) = S (String.length s1 + String.length s2)).
  by rewrite IH.
Qed.

Lemma fixed_digits_length w n : String.length (fixed_digits w n) = w.
Proof. induction w as [|w IH]; [done|]. simpl. by rewrite IH. Qed.

Lemma fixed_digits_digits w n : all_digits (fixed_digits w n).
Proof.
  unfold all_digits, chars. induction w as [|w IH]; [constructor|].
  change (fixed_digits (S w) n)
    with (String (digit_char ((n / 10 ^ w) mod 10)) (fixed_digits w n)).
  constructor; [|done].
  apply digit_char_value. apply Nat.mod_upper_bound. lia.
Qed.

Lemma thousands_fuel_grouped fuel n :
  (n < 1000 * 2 ^ N.of_nat fuel)%N -> grouped (thousands_fuel fuel n).
Proof.
  revert n. induction fuel as [|fuel IH]; intros n Hn.
  - simpl in *. apply grouped_first; apply N_digits_short; lia.
  - cbn [thousands_fuel]. destruct (n <? 1000)%N eqn:E.
    + apply N.ltb_lt in E. apply grouped_first; by apply N_digits_short.
    + apply grouped_next.
      * apply IH. apply N.Div0.div_lt_upper_bound.
        rewrite Nat2N.inj_succ, N.pow_succ_r' in Hn. nia.
      * apply fixed_digits_digits.
      * apply fixed_digits_length.
Qed.

Lemma size_nat_gt (n : N) : (n < 2 ^ N.of_nat (N.size_nat n))%N.
Proof.
  destruct n as [|p]; [done|]. simpl N.size_nat.
  induction p as [p IH|p IH|].
  - change (Pos.size_nat p~1) with (S (Pos.size_nat p)).
    rewrite Nat2N.inj_succ, N.pow_succ_r'. lia.
  - change (Pos.size_nat p~0) with (S (Pos.size_nat p)).
    rewrite Nat2N.inj_succ, N.pow_succ_r'. lia.
  - done.
Qed.

Lemma thousands_grouped n : grouped (thousands n).
Proof.
  apply thousands_fuel_grouped. pose proof (size_nat_gt n). lia.
Qed.

Lemma grouped_chars s :
  grouped s -> Forall (fun c => is_digit c = true \/ c = ","%char) (chars s).
Proof.
  induction 1 as [ds Hd _|s ds _ IH Hd _].
  - eapply list.Forall_impl; [exact Hd|]. by left.
  - rewrite !chars_app. apply Forall_app. split; [done|].
    apply Forall_app. split.
    + constructor; [by right | constructor].
    + eapply list.Forall_impl; [exact Hd|]. by left.
Qed.

Lemma grouped_no_point sign body :
  sign = "" \/ sign = "-" -> grouped body -> ~ has_point (sign ++ body).
Proof.
  intros Hs Hg. unfold has_point. rewrite chars_app, elem_of_app.
  intros [Hin|Hin].
  - destruct Hs as [-> | ->]; simpl in Hin.
    + by apply elem_of_nil in Hin.
    + apply list_elem_of_singleton in Hin. discriminate.
  - pose proof (grouped_chars _ Hg) as Hc.
    rewrite list.Forall_forall in Hc. destruct (Hc _ Hin) as [H|H]; discriminate.
Qed.

Lemma currency_symbol_configured c symbol :
  CURRENCY_SYMBOLS !! c = Some symbol -> currency_symbol c = symbol.
Proof. intros H. unfold currency_symbol. by rewrite H. Qed.

Lemma digits_value_from_app acc s1 s2 :
  digits_value_from acc (s1 ++ s2)
  = digits_value_from (digits_value_from acc s1) s2.
Proof. unfold digits_value_from. by rewrite chars_app, fold_left_app. Qed.

Lemma read_digit_char acc d :
  (d < 10)%nat -> read_digit acc (digit_char d) = (acc * 10 + N.of_nat d)%N.
Proof.
  intros Hd. unfold read_digit.
  destruct (digit_char_value d Hd) as [-> ->]. done.
Qed.

Lemma digits_value_from_fixed w n acc :
  digits_value_from acc (fixed_digits w n)
  = (acc * 10 ^ N.of_nat w + N.of_nat (n mod 10 ^ w))%N.
Proof.
  revert acc. induction w as [|w IH]; intros acc.
  - change (digits_value_from acc (fixed_digits 0 n)) with acc.
    change (10 ^ 0)%nat with 1%nat. rewrite Nat.mod_1_r.
    change (10 ^ N.of_nat 0)%N with 1%N. lia.
  - change (fixed_digits (S w) n)
      with (String (digit_char ((n / 10 ^ w) mod 10)) (fixed_digits w n)).
    change (digits_value_from acc (String ?c ?s))
      with (digits_value_from (read_digit acc c) s).
    rewrite read_digit_char by (apply Nat.mod_upper_bound; lia).
    rewrite IH. rewrite Nat2N.inj_succ, N.pow_succ_r'.
    rewrite (Nat.pow_succ_r' 10 w), (Nat.mul_comm 10), Nat.Div0.mod_mul_r.
    rewrite !Nat2N.inj_add, !Nat2N.inj_mul, Nat2N.inj_pow. simpl N.of_nat. lia.
Qed.

Lemma digits_value_N_digits_fuel fuel n :
  (n < 10 * 2 ^ N.of_nat fuel)%N -> digits_value (N_digits_fuel fuel n) = n.
Proof.
  revert n. induction fuel as [|fuel IH]; intros n Hn.
  - cbn [N_digits_fuel]. unfold digits_value.
    change (digits_value_from 0 (String ?c "")) with (read_digit 0 c).
    rewrite read_digit_char.
    + rewrite N2Nat.id. simpl in Hn. rewrite N.mod_small; lia.
    + pose proof (N.mod_upper_bound n 10). lia.
  - cbn [N_digits_fuel]. destruct (n <? 10)%N eqn:E.
    + apply N.ltb_lt in E. unfold digits_value.
      change (digits_value_from 0 (String ?c "")) with (read_digit 0 c).
      rewrite read_digit_char by lia. rewrite N2Nat.id. lia.
    + apply N.ltb_ge in E. unfold digits_value.
      rewrite digits_value_from_app. fold (digits_value (N_digits_fuel fuel (n / 10))).
      rewrite IH.
      * change (digits_value_from ?a (String ?c "")) with (read_digit a c).
        rewrite read_digit_char.
        -- rewrite N2Nat.id. pose proof (N.div_mod n 10). lia.
        -- pose proof (N.mod_upper_bound n 10). lia.
      * apply N.Div0.div_lt_upper_bound.
        rewrite Nat2N.inj_succ, N.pow_succ_r' in Hn. nia.
Qed.

Lemma digits_value_N_digits n : digits_value (N_digits n) = n.
Proof.
  apply digits_value_N_digits_fuel. pose proof (size_nat_gt n). lia.
Qed.

Lemma digits_value_thousands_fuel fuel n :
  (n < 1000 * 2 ^ N.of_nat fuel)%N -> digits_value (thousands_fuel fuel n) = n.
Proof.
  revert n. induction fuel as [|fuel IH]; intros n Hn.
  - apply digits_value_N_digits.
  - cbn [thousands_fuel]. destruct (n <? 1000)%N eqn:E.
    + apply digits_value_N_digits.
    + apply N.ltb_ge in E. unfold digits_value.
      rewrite !digits_value_from_app.
      fold (digits_value (thousands_fuel fuel (n / 1000))).
      rewrite IH.
      * change (digits_value_from ?a ",") with (read_digit a ","%char).
        change (read_digit ?a ","%char) with a.
        rewrite digits_value_from_fixed.
        rewrite Nat.mod_small.
        -- rewrite N2Nat.id. change (10 ^ N.of_nat 3)%N with 1000%N.
           pose proof (N.div_mod n 1000). lia.
        -- pose proof (N.mod_upper_bound n 1000).
           change (10 ^ 3)%nat with 1000%nat. lia.
      * apply N.Div0.div_lt_upper_bound.
        rewrite Nat2N.inj_succ, N.pow_succ_r' in Hn. nia.
Qed.

Lemma digits_value_thousands n : digits_value (thousands n) = n.
Proof.
  apply digits_value_thousands_fuel. pose proof (size_nat_gt n). lia.
Qed.

(** The hundredths rendered are the nearest whole number of hundredths of
    the amount's absolute value. *)
Lemma hundredths_nearest (a : Qc) :
  (Qabs (this a) * inject_Z 100 - (1 # 2)
   <= inject_Z (Z.of_N (hundredths a))
   <= Qabs (this a) * inject_Z 100 + (1 # 2))%Q.
Proof.
  unfold hundredths.
  assert (0 <= Qabs (this a) * inject_Z 100)%Q as Hq.
  { apply Qmult_le_0_compat; [apply Qabs_nonneg | done]. }
  destruct (round_half_even_nearest _ Hq) as [H0 H].
  by rewrite Z2N.id.
Qed.

(** [int] drops the fraction: the whole part of the absolute value, with
    the sign of the amount. *)
Lemma int_of_truncates (a : Qc) :
  Z.abs (int_of a) = Qfloor (Qabs (this a))
  /\ ((int_of a < 0)%Z -> a < 0).
Proof.
  unfold int_of. destruct a as [[n d] Hc]. simpl. split.
  - rewrite <- (Z.quot_abs n (Z.pos d)) by done. simpl Z.abs at 2.
    apply Z.quot_div_nonneg; lia.
  - intros H. unfold Qclt, Qlt. simpl.
    destruct (Z.lt_ge_cases n 0) as [Hn|Hn]; [lia|].
    pose proof (Z.quot_pos n (Z.pos d) Hn). lia.
Qed.

Lemma format_amount_given a c r :
  c ≠ "" -> format_amount a (Some c) r = (Ok (format_amount_in a c), r).
Proof. intros Hc. unfold format_amount. by rewrite decide_False. Qed.

Lemma format_amount_default a (currency : option string) r dc :
  supported_default r dc -> currency = None \/ currency = Some "" ->
  format_amount a currency r = (Ok (format_amount_in a dc), r).
Proof.
  intros Hdc [-> | ->]; unfold format_amount;
    [|rewrite decide_True by done];
    by erewrite bind_ok by (by apply default_currency_code_ok).
Qed.

Lemma N_even_of_N (n : N) : N.even n = Z.even (Z.of_N n).
Proof. destruct n as [|[p|p|]]; reflexivity. Qed.

(** Of two equally near numbers of hundredths the even one is rendered. *)
Lemma hundredths_tie (a : Qc) :
  (Qabs (inject_Z (Z.of_N (hundredths a)) - Qabs (this a) * inject_Z 100)
   == 1 # 2)%Q ->
  N.even (hundredths a) = true.
Proof.
  unfold hundredths.
  assert (0 <= Qabs (this a) * inject_Z 100)%Q as Hq.
  { apply Qmult_le_0_compat; [apply Qabs_nonneg | done]. }
  destruct (round_half_even_nearest _ Hq) as [H0 _].
  rewrite N_even_of_N, Z2N.id by done. apply round_half_even_tie.
Qed.

(** [int] gives a negative number from [-1.0] down. *)
Lemma int_of_negative (a : Qc) : (int_of a < 0)%Z <-> a <= - (1).
Proof.
  unfold int_of. destruct a as [[n d] Hc]. unfold Qcle, Qle. simpl.
  assert (0 < Z.pos d)%Z as Hd by done.
  destruct (Z.lt_ge_cases n 0) as [Hn|Hn].
  - replace n with (- - n)%Z by lia. rewrite Z.quot_opp_l by done.
    destruct (Z.lt_ge_cases (- n) (Z.pos d)) as [Hs|Hs].
    + rewrite (Z.quot_small (- n)) by lia. lia.
    + pose proof (Z.quot_str_pos (- n) (Z.pos d)). lia.
  - pose proof (Z.quot_pos n (Z.pos d) Hn Hd). lia.
Qed.

(** C8.  For every finite float and every currency given to
    [format_amount], the text is a sign (empty or a minus), the digits in
    groups of three separated by commas, then, for 'VND', the one currency
    the function treats as having no minor unit, nothing more of the number
    (no point in it), and for every other currency a point and exactly two
    digits; a space and the symbol follow, the configured one when the
    currency has one.  The digits are those of the amount: for 'VND' the
    grouped digits are the whole part of its absolute value, with a minus
    from -1 down; otherwise the grouped digits and the two decimals are its
    absolute value in hundredths, the nearest whole number of them and the
    even one of two equally near, with a minus for every negative float,
    the zero [-0.0] included. *)
Theorem format_amount_rendering (x : pyfloat) (c : string) :
  exists sign body : string,
    (sign = "" \/ sign = "-")
    /\ grouped body
    /\ ~ has_point (sign ++ body)
    /\ (if decide (c = "VND") then
          format_amount_in x c = (sign ++ body) ++ " " ++ "₫"
          /\ (inject_Z (Z.of_N (digits_value body))
              <= Qabs (this (float_value x)))%Q
          /\ (Qabs (this (float_value x))
              < inject_Z (Z.of_N (digits_value body)) + 1)%Q
          /\ (sign = "-" <-> float_value x <= - (1))
        else
          exists (d1 d2 : ascii) (h : N),
            is_digit d1 = true /\ is_digit d2 = true
            /\ format_amount_in x c
               = (sign ++ body ++ "." ++ String d1 (String d2 ""))
                 ++ " " ++ currency_symbol c
            /\ h = (digits_value body * 100
                    + digits_value (String d1 (String d2 "")))%N
            /\ (Qabs (inject_Z (Z.of_N h)
                      - Qabs (this (float_value x)) * inject_Z 100)
                <= 1 # 2)%Q
            /\ ((Qabs (inject_Z (Z.of_N h)
                       - Qabs (this (float_value x)) * inject_Z 100)
                 == 1 # 2)%Q -> N.even h = true)
            /\ (sign = "-" <-> float_value x < 0 \/ x = NegativeZero))
    /\ (forall symbol, CURRENCY_SYMBOLS !! c = Some symbol ->
                       currency_symbol c = symbol)
    /\ (forall r, c ≠ "" ->
                  format_amount x (Some c) r = (Ok (format_amount_in x c), r)).
Proof.
  set (a := float_value x).
  unfold format_amount_in. fold a. destruct (decide (c = "VND")) as [->|Hne].
  - exists (if (int_of a <? 0)%Z then "-" else ""), (thousands (Z.abs_N (int_of a))).
    assert ((if (int_of a <? 0)%Z then "-" else "") = ""
            \/ (if (int_of a <? 0)%Z then "-" else "") = "-") as Hs
      by (destruct (int_of a <? 0)%Z; auto).
    split; [done|]. split; [apply thousands_grouped|].
    split; [apply grouped_no_point; [done | apply thousands_grouped]|].
    split; [|split; [apply currency_symbol_configured|]].
    + split; [done|]. rewrite digits_value_thousands, N2Z.inj_abs_N.
      destruct (int_of_truncates a) as [-> _].
      split; [apply Qfloor_le|]. split.
      * pose proof (Qlt_floor (Qabs (this a))) as H.
        by rewrite inject_Z_plus in H.
      * rewrite <- int_of_negative. destruct (int_of a <? 0)%Z eqn:E.
        -- apply Z.ltb_lt in E. done.
        -- apply Z.ltb_ge in E. split; [done | lia].
    + intros r Hc. by rewrite format_amount_given.
  - unfold format_fixed2. fold a. cbv zeta.
    exists (if sign_bit x then "-" else ""), (thousands (hundredths a / 100)).
    assert ((if sign_bit x then "-" else "") = ""
            \/ (if sign_bit x then "-" else "") = "-") as Hs
      by (destruct (sign_bit x); auto).
    split; [done|]. split; [apply thousands_grouped|].
    split; [apply grouped_no_point; [done | apply thousands_grouped]|].
    split; [|split; [apply currency_symbol_configured|]].
    + eexists _, _, (hundredths a).
      split; [|split; [|split; [reflexivity|split; [|split; [|split]]]]].
      * apply digit_char_value. apply Nat.mod_upper_bound. lia.
      * apply digit_char_value. apply Nat.mod_upper_bound. lia.
      * rewrite digits_value_thousands.
        change (String ?x (String ?y ""))
          with (fixed_digits 2 (N.to_nat (hundredths a mod 100))).
        unfold digits_value. rewrite digits_value_from_fixed.
        pose proof (N.mod_upper_bound (hundredths a) 100).
        rewrite Nat.mod_small by (change (10 ^ 2)%nat with 100%nat; lia).
        rewrite N2Nat.id. pose proof (N.div_mod (hundredths a) 100). lia.
      * pose proof (hundredths_nearest a) as [Hlo Hhi].
        apply Qabs_case; intros _; lra.
      * apply hundredths_tie.
      * destruct x as [v|]; simpl in *.
        -- subst a. case_bool_decide; split; try done.
           ++ by left.
           ++ intros [?|?]; done.
        -- split; [by right | done].
    + intros r Hc. rewrite format_amount_given by done.
      unfold format_amount_in. by rewrite decide_False.
Qed.

(** The renderings of the specification's scenario and of a few amounts
    Python prints the same way. *)
Example format_amount_balance :
  format_amount_in (Q2Qc 1000 - Q2Qc 200) "RUB" = "800.00 ₽".
Proof. vm_compute. reflexivity. Qed.

Example format_amount_rounds_half_to_even :
  format_amount_in (Q2Qc 0.125) "USD" = "0.12 $"
  /\ format_amount_in (Q2Qc 0.375) "USD" = "0.38 $"
  /\ format_amount_in (Q2Qc (-1234567.891)) "EUR" = "-1,234,567.89 €".
Proof. vm_compute. repeat split; reflexivity. Qed.

Example format_amount_dong_truncates :
  format_amount_in (Q2Qc 1234567.891) "VND" = "1,234,567 ₫"
  /\ format_amount_in (Q2Qc (-999.999)) "VND" = "-999 ₫"
  /\ format_amount_in (Q2Qc (-0.5)) "VND" = "0 ₫".
Proof. vm_compute. repeat split; reflexivity. Qed.

(** [-0.0], the amount of an expense of 0, and a negative amount that
    rounds to no hundredths are rendered with their sign; [int] has none
    to give for them. *)
Example format_amount_negative_zero :
  format_amount_in NegativeZero "RUB" = "-0.00 ₽"
  /\ format_amount_in (Q2Qc (-0.001)) "RUB" = "-0.00 ₽"
  /\ format_amount_in (Q2Qc 0) "RUB" = "0.00 ₽"
  /\ format_amount_in NegativeZero "VND" = "0 ₫".
Proof. vm_compute. repeat split; reflexivity. Qed.

(** * Further properties of the code *)

(** ** The handlers, run *)

Lemma runtime_eta r : Runtime (session r) (log r) = r.
Proof. by destruct r. Qed.

Lemma handle_blocked remote float_str json_dumps json_loads c r :
  default_currency_code r = (Raise ValueError, r) ->
  handle remote float_str json_dumps json_loads c r = (Raise ValueError, r).
Proof.
  intros E.
  destruct c; simpl;
    unfold add_transaction, set_budget, add_goal, change_default_currency,
      export_clicked, upload_backup, save_changes, delete_clicked, contribute;
    by erewrite bind_raise by exact E.
Qed.

Lemma convert_amount_run remote from to :
  exists rate events, converts remote from to rate events.
Proof.
  unfold converts.
  destruct (decide (from = to)) as [->|Hne].
  - exists 1, []. split; [|split; [done|done]].
    intros a r. unfold convert_amount. rewrite decide_True by done.
    by rewrite Qcmult_1_r, app_nil_r, runtime_eta.
  - destruct (remote (latest_url from)) as [| | |rs] eqn:Ho.
    4: { exists (rates_get rs to), [HttpGet (latest_url from)].
         split; [|split; [done|]].
         - intros a r. rewrite convert_amount_distinct by done.
           by erewrite get_exchange_rates_fetched by done.
         - intros _. left. eauto. }
    all: exists (rates_get (fallback_rates from) to),
           [HttpGet (latest_url from); StError "Ошибка при получении курсов валют"];
         (split; [|split; [done|]]);
         [ intros a r; rewrite convert_amount_distinct by done;
           rewrite get_exchange_rates_failed by (rewrite Ho; exact I); done
         | intros _; right; done ].
Qed.

Lemma add_transaction_run remote float_str d k category currency amount
      description r dc rate events :
  supported_default r dc -> converts remote currency dc rate events ->
  add_transaction remote float_str d k category currency amount description r
  = (Ok tt,
     let df' := (transactions (session r)
                 ++ [Transaction (to_datetime_date d) k category
                                 (signed k (amount * rate))
                                 (if decide (currency = dc) then description
                                  else with_original float_str description
                                                     amount currency)
                                 0 dc])%list in
     Runtime (SessionState df' (to_dict_records df') (goals (session r))
                           (goals_data (session r))
                           (default_currency (session r)))
             (log r ++ events
                    ++ [StSuccess "Транзакция добавлена!"; StRerun])%list).
Proof.
  intros Hdc (Hconv & Hsame & _). unfold add_transaction.
  erewrite bind_ok by (by apply default_currency_code_ok).
  destruct (decide (currency = dc)) as [->|Hne].
  - destruct (Hsame eq_refl) as [-> ->]. run_py.
    by rewrite Qcmult_1_r, <- app_assoc.
  - erewrite bind_ok by apply Hconv. run_py.
    by rewrite <- !app_assoc.
Qed.

Lemma selector_default_ok options x r :
  x ∈ options -> selector_default options x r = (Ok tt, r).
Proof. intros H. unfold selector_default. by rewrite decide_True. Qed.

Lemma selector_default_raises options x r :
  x ∉ options -> selector_default options x r = (Raise ValueError, r).
Proof. intros H. unfold selector_default. by rewrite decide_False. Qed.

Lemma save_changes_run remote float_str index d k category currency amount
      description r dc row rate events :
  supported_default r dc -> converts remote currency dc rate events ->
  transactions (session r) !! index = Some row ->
  tx_category row ∈ categories_of k -> tx_currency row ∈ CURRENCIES ->
  save_changes remote float_str index d k category currency amount
               description r
  = (Ok tt,
     let df' := alter (apply_edit
                         (EditedData (to_datetime_date d) k category
                                     (signed k (amount * rate))
                                     (if decide (currency = dc) then description
                                      else with_original float_str description
                                                         amount currency)
                                     dc))
                      index (transactions (session r)) in
     Runtime (SessionState df' (to_dict_records df') (goals (session r))
                           (goals_data (session r))
                           (default_currency (session r)))
             (log r ++ events
                    ++ [StSuccess "Изменения сохранены!"; StRerun])%list).
Proof.
  intros Hdc (Hconv & Hsame & _) Hrow Hcat Hcur. unfold save_changes.
  erewrite bind_ok by (by apply default_currency_code_ok).
  erewrite bind_ok by done. simpl. rewrite Hrow.
  erewrite bind_ok by (by apply selector_default_ok).
  erewrite bind_ok by (by apply selector_default_ok).
  destruct (decide (currency = dc)) as [->|Hne].
  - destruct (Hsame eq_refl) as [-> ->]. unfold edit_transaction. run_py.
    by rewrite Qcmult_1_r, <- app_assoc.
  - erewrite bind_ok by apply Hconv. unfold edit_transaction. run_py.
    by rewrite <- !app_assoc.
Qed.

Lemma save_changes_raises remote float_str index d k category currency amount
      description r dc row :
  supported_default r dc ->
  transactions (session r) !! index = Some row ->
  tx_category row ∉ categories_of k \/ tx_currency row ∉ CURRENCIES ->
  save_changes remote float_str index d k category currency amount
               description r
  = (Raise ValueError, r).
Proof.
  intros Hdc Hrow Hnot. unfold save_changes.
  erewrite bind_ok by (by apply default_currency_code_ok).
  erewrite bind_ok by done. simpl. rewrite Hrow.
  destruct (decide (tx_category row ∈ categories_of k)) as [Hcat|Hcat].
  - destruct Hnot as [?|Hcur]; [done|].
    erewrite bind_ok by (by apply selector_default_ok).
    by erewrite bind_raise by (by apply selector_default_raises).
  - by erewrite bind_raise by (by apply selector_default_raises).
Qed.

Lemma delete_clicked_run index r dc row :
  supported_default r dc ->
  transactions (session r) !! index = Some row ->
  delete_clicked index r
  = (Ok tt,
     let df' := delete index (transactions (session r)) in
     Runtime (SessionState df' (to_dict_records df') (goals (session r))
                           (goals_data (session r))
                           (default_currency (session r)))
             (log r ++ [StSuccess "Транзакция удалена!"; StRerun])%list).
Proof.
  intros Hdc Hrow. unfold delete_clicked.
  erewrite bind_ok by (by apply default_currency_code_ok).
  unfold delete_transaction. run_py. rewrite Hrow. run_py. rewrite Hrow.
  by rewrite <- app_assoc.
Qed.

Lemma add_goal_run goal_name goal_amount goal_deadline r dc :
  supported_default r dc ->
  add_goal goal_name goal_amount goal_deadline r
  = (Ok tt,
     let gs' := (goals (session r)
                 ++ [Goal goal_name goal_amount (strftime_ymd goal_deadline) 0])%list in
     Runtime (SessionState (transactions (session r))
                           (transactions_data (session r)) gs'
                           (PList (map goal_dict gs'))
                           (default_currency (session r)))
             (log r ++ [StSuccess "Цель добавлена!"])%list).
Proof.
  intros Hdc. unfold add_goal.
  erewrite bind_ok by (by apply default_currency_code_ok).
  by run_py.
Qed.

Lemma change_default_currency_run c r dc :
  supported_default r dc ->
  change_default_currency c r
  = (Ok tt,
     if decide (c = dc) then r
     else Runtime (set_default_currency (PStr c) (session r))
                  (log r ++ [StSuccess ("Основная валюта изменена на " ++ c)])%list).
Proof.
  intros Hdc. unfold change_default_currency.
  erewrite bind_ok by (by apply default_currency_code_ok).
  by case_decide.
Qed.

Lemma upload_backup_run json_loads content r dc :
  supported_default r dc ->
  upload_backup json_loads content r
  = (Ok tt,
     let r1 := snd (import_all_data json_loads content r) in
     Runtime (session r1)
             (log r ++ (if fst (import_all_data json_loads content r)
                           is Ok true
                        then [StSuccess "Данные успешно восстановлены!"; StRerun]
                        else [StError "Ошибка при восстановлении данных"]))%list).
Proof.
  intros Hdc. unfold upload_backup.
  erewrite bind_ok by (by apply default_currency_code_ok).
  destruct (import_all_data_returns json_loads content r) as (ok & r1 & E).
  assert (log r1 = log r) as Hlog.
  { revert E. rewrite import_all_data_run. repeat case_match; by intros [= _ <-]. }
  erewrite bind_ok by exact E. rewrite E. simpl.
  destruct ok; run_py; rewrite Hlog; [by rewrite <- app_assoc | done].
Qed.

Lemma save_changes_no_row remote float_str index d k category currency amount
      description r dc :
  supported_default r dc -> transactions (session r) !! index = None ->
  save_changes remote float_str index d k category currency amount
               description r = (Ok tt, r).
Proof.
  intros Hdc Hrow. unfold save_changes.
  erewrite bind_ok by (by apply default_currency_code_ok).
  erewrite bind_ok by done. simpl. by rewrite Hrow.
Qed.

Lemma delete_clicked_no_row index r dc :
  supported_default r dc -> transactions (session r) !! index = None ->
  delete_clicked index r = (Ok tt, r).
Proof.
  intros Hdc Hrow. unfold delete_clicked.
  erewrite bind_ok by (by apply default_currency_code_ok).
  erewrite bind_ok by done. simpl. by rewrite Hrow.
Qed.

Lemma contribute_no_goal now idx a r dc :
  supported_default r dc -> goals (session r) !! idx = None ->
  contribute now idx a r = (Ok tt, r).
Proof.
  intros Hdc Hg. unfold contribute.
  erewrite bind_ok by (by apply default_currency_code_ok).
  erewrite bind_ok by done. simpl. by rewrite Hg.
Qed.

Lemma export_clicked_run json_dumps r dc :
  supported_default r dc -> export_clicked json_dumps r = (Ok tt, r).
Proof.
  intros Hdc. unfold export_clicked.
  erewrite bind_ok by (by apply default_currency_code_ok).
  by run_py.
Qed.

(** *** Rule induction on the sessions the script reaches

    [R] holds of every row and [G] of every goal of a reachable session
    when they hold of what each handler writes, given that they hold of
    what it finds. *)
Section Reachable.
Variable remote : string -> fetch_outcome.
Variable float_str : Qc -> string.
Variable json_dumps : pyval -> string.
Variable json_loads : string -> option pyval.

Variable Q : Qc -> Prop.
Hypothesis Q_final :
  forall a from to rate events,
    0 <= a -> converts remote from to rate events -> Q (a * rate).

Variable R : transaction -> Prop.
Variable G : goal -> Prop.
Hypothesis R_append :
  forall d k category q description dc,
    valid_date d -> category ∈ categories_of k -> Q q -> dc ∈ CURRENCIES ->
    R (Transaction (to_datetime_date d) k category (signed k q) description 0 dc).
Hypothesis R_edit :
  forall d k category q description dc row,
    valid_date d -> category ∈ categories_of k -> Q q -> dc ∈ CURRENCIES ->
    R row ->
    R (apply_edit (EditedData (to_datetime_date d) k category (signed k q)
                              description dc) row).
Hypothesis R_budget_row :
  forall now dc c a,
    valid_timestamp now -> c ∈ EXPENSE_CATEGORIES -> 0 <= a -> dc ∈ CURRENCIES ->
    R (budget_row now dc c a).
Hypothesis R_with_budget :
  forall a row,
    0 <= a -> tx_category row ∈ EXPENSE_CATEGORIES -> R row ->
    R (with_budget a row).
Hypothesis R_contribution :
  forall now a g dc,
    valid_timestamp now -> 0 <= a -> dc ∈ CURRENCIES -> G g ->
    R (Transaction now Expense "Накопления" (- a)
                   ("Вклад в цель: " ++ name g) 0 dc).
Hypothesis G_new :
  forall goal_name a d,
    valid_date d -> 0 <= a -> G (Goal goal_name a (strftime_ymd d) 0).
Hypothesis G_add : forall a g, 0 <= a -> G g -> G (add_contribution a g).

Lemma step_kept c r :
  widget_input c -> kept R G r ->
  kept R G (after remote float_str json_dumps json_loads c r).
Proof.
  intros Hin [Hdf Hgs]. unfold after.
  destruct (default_currency_code_cases r) as [(dc & Hdc & _)|E].
  2: { by rewrite handle_blocked by done. }
  pose proof Hdc as [_ Hsup].
  destruct c; simpl in Hin |- *.
  - destruct Hin as (Hd & Hcat & Hcur & Ha).
    destruct (convert_amount_run remote currency dc) as (rate & events & Hconv).
    erewrite add_transaction_run by done. split; [|done]. simpl.
    apply Forall_app. split; [done|]. constructor; [|constructor].
    apply R_append; eauto.
  - destruct Hin as (Hnow & Hcat & Ha).
    erewrite set_budget_run by done. split; [|done]. simpl.
    destruct (decide (Exists (in_category category_budget)
                             (transactions (session r)))).
    + rewrite set_budget_frame_found by done. apply Forall_fmap.
      rewrite list.Forall_forall in Hdf. apply list.Forall_forall.
      intros row Hrow. simpl. case_decide; [|by apply Hdf].
      apply R_with_budget; [done| |by apply Hdf]. congruence.
    + rewrite set_budget_frame_missing by done. apply Forall_app.
      split; [done|]. constructor; [|constructor]. by apply R_budget_row.
  - destruct Hin as (Hd & Ha).
    erewrite add_goal_run by done. split; [done|]. simpl.
    apply Forall_app. split; [done|]. constructor; [|constructor].
    by apply G_new.
  - erewrite change_default_currency_run by done. by case_decide.
  - by erewrite export_clicked_run by done.
  - erewrite upload_backup_run by done. unfold kept. simpl.
    by destruct (import_all_data_live json_loads content r) as [-> ->].
  - destruct Hin as (Hd & Hcat & Hcur & Ha).
    destruct (transactions (session r) !! index) as [row|] eqn:Hrow.
    2: { by erewrite save_changes_no_row by done. }
    destruct (decide (tx_category row ∈ categories_of edited_type)) as [Hc|Hc].
    2: { erewrite save_changes_raises by eauto. done. }
    destruct (decide (tx_currency row ∈ CURRENCIES)) as [Hu|Hu].
    2: { erewrite save_changes_raises by eauto. done. }
    destruct (convert_amount_run remote edited_currency dc)
      as (rate & events & Hconv).
    erewrite save_changes_run by done. split; [|done]. simpl.
    apply Forall_alter; [done|]. intros row' _ Hrow'.
    apply R_edit; eauto.
  - destruct (transactions (session r) !! index) as [row|] eqn:Hrow.
    2: { by erewrite delete_clicked_no_row by done. }
    erewrite delete_clicked_run by done. split; [|done]. simpl.
    by apply Forall_delete.
  - destruct Hin as (Hnow & Ha).
    destruct (goals (session r) !! idx) as [g|] eqn:Hg.
    2: { by erewrite contribute_no_goal by done. }
    erewrite contribute_run by done. split; simpl.
    + apply Forall_app. split; [done|]. constructor; [|constructor].
      apply R_contribution; try done.
      rewrite list.Forall_forall in Hgs. apply Hgs.
      by eapply list_elem_of_lookup_2.
    + apply Forall_alter; [done|]. intros g' _ Hg'. by apply G_add.
Qed.

Lemma reachable_kept r :
  reachable remote float_str json_dumps json_loads r -> kept R G r.
Proof.
  induction 1 as [|r c Hr IH Hin]; [|by apply step_kept].
  split; constructor.
Qed.
End Reachable.

(** ** Deleting and editing a row *)

(** X1.  [delete_transaction] on the label of a row removes that row and
    renumbers the rows after it: the frame is one shorter, the rows before
    keep their labels, the rows after move down by one, and the stored
    records are those of the new frame; goals, default currency and log are
    untouched.  On a label that is not in the frame it raises KeyError and
    changes nothing. *)
Theorem delete_transaction_bounds (index : nat) (r : runtime) :
  let df := transactions (session r) in
  ((index < length df)%nat ->
   exists r',
     delete_transaction index r = (Ok tt, r')
     /\ transactions (session r') = (take index df ++ drop (S index) df)%list
     /\ (length (transactions (session r')) + 1 = length df)%nat
     /\ (forall j, (j < index)%nat -> transactions (session r') !! j = df !! j)
     /\ (forall j, (index <= j)%nat ->
                   transactions (session r') !! j = df !! S j)
     /\ transactions_data (session r')
        = to_dict_records (transactions (session r'))
     /\ goals (session r') = goals (session r)
     /\ goals_data (session r') = goals_data (session r)
     /\ default_currency (session r') = default_currency (session r)
     /\ log r' = log r)
  /\ ((length df <= index)%nat ->
      exists key, delete_transaction index r = (Raise (KeyError key), r)).
Proof.
  cbv zeta. split.
  - intros Hi. destruct (lookup_lt_is_Some_2 _ _ Hi) as [row Hrow].
    eexists. unfold delete_transaction. run_py. rewrite Hrow. run_py.
    split; [done|]. simpl.
    split; [by rewrite delete_take_drop|].
    split; [rewrite length_delete by eauto; lia|].
    split; [intros j Hj; by rewrite list_lookup_delete_lt|].
    split; [intros j Hj; by rewrite list_lookup_delete_ge|]. done.
  - intros Hi. apply lookup_ge_None_2 in Hi. eexists.
    unfold delete_transaction. run_py. by rewrite Hi.
Qed.

(** Two rows: label 2 is not in the frame, label 0 is. *)
Example delete_transaction_of_two_purchases :
  delete_transaction 2 two_purchases = (Raise (KeyError "index"), two_purchases)
  /\ map tx_amount
         (transactions (session (snd (delete_transaction 0 two_purchases))))
     = [- Q2Qc 50].
Proof. split; reflexivity. Qed.



Lemma categories_shared c k1 k2 :
  c ∈ categories_of k1 -> c ∈ categories_of k2 -> k1 ≠ k2 -> c = "Другое".
Proof.
  intros H1 H2 Hne.
  assert (c ∈ INCOME_CATEGORIES /\ c ∈ EXPENSE_CATEGORIES) as [Hi He]
    by (destruct k1, k2; done).
  unfold INCOME_CATEGORIES in Hi.
  rewrite !elem_of_cons, elem_of_nil in Hi.
  destruct Hi as [->|[->|[->|[->|[]]]]]; [exfalso..|done];
    revert He; apply (bool_decide_unpack (¬ _)); vm_compute; exact I.
Qed.

(** X3.  'Сохранить изменения' with the type selector moved away from the
    row's own type: unless the row's category is 'Другое', the one category
    both lists hold, the category selector finds no default
    ([list.index] raises ValueError), the run ends there and nothing is
    changed. *)
Theorem save_changes_type_switch_raises remote float_str (index : nat) d k
        category currency amount description (r : runtime) dc row :
  supported_default r dc ->
  transactions (session r) !! index = Some row ->
  tx_category row ∈ categories_of (tx_type row) ->
  k ≠ tx_type row -> tx_category row ≠ "Другое" ->
  save_changes remote float_str index d k category currency amount
               description r
  = (Raise ValueError, r).
Proof.
  intros Hdc Hrow Hown Hk Hc. eapply save_changes_raises; [done..|].
  left. intros Hin. apply Hc.
  by apply (categories_shared _ k (tx_type row)).
Qed.

(** X3 at work: a purchase of 'Продукты' with the type set to 'Доход'. *)
Lemma save_changes_type_switch_raises_witness :
  supported_default two_purchases "RUB"
  /\ transactions (session two_purchases) !! 0%nat = Some first_purchase
  /\ tx_category first_purchase ∈ categories_of (tx_type first_purchase)
  /\ Income ≠ tx_type first_purchase
  /\ tx_category first_purchase ≠ "Другое"
  /\ save_changes offline Json.float_str 0 may_day Income "Зарплата" "RUB"
                  (Q2Qc 200) "" two_purchases
     = (Raise ValueError, two_purchases).
Proof.
  assert (supported_default two_purchases "RUB") as Hdc
    by (by apply supported_default_RUB).
  assert (transactions (session two_purchases) !! 0%nat = Some first_purchase)
    as Hrow by reflexivity.
  assert (tx_category first_purchase ∈ categories_of (tx_type first_purchase))
    as Hown by by_decision.
  assert (Income ≠ tx_type first_purchase) as Hk by discriminate.
  assert (tx_category first_purchase ≠ "Другое") as Hc by discriminate.
  split; [exact Hdc|]. split; [exact Hrow|]. split; [exact Hown|].
  split; [exact Hk|]. split; [exact Hc|].
  apply (save_changes_type_switch_raises offline Json.float_str 0 may_day
           Income "Зарплата" "RUB" (Q2Qc 200) "" two_purchases "RUB"
           first_purchase Hdc Hrow Hown Hk Hc).
Defined.

(** ** What the reachable sessions keep *)

Lemma reachable_well_formed remote float_str json_dumps json_loads r :
  reachable remote float_str json_dumps json_loads r ->
  kept row_well_formed goal_well_formed r.
Proof.
  apply (reachable_kept remote float_str json_dumps json_loads (fun _ => True)).
  - done.
  - intros d k category q description dc Hd Hcat _ Hdc.
    split; [done|]. split; [done|]. split; [apply Qcle_refl | exact Hd].
  - intros d k category q description dc row Hd Hcat _ Hdc (_ & _ & Hb & _).
    split; [done|]. split; [done|]. split; [exact Hb | exact Hd].
  - intros now dc c a Hnow Hc Ha Hdc.
    split; [exact Hc|]. split; [done|]. split; [exact Ha | exact Hnow].
  - intros a row Ha Hc (? & ? & ? & ?).
    split; [done|]. split; [done|]. split; [exact Ha | done].
  - intros now a g dc Hnow Ha Hdc _.
    split; [by_decision|]. split; [done|]. split; [apply Qcle_refl | exact Hnow].
  - intros goal_name a d Hd Ha. split; [done | apply Qcle_refl].
  - intros a g Ha [Ht Hc]. split; [done|]. simpl.
    by apply float_add_nonneg.
Qed.

(** X4.  In every session the script reaches, every row of the ledger has
    a category the selector offers for the row's type, a supported
    currency, a budget that is not negative and a date in range. *)
Theorem reachable_rows_well_formed remote float_str json_dumps json_loads r :
  reachable remote float_str json_dumps json_loads r ->
  Forall row_well_formed (transactions (session r)).
Proof. intros Hr. by apply reachable_well_formed in Hr as [? _]. Qed.

(** X4 at work: the session after two purchases. *)
Lemma reachable_rows_well_formed_witness :
  reachable offline Json.float_str Json.dumps Json.loads two_purchases
  /\ Forall row_well_formed (transactions (session two_purchases)).
Proof.
  split; [exact two_purchases_reachable|].
  exact (reachable_rows_well_formed offline Json.float_str Json.dumps
           Json.loads two_purchases two_purchases_reachable).
Defined.

Lemma row_selectors_ok k row r :
  tx_category row ∈ categories_of k -> tx_currency row ∈ CURRENCIES ->
  row_selectors k row r = (Ok tt, r).
Proof.
  intros Hc Hu. unfold row_selectors.
  erewrite bind_ok by (by apply selector_default_ok).
  by apply selector_default_ok.
Qed.

Lemma other_in_both k : "Другое" ∈ categories_of k.
Proof. destruct k; by_decision. Qed.

(** X5.  The selectors of a row of the history tab, in a reachable
    session: with the type selector at the row's own type, where it starts,
    or with a row of category 'Другое', they find their defaults and
    return; with the type moved away from the row's own and any other
    category they raise ValueError. *)
Theorem history_selectors_of_reachable remote float_str json_dumps json_loads
        r (index : nat) row (edited_type : kind) :
  reachable remote float_str json_dumps json_loads r ->
  transactions (session r) !! index = Some row ->
  (edited_type = tx_type row \/ tx_category row = "Другое" ->
   row_selectors edited_type row r = (Ok tt, r))
  /\ (edited_type ≠ tx_type row -> tx_category row ≠ "Другое" ->
      row_selectors edited_type row r = (Raise ValueError, r)).
Proof.
  intros Hr Hrow. apply reachable_well_formed in Hr as [Hdf _].
  rewrite list.Forall_forall in Hdf.
  destruct (Hdf row) as (Hcat & Hcur & _); [by eapply list_elem_of_lookup_2|].
  split.
  - intros [-> | Hc]; apply row_selectors_ok; try done.
    rewrite Hc. apply other_in_both.
  - intros Hk Hc. unfold row_selectors.
    erewrite bind_raise; [done|]. apply selector_default_raises.
    intros Hin. apply Hc.
    by apply (categories_shared _ edited_type (tx_type row)).
Qed.

(** X5 at work: the first of the two purchases. *)
Lemma history_selectors_of_reachable_witness :
  reachable offline Json.float_str Json.dumps Json.loads two_purchases
  /\ transactions (session two_purchases) !! 0%nat = Some first_purchase
  /\ (Income = tx_type first_purchase \/ tx_category first_purchase = "Другое" ->
      row_selectors Income first_purchase two_purchases = (Ok tt, two_purchases))
  /\ (Income ≠ tx_type first_purchase -> tx_category first_purchase ≠ "Другое" ->
      row_selectors Income first_purchase two_purchases
      = (Raise ValueError, two_purchases)).
Proof.
  assert (transactions (session two_purchases) !! 0%nat = Some first_purchase)
    as Hrow by reflexivity.
  split; [exact two_purchases_reachable|]. split; [exact Hrow|].
  exact (history_selectors_of_reachable offline Json.float_str Json.dumps
           Json.loads two_purchases 0 first_purchase Income
           two_purchases_reachable Hrow).
Defined.

(** ** The goals tab *)

Lemma hundred_nonzero : Q2Qc 100 ≠ 0.
Proof. intros H. apply Q2Qc_eq_iff in H. discriminate H. Qed.

Lemma progress_fraction g :
  0 < target_amount g ->
  progress g / Q2Qc 100 = current_amount g / target_amount g.
Proof.
  intros Ht. unfold progress. rewrite decide_True by done.
  pose proof hundred_nonzero. pose proof (Qclt_not_eq _ _ Ht).
  field. split; [by intros E; rewrite E in * | done].
Qed.

Lemma Qcdiv_mult_cancel (c t : Qc) : t ≠ 0 -> c / t * t = c.
Proof. intros Ht. field. done. Qed.

Lemma Qcdiv_le_iff (c t x : Qc) : 0 < t -> (x <= c / t <-> x * t <= c).
Proof.
  intros Ht. pose proof (Qclt_not_eq _ _ Ht) as Hne.
  assert (t ≠ 0) as Hne' by (by intros ->).
  rewrite <- (Qcdiv_mult_cancel c t Hne') at 2. split.
  - intros H. apply Qcmult_le_compat_r; [done | by apply Qclt_le_weak].
  - by apply Qcmult_lt_0_le_reg_r.
Qed.

Lemma Qcdiv_ge_iff (c t x : Qc) : 0 < t -> (c / t <= x <-> c <= x * t).
Proof.
  intros Ht. pose proof (Qclt_not_eq _ _ Ht) as Hne.
  assert (t ≠ 0) as Hne' by (by intros ->).
  rewrite <- (Qcdiv_mult_cancel c t Hne') at 2. split.
  - intros H. apply Qcmult_le_compat_r; [done | by apply Qclt_le_weak].
  - by apply Qcmult_lt_0_le_reg_r.
Qed.

Lemma progress_value_cases g :
  goal_well_formed g ->
  0 <= progress_value g <= 1
  /\ (target_amount g = 0 -> progress g = 0 /\ progress_value g = 0)
  /\ (progress_value g = 1
      <-> 0 < target_amount g /\ target_amount g <= current_amount g).
Proof.
  intros [Ht Hc]. unfold progress_value. cbv zeta.
  destruct (decide (0 < target_amount g)) as [Hpos|Hzero].
  - rewrite progress_fraction by done.
    assert (target_amount g ≠ 0) as Hne by (intros E; rewrite E in Hpos; done).
    split; [|split].
    + case_decide as Hv; [done|]. apply Qcnot_lt_le in Hv. split; [|done].
      apply Qcdiv_le_iff; [done|]. by rewrite Qcmult_0_l.
    + done.
    + case_decide as Hv.
      * split; [intros _|done]. split; [done|].
        apply Qclt_le_weak. apply Qcnot_le_lt. intros Hle. apply (Qclt_not_le _ _ Hv).
        apply Qcdiv_ge_iff; [done|]. by rewrite Qcmult_1_l.
      * apply Qcnot_lt_le in Hv. split.
        -- intros E. split; [done|]. rewrite <- (Qcmult_1_l (target_amount g)).
           apply Qcdiv_le_iff; [done|]. rewrite E. apply Qcle_refl.
        -- intros [_ Hle]. apply Qcle_antisym; [done|].
           apply Qcdiv_le_iff; [done|]. by rewrite Qcmult_1_l.
  - assert (target_amount g = 0) as E.
    { apply Qcle_antisym; [by apply Qcnot_lt_le | done]. }
    unfold progress. rewrite (decide_False (P := 0 < target_amount g)) by done.
    assert (0 / Q2Qc 100 = 0) as -> by (apply Qc_is_canon; reflexivity).
    rewrite decide_False by (intros H; vm_compute in H; discriminate H).
    split; [split; [apply Qcle_refl | by vm_compute]|].
    split; [done|]. split; [intros H; vm_compute in H; discriminate H | by intros [? _]].
Qed.

Lemma after_contribution_reachable :
  reachable offline Json.float_str Json.dumps Json.loads after_contribution.
Proof.
  apply reachable_step; [apply reachable_step; [apply reachable_step;
    [apply reachable_init|]|]|].
  - split; [by_decision|].
    split; [apply list_elem_of_here | split; [apply list_elem_of_here | done]].
  - split; [by_decision | done].
  - split; [by_decision | done].
Qed.

(** X6.  In every session the script reaches, the value the progress bar
    of a goal is given lies between 0 and 1, the range [st.progress]
    accepts; a goal with target 0 shows 0 and is not divided by; and the
    bar is full exactly when the target is positive and reached. *)
Theorem progress_value_in_range remote float_str json_dumps json_loads r g :
  reachable remote float_str json_dumps json_loads r ->
  g ∈ goals (session r) ->
  0 <= progress_value g <= 1
  /\ (target_amount g = 0 -> progress g = 0 /\ progress_value g = 0)
  /\ (progress_value g = 1
      <-> 0 < target_amount g /\ target_amount g <= current_amount g).
Proof.
  intros Hr Hg. apply reachable_well_formed in Hr as [_ Hgs].
  rewrite list.Forall_forall in Hgs. by apply progress_value_cases, Hgs.
Qed.

(** X6 at work: the goal 'Car' with 2500 of 10000. *)
Lemma progress_value_in_range_witness :
  reachable offline Json.float_str Json.dumps Json.loads after_contribution
  /\ car_goal ∈ goals (session after_contribution)
  /\ 0 <= progress_value car_goal <= 1
  /\ (target_amount car_goal = 0 ->
      progress car_goal = 0 /\ progress_value car_goal = 0)
  /\ (progress_value car_goal = 1
      <-> 0 < target_amount car_goal
          /\ target_amount car_goal <= current_amount car_goal).
Proof.
  assert (car_goal ∈ goals (session after_contribution)) as Hg
    by apply list_elem_of_here.
  split; [exact after_contribution_reachable|]. split; [exact Hg|].
  exact (progress_value_in_range offline Json.float_str Json.dumps Json.loads
           after_contribution car_goal after_contribution_reachable Hg).
Defined.

Example progress_of_car_goal :
  progress car_goal = Q2Qc 25 /\ progress_value car_goal = Q2Qc 0.25.
Proof. split; apply Qc_is_canon; reflexivity. Qed.

(** ** The overview *)







(** ** The overview and the handlers *)





Example overview_of_two_purchases :
  total_balance (transactions (session two_purchases)) = - Q2Qc 250
  /\ income (transactions (session two_purchases)) = 0
  /\ expenses (transactions (session two_purchases)) = Q2Qc 250.
Proof. repeat split; apply Qc_is_canon; reflexivity. Qed.






(** ** Adding a transaction *)







(** ** Deleting a row, adding a goal, changing the default currency *)

(** X13.  'Удалить' on a row of the ledger returns, removes that row and
    no other, saves the records and leaves the goals alone; the success
    message and the rerun follow. *)
Theorem delete_clicked_removes (index : nat) (r : runtime) dc row :
  supported_default r dc ->
  transactions (session r) !! index = Some row ->
  exists r',
    delete_clicked index r = (Ok tt, r')
    /\ transactions (session r')
       = (take index (transactions (session r))
          ++ drop (S index) (transactions (session r)))%list
    /\ transactions_data (session r')
       = to_dict_records (transactions (session r'))
    /\ goals (session r') = goals (session r)
    /\ goals_data (session r') = goals_data (session r)
    /\ log r' = (log r ++ [StSuccess "Транзакция удалена!"; StRerun])%list.
Proof.
  intros Hdc Hrow. eexists. split; [by eapply delete_clicked_run|].
  simpl. split; [by rewrite delete_take_drop|]. done.
Qed.

(** X13 at work: the first of two purchases is deleted. *)
Lemma delete_clicked_removes_witness :
  supported_default two_purchases "RUB"
  /\ transactions (session two_purchases) !! 0%nat = Some first_purchase
  /\ exists r',
       delete_clicked 0 two_purchases = (Ok tt, r')
       /\ transactions (session r')
          = (take 0 (transactions (session two_purchases))
             ++ drop 1 (transactions (session two_purchases)))%list
       /\ transactions_data (session r')
          = to_dict_records (transactions (session r'))
       /\ goals (session r') = goals (session two_purchases)
       /\ goals_data (session r') = goals_data (session two_purchases)
       /\ log r' = (log two_purchases
                        ++ [StSuccess "Транзакция удалена!"; StRerun])%list.
Proof.
  assert (supported_default two_purchases "RUB") as Hdc
    by (by apply supported_default_RUB).
  assert (transactions (session two_purchases) !! 0%nat = Some first_purchase)
    as Hrow by reflexivity.
  split; [exact Hdc|]. split; [exact Hrow|].
  exact (delete_clicked_removes 0 two_purchases "RUB" first_purchase Hdc Hrow).
Defined.

(** X14.  'Добавить цель' returns and appends one goal to the list: the
    name and target entered, the deadline as the text of [%Y-%m-%d], and
    nothing saved yet, so its progress is 0.  The stored goals are the
    goals of the list, and the ledger is untouched. *)
Theorem add_goal_appends goal_name (goal_amount : Qc) goal_deadline
        (r : runtime) dc :
  supported_default r dc ->
  exists r' g,
    add_goal goal_name goal_amount goal_deadline r = (Ok tt, r')
    /\ goals (session r') = (goals (session r) ++ [g])%list
    /\ name g = goal_name /\ target_amount g = goal_amount
    /\ current_amount g = 0 /\ progress g = 0
    /\ deadline g = strftime_ymd goal_deadline
    /\ goals_data (session r') = PList (map goal_dict (goals (session r')))
    /\ transactions (session r') = transactions (session r)
    /\ transactions_data (session r') = transactions_data (session r)
    /\ log r' = (log r ++ [StSuccess "Цель добавлена!"])%list.
Proof.
  intros Hdc. eexists _, _. split; [by eapply add_goal_run|]. simpl.
  split; [done|]. do 3 (split; [done|]).
  split.
  { unfold progress. simpl. case_decide; [|done].
    unfold Qcdiv. by rewrite Qcmult_0_l, Qcmult_0_l. }
  done.
Qed.

(** X14 at work: the goal 'Car' of 10000. *)
Lemma add_goal_appends_witness :
  supported_default initial_runtime "RUB"
  /\ exists r' g,
       add_goal "Car" (Q2Qc 10000) (Date 2025 12 31) initial_runtime
       = (Ok tt, r')
       /\ goals (session r') = (goals (session initial_runtime) ++ [g])%list
       /\ name g = "Car" /\ target_amount g = Q2Qc 10000
       /\ current_amount g = 0 /\ progress g = 0
       /\ deadline g = strftime_ymd (Date 2025 12 31)
       /\ goals_data (session r') = PList (map goal_dict (goals (session r')))
       /\ transactions (session r') = transactions (session initial_runtime)
       /\ transactions_data (session r')
          = transactions_data (session initial_runtime)
       /\ log r' = (log initial_runtime ++ [StSuccess "Цель добавлена!"])%list.
Proof.
  assert (supported_default initial_runtime "RUB") as Hdc
    by (by apply supported_default_RUB).
  split; [exact Hdc|].
  exact (add_goal_appends "Car" (Q2Qc 10000) (Date 2025 12 31)
           initial_runtime "RUB" Hdc).
Defined.

Example strftime_ymd_of_deadline : strftime_ymd (Date 2025 12 31) = "2025-12-31".
Proof. reflexivity. Qed.

(** X15.  Changing the default currency converts nothing: the ledger, its
    stored records and the goals are what they were, amounts and row
    currencies included; only the default currency is replaced, with a
    message when it differs from the old one.  An amount formatted without
    a currency is from then on rendered in the new one. *)
Theorem change_default_currency_converts_nothing (c : string) (r : runtime) dc :
  supported_default r dc -> c ∈ CURRENCIES ->
  exists r',
    change_default_currency c r = (Ok tt, r')
    /\ supported_default r' c
    /\ transactions (session r') = transactions (session r)
    /\ transactions_data (session r') = transactions_data (session r)
    /\ goals (session r') = goals (session r)
    /\ goals_data (session r') = goals_data (session r)
    /\ log r' = (log r ++ (if decide (c = dc) then []
                           else [StSuccess ("Основная валюта изменена на " ++ c)]))%list
    /\ (forall a, format_amount a None r' = (Ok (format_amount_in a c), r')).
Proof.
  intros Hdc Hc. eexists. split; [by eapply change_default_currency_run|].
  assert (forall r', supported_default r' c ->
            forall a, format_amount a None r' = (Ok (format_amount_in a c), r'))
    as Hfmt.
  { intros r' Hr' a. by apply format_amount_default; [|left]. }
  destruct (decide (c = dc)) as [->|Hne].
  - rewrite app_nil_r. do 6 (split; [done|]). by apply Hfmt.
  - simpl. assert (supported_default
                     (Runtime (set_default_currency (PStr c) (session r))
                              (log r ++ [StSuccess ("Основная валюта изменена на " ++ c)]))
                     c) as Hr' by done.
    do 6 (split; [done|]). by apply Hfmt.
Qed.

(** X15 at work: from 'RUB' to 'USD' after two purchases. *)
Lemma change_default_currency_converts_nothing_witness :
  supported_default two_purchases "RUB"
  /\ "USD" ∈ CURRENCIES
  /\ exists r',
       change_default_currency "USD" two_purchases = (Ok tt, r')
       /\ supported_default r' "USD"
       /\ transactions (session r') = transactions (session two_purchases)
       /\ transactions_data (session r')
          = transactions_data (session two_purchases)
       /\ goals (session r') = goals (session two_purchases)
       /\ goals_data (session r') = goals_data (session two_purchases)
       /\ log r' = (log two_purchases
                        ++ (if decide ("USD" = "RUB") then []
                            else [StSuccess ("Основная валюта изменена на "
                                             ++ "USD")]))%list
       /\ (forall a, format_amount a None r'
                     = (Ok (format_amount_in a "USD"), r')).
Proof.
  assert (supported_default two_purchases "RUB") as Hdc
    by (by apply supported_default_RUB).
  assert ("USD" ∈ CURRENCIES) as Hc by by_decision.
  split; [exact Hdc|]. split; [exact Hc|].
  exact (change_default_currency_converts_nothing "USD" two_purchases "RUB"
           Hdc Hc).
Defined.

(** ** Import, the live stores and the next run *)

Lemma import_all_data_complete json_loads (json_str : string)
      (r : runtime) data t g settings c :
  json_loads json_str = Some data ->
  item data "transactions" = Some t ->
  item data "goals" = Some g ->
  item data "settings" = Some settings ->
  item settings "default_currency" = Some c ->
  import_all_data json_loads json_str r
  = (Ok true,
     Runtime (SessionState (transactions (session r)) t
                           (goals (session r)) g c)
             (log r)).
Proof.
  intros Hd Ht Hg Hs Hc.
  by rewrite import_all_data_run, Hd, Ht, Hg, Hs; simpl; rewrite Hc.
Qed.

(** X16.  [import_all_data] checks nothing but the presence of the keys:
    it returns [True] exactly for a text that parses to a document with
    'transactions', 'goals' and 'settings'/'default_currency', whatever
    values they hold, and then stores the three values as they are.  The
    frame and the goals list the app works on, and the log, are not
    touched. *)
Theorem import_all_data_accepts_iff json_loads (json_str : string)
        (r r' : runtime) :
  import_all_data json_loads json_str r = (Ok true, r')
  <-> exists data t g settings c,
        json_loads json_str = Some data
        /\ item data "transactions" = Some t
        /\ item data "goals" = Some g
        /\ item data "settings" = Some settings
        /\ item settings "default_currency" = Some c
        /\ r' = Runtime (SessionState (transactions (session r)) t
                                      (goals (session r)) g c)
                        (log r).
Proof.
  split; [apply import_all_data_success|].
  intros (data & t & g & settings & c & Hd & Ht & Hg & Hs & Hc & ->).
  by eapply import_all_data_complete.
Qed.

(** A number, a null and an unknown currency are imported. *)
Example import_of_odd_backup :
  Json.loads odd_backup = Some odd_backup_document
  /\ import_all_data Json.loads odd_backup two_purchases
     = (Ok true,
        Runtime (SessionState (transactions (session two_purchases))
                              (PNum (Q2Qc 5))
                              (goals (session two_purchases)) PNone
                              (PStr "BTC"))
                (log two_purchases)).
Proof.
  assert (Json.loads odd_backup = Some odd_backup_document) as Hd
    by (vm_compute; reflexivity).
  split; [exact Hd|]. by eapply import_all_data_complete.
Qed.

Lemma unsupported_blocked r :
  (forall dc, ~ supported_default r dc) ->
  default_currency_code r = (Raise ValueError, r).
Proof.
  intros Hno. destruct (default_currency_code_cases r) as [(dc & Hdc & _)|E];
    [by destruct (Hno dc) | done].
Qed.

(** X17.  A backup whose default currency is not one of CURRENCIES is
    accepted like any other: the upload reports success and asks for a
    rerun.  From then on every run of the script raises ValueError at the
    currency selector, before any handler, and changes nothing: the
    session stays as the upload left it. *)
Theorem upload_of_unknown_currency_blocks remote float_str json_dumps
        json_loads (content : string) (r : runtime) dc data t g settings c :
  supported_default r dc ->
  json_loads content = Some data ->
  item data "transactions" = Some t ->
  item data "goals" = Some g ->
  item data "settings" = Some settings ->
  item settings "default_currency" = Some c ->
  (forall code, code ∈ CURRENCIES -> c ≠ PStr code) ->
  exists r1,
    upload_backup json_loads content r = (Ok tt, r1)
    /\ default_currency (session r1) = c
    /\ log r1 = (log r ++ [StSuccess "Данные успешно восстановлены!";
                           StRerun])%list
    /\ (forall click,
          handle remote float_str json_dumps json_loads click r1
          = (Raise ValueError, r1)).
Proof.
  intros Hdc Hd Ht Hg Hs Hc Hno. eexists.
  split; [by eapply upload_backup_run|].
  rewrite (import_all_data_complete json_loads content r data t g
             settings c Hd Ht Hg Hs Hc). simpl.
  split; [done|]. split; [done|].
  intros click. apply handle_blocked, unsupported_blocked.
  intros code [Hcode Hin]. simpl in Hcode. by apply (Hno code).
Qed.

Lemma odd_backup_loads : Json.loads odd_backup = Some odd_backup_document.
Proof. vm_compute. reflexivity. Qed.

(** X17 at work: the backup with 'BTC' uploaded after two purchases. *)
Lemma upload_of_unknown_currency_blocks_witness :
  supported_default two_purchases "RUB"
  /\ Json.loads odd_backup = Some odd_backup_document
  /\ item odd_backup_document "transactions" = Some (PNum (Q2Qc 5))
  /\ item odd_backup_document "goals" = Some PNone
  /\ item odd_backup_document "settings"
     = Some (PDict [("default_currency", PStr "BTC")])
  /\ item (PDict [("default_currency", PStr "BTC")]) "default_currency"
     = Some (PStr "BTC")
  /\ (forall code, code ∈ CURRENCIES -> PStr "BTC" ≠ PStr code)
  /\ exists r1,
       upload_backup Json.loads odd_backup two_purchases = (Ok tt, r1)
       /\ default_currency (session r1) = PStr "BTC"
       /\ log r1 = (log two_purchases
                        ++ [StSuccess "Данные успешно восстановлены!";
                            StRerun])%list
       /\ (forall click,
             handle offline Json.float_str Json.dumps Json.loads click r1
             = (Raise ValueError, r1)).
Proof.
  assert (supported_default two_purchases "RUB") as Hdc
    by (by apply supported_default_RUB).
  assert (item odd_backup_document "transactions" = Some (PNum (Q2Qc 5)))
    as Ht by reflexivity.
  assert (item odd_backup_document "goals" = Some PNone) as Hg by reflexivity.
  assert (item odd_backup_document "settings"
          = Some (PDict [("default_currency", PStr "BTC")])) as Hs
    by reflexivity.
  assert (item (PDict [("default_currency", PStr "BTC")]) "default_currency"
          = Some (PStr "BTC")) as Hc by reflexivity.
  assert (forall code, code ∈ CURRENCIES -> PStr "BTC" ≠ PStr code) as Hno.
  { intros code Hin [= <-]. revert Hin.
    apply (bool_decide_unpack (¬ _)). vm_compute. exact I. }
  split; [exact Hdc|]. split; [exact odd_backup_loads|]. split; [exact Ht|].
  split; [exact Hg|]. split; [exact Hs|]. split; [exact Hc|].
  split; [exact Hno|].
  exact (upload_of_unknown_currency_blocks offline Json.float_str Json.dumps
           Json.loads odd_backup two_purchases "RUB" odd_backup_document
           (PNum (Q2Qc 5)) PNone (PDict [("default_currency", PStr "BTC")])
           (PStr "BTC") Hdc odd_backup_loads Ht Hg Hs Hc Hno).
Defined.

(** X18.  Whatever is uploaded, the ledger and the goals the app works on
    are afterwards what they were: the upload writes the stored copies
    only, and the script reads those in a fresh session alone.  The first
    transaction added after the upload saves the old ledger with the new
    row over the imported records, so that nothing of the imported ledger
    is left. *)
Theorem upload_leaves_live_stores remote float_str json_loads
        (content : string) (r : runtime) :
  let r1 := snd (upload_backup json_loads content r) in
  transactions (session r1) = transactions (session r)
  /\ goals (session r1) = goals (session r)
  /\ (forall d k category currency amount description,
        (exists dc, supported_default r1 dc) ->
        let r2 := snd (add_transaction remote float_str d k category currency
                                       amount description r1) in
        exists row,
          transactions (session r2) = (transactions (session r) ++ [row])%list
          /\ transactions_data (session r2)
             = to_dict_records (transactions (session r) ++ [row])
          /\ load_data (session r2) = Some (transactions (session r) ++ [row])%list).
Proof.
  cbv zeta.
  assert (transactions (session (snd (upload_backup json_loads content r)))
          = transactions (session r)
          /\ goals (session (snd (upload_backup json_loads content r)))
             = goals (session r)) as [Ht Hg].
  { destruct (default_currency_code_cases r) as [(dc & Hdc & _)|E].
    - erewrite upload_backup_run by done. simpl.
      apply import_all_data_live.
    - unfold upload_backup. by erewrite bind_raise by done. }
  split; [done|]. split; [done|].
  intros d k category currency amount description [dc Hdc].
  destruct (convert_amount_run remote currency dc) as (rate & events & Hconv).
  erewrite add_transaction_run by done. simpl. rewrite Ht.
  eexists. split; [done|]. split; [done|].
  by eapply load_data_to_dict_records.
Qed.

(** The empty backup uploaded over two purchases, and a third purchase
    after it: the import empties the stored records and leaves the ledger,
    and the purchase stores the three rows. *)
Example purchase_after_upload :
  let r1 := snd (upload_backup Json.loads empty_backup two_purchases) in
  let r2 := snd (add_transaction offline Json.float_str may_day Expense
                                 "Продукты" "USD" (Q2Qc 30) "" r1) in
  transactions_data (session r1) = PList []
  /\ transactions (session r1) = transactions (session two_purchases)
  /\ map tx_amount (transactions (session r2))
     = [- Q2Qc 200; - Q2Qc 50; - Q2Qc 30]
  /\ load_data (session r2) = Some (transactions (session r2)).
Proof. vm_compute. repeat split; reflexivity. Qed.

(** ** Saving and loading the ledger *)

(** X19.  [load_data] after [save_data df] gives [df] back, rows, order
    and values, for every frame; in a fresh session it gives the empty
    frame.  [save_data] writes the stored records and nothing else. *)
Theorem load_data_after_save_data (df : frame) (r : runtime) :
  exists r',
    save_data df r = (Ok tt, r')
    /\ load_data (session r') = Some df
    /\ transactions (session r') = transactions (session r)
    /\ goals (session r') = goals (session r)
    /\ goals_data (session r') = goals_data (session r)
    /\ default_currency (session r') = default_currency (session r)
    /\ log r' = log r
    /\ load_data initial_session = Some [].
Proof.
  eexists. split; [done|]. simpl.
  split; [by eapply load_data_to_dict_records | done].
Qed.

(** ** The rate fetcher, whatever the remote does *)

(** X20.  [get_exchange_rates] always returns and never touches the
    session: it makes one request, to the URL of the base currency.  A
    fetched table is returned as it came, with no look at its entries and
    no message; a failed fetch adds the one [st.error] and returns the
    fallback table. *)
Theorem get_exchange_rates_returns remote (base : string) (r : runtime) :
  exists table events,
    get_exchange_rates remote base r
    = (Ok table,
       Runtime (session r) (log r ++ HttpGet (latest_url base) :: events))
    /\ (forall rs, remote (latest_url base) = RatesOf rs ->
                   table = rs /\ events = [])
    /\ (fetch_failed (remote (latest_url base)) ->
        table = fallback_rates base
        /\ events = [StError "Ошибка при получении курсов валют"]).
Proof.
  destruct (remote (latest_url base)) as [| | |rs] eqn:Ho.
  4: { exists rs, []. split; [by apply get_exchange_rates_fetched|].
       split; [by intros ? [= <-] | done]. }
  all: exists (fallback_rates base), [StError "Ошибка при получении курсов валют"];
       (split; [apply get_exchange_rates_failed; rewrite Ho; exact I|]);
       (split; [done | done]).
Qed.

(** ** The history tab *)

Lemma elem_of_labelled (df : frame) index row :
  (index, row) ∈ labelled df <-> df !! index = Some row.
Proof.
  unfold labelled. rewrite elem_of_lookup_imap. split.
  - by intros (i & x & [= -> ->] & H).
  - intros H. by exists index, row.
Qed.

Lemma elem_of_filter_if {A} (P : A -> Prop) `{!forall x, Decision (P x)}
      (b : Prop) `{!Decision b} (l : list A) x :
  x ∈ (if decide b then l else filter P l) <-> x ∈ l /\ (b \/ P x).
Proof.
  case_decide.
  - split; [intros ?; split; [done | by left] | by intros [? _]].
  - rewrite list.list_elem_of_filter. split.
    + intros [? ?]. split; [done | by right].
    + intros [? [?|?]]; done.
Qed.

(** X22.  The rows the history tab shows: a row of the ledger is among
    them, under its own label, exactly when its type is one of the types
    selected, or none is selected, its category is one of the categories
    selected, or none is selected, and its amount, sign removed, is at
    least the minimum. *)
Theorem filtered_history_rows (type_filter : list kind)
        (category_filter : list string) (min_amount : Qc) (df : frame)
        (index : nat) (row : transaction) :
  (index, row) ∈ filtered_history type_filter category_filter min_amount df
  <-> df !! index = Some row
      /\ (type_filter = [] \/ tx_type row ∈ type_filter)
      /\ (category_filter = [] \/ tx_category row ∈ category_filter)
      /\ min_amount <= py_abs (tx_amount row).
Proof.
  unfold filtered_history. cbv zeta.
  rewrite list.list_elem_of_filter.
  rewrite (elem_of_filter_if (fun ir => tx_category ir.2 ∈ category_filter)).
  rewrite (elem_of_filter_if (fun ir => tx_type ir.2 ∈ type_filter)).
  rewrite elem_of_labelled. simpl. tauto.
Qed.

Lemma filter_all {A} (P : A -> Prop) `{!forall x, Decision (P x)} (l : list A) :
  Forall P l -> filter P l = l.
Proof.
  induction 1 as [|x l Hx _ IH]; [done|].
  by rewrite list.filter_cons_True, IH.
Qed.

(** X23.  With the widgets as they start, both types selected, no
    category selected and minimum 0, the history tab shows the whole
    ledger, every row under its position.  A multiselect with nothing
    selected filters nothing: clearing the type filter shows what
    selecting both types shows.  Whatever is selected, the rows shown are
    rows of the ledger in the ledger's order. *)
Theorem filtered_history_defaults (category_filter : list string)
        (min_amount : Qc) (df : frame) :
  filtered_history [Income; Expense] [] 0 df = labelled df
  /\ length (filtered_history [Income; Expense] [] 0 df) = length df
  /\ filtered_history [] category_filter min_amount df
     = filtered_history [Income; Expense] category_filter min_amount df
  /\ (forall type_filter,
        sublist (filtered_history type_filter category_filter min_amount df)
                (labelled df)).
Proof.
  assert (forall l : list (nat * transaction),
            filter (fun ir => tx_type ir.2 ∈ [Income; Expense]) l = l) as Hall.
  { intros l. apply filter_all, list.Forall_forall. intros [i t] _. simpl.
    destruct (tx_type t); [apply list_elem_of_here|].
    apply list_elem_of_further, list_elem_of_here. }
  assert (filtered_history [Income; Expense] [] 0 df = labelled df) as E.
  { unfold filtered_history. cbv zeta.
    rewrite (decide_False (P := [Income; Expense] = [])) by done.
    rewrite (decide_True (P := @nil string = [])) by done.
    rewrite Hall. apply filter_all, list.Forall_forall. intros [i t] _.
    apply Qcabs.Qcabs_nonneg. }
  split; [exact E|]. split; [by rewrite E; apply length_imap|]. split.
  - unfold filtered_history. cbv zeta.
    rewrite (decide_True (P := @nil kind = [])) by done.
    rewrite (decide_False (P := [Income; Expense] = [])) by done.
    by rewrite Hall.
  - intros type_filter. unfold filtered_history. cbv zeta.
    etrans; [apply sublist_filter|].
    repeat case_decide; try done;
      repeat (etrans; [apply sublist_filter|]); done.
Qed.

(** ** The CSV export *)

Lemma grouped_head s :
  grouped s -> exists d rest, s = String d rest /\ is_digit d = true.
Proof.
  induction 1 as [ds Hd Hlen|s ds _ (d & rest & -> & Hdig) _ _].
  - destruct ds as [|c ds]; [simpl in Hlen; lia|].
    exists c, ds. split; [done|]. by apply Forall_inv in Hd.
  - by exists d, (rest ++ "," ++ ds).
Qed.

Lemma int_of_abs_nonneg (a : Qc) : (0 <= int_of (py_abs a))%Z.
Proof.
  unfold int_of. destruct a as [[n d] Hc]. simpl.
  apply Z.quot_pos; lia.
Qed.

Lemma format_amount_in_abs (a : Qc) (c : string) :
  exists d rest,
    format_amount_in (py_abs a) c = String d rest /\ is_digit d = true.
Proof.
  unfold format_amount_in. cbn [float_value]. case_decide.
  - unfold format_int_grouped.
    pose proof (int_of_abs_nonneg a) as Hn.
    apply Z.ltb_ge in Hn. rewrite Hn.
    destruct (grouped_head _ (thousands_grouped (Z.abs_N (int_of (py_abs a)))))
      as (d & rest & -> & Hd).
    by exists d, (rest ++ " " ++ currency_symbol c).
  - unfold format_fixed2. cbn [float_value sign_bit].
    rewrite bool_decide_false by (apply Qcle_not_lt, Qcabs.Qcabs_nonneg).
    destruct (grouped_head _ (thousands_grouped (hundredths (py_abs a) / 100)))
      as (d & rest & -> & Hd).
    by eexists d, _.
Qed.

Lemma apply_rows_ok {A B} (f : A -> py B) (g : A -> B) (rows : list A) r :
  (forall x, x ∈ rows -> f x r = (Ok (g x), r)) ->
  apply_rows f rows r = (Ok (map g rows), r).
Proof.
  induction rows as [|x rows IH]; intros Hf; [done|].
  simpl. erewrite bind_ok by (apply Hf, list_elem_of_here).
  erewrite bind_ok by (apply IH; intros y Hy; by apply Hf, list_elem_of_further).
  done.
Qed.

Lemma zip_with_map_r {A B C} (f : A -> B -> C) (g : A -> B) (l : list A) :
  zip_with f l (map g l) = map (fun x => f x (g x)) l.
Proof. induction l as [|x l IH]; [done|]. simpl. by rewrite IH. Qed.

Lemma strftime_dmy_length t : String.length (strftime_dmy t) = 10%nat.
Proof.
  unfold strftime_dmy. rewrite !string_length_app, !fixed_digits_length. done.
Qed.

(** X24.  [export_to_csv] on a frame that is not empty returns the byte
    order mark followed by the table of as many rows, in order.  In each
    row the date is ten characters, day first; the amount is the text
    [format_amount] gives for the amount without its sign, in the row's
    own currency (the default one for a row without currency), and that
    text begins with a digit; a row of type 'Расход' gets a minus sign in
    front of it, whatever its amount, and a row of type 'Доход' none.  The
    other columns are copied, and the session is untouched. *)
Theorem export_to_csv_rows to_csv (df : frame) (r : runtime) dc :
  supported_default r dc -> df ≠ [] ->
  exists rows,
    export_to_csv to_csv df r = (Ok (utf8_sig ++ to_csv rows), r)
    /\ length rows = length df
    /\ (forall i row, df !! i = Some row ->
          exists ex body d rest,
            rows !! i = Some ex
            /\ body = format_amount_in
                        (py_abs (tx_amount row))
                        (if decide (tx_currency row = "") then dc
                         else tx_currency row)
            /\ body = String d rest /\ is_digit d = true
            /\ ex_amount ex
               = (if decide (tx_type row = Expense) then "-" ++ body else body)
            /\ ex_date ex = strftime_dmy (tx_date row)
            /\ String.length (ex_date ex) = 10%nat
            /\ ex_type ex = tx_type row
            /\ ex_category ex = tx_category row
            /\ ex_description ex = tx_description row
            /\ ex_budget ex = tx_budget row
            /\ ex_currency ex = tx_currency row).
Proof.
  intros Hdc _.
  set (cur := fun row : transaction =>
                if decide (tx_currency row = "") then dc else tx_currency row).
  set (amount_text := fun row : transaction =>
                        format_amount_in (py_abs (tx_amount row)) (cur row)).
  assert (apply_rows
            (fun row => format_amount (py_abs (tx_amount row))
                                      (Some (tx_currency row))) df r
          = (Ok (map amount_text df), r)) as Happly.
  { apply apply_rows_ok. intros row _. unfold amount_text, cur.
    destruct (decide (tx_currency row = "")) as [E|E].
    - rewrite E. apply format_amount_default; [done | by right].
    - by apply format_amount_given. }
  eexists. unfold export_to_csv, export_df.
  erewrite bind_ok; [|erewrite bind_ok by exact Happly; reflexivity].
  split; [reflexivity|]. rewrite zip_with_map_r.
  split; [by rewrite length_map|].
  intros i row Hrow.
  destruct (format_amount_in_abs (tx_amount row) (cur row))
    as (d & rest & Hbody & Hd).
  eexists _, (amount_text row), d, rest.
  split; [by rewrite list_lookup_fmap, Hrow|].
  cbn [ex_amount ex_date ex_type ex_category ex_description ex_budget
       ex_currency].
  split; [done|]. split; [done|]. split; [done|]. split; [done|].
  split; [done|]. split; [apply strftime_dmy_length | done].
Qed.

(** X24 at work: the ledger of two purchases. *)
Lemma export_to_csv_rows_witness :
  supported_default two_purchases "RUB"
  /\ transactions (session two_purchases) ≠ []
  /\ exists rows,
       export_to_csv (fun _ => "") (transactions (session two_purchases))
                     two_purchases
       = (Ok (utf8_sig ++ (fun _ => "") rows), two_purchases)
       /\ length rows = length (transactions (session two_purchases))
       /\ (forall i row, transactions (session two_purchases) !! i = Some row ->
             exists ex body d rest,
               rows !! i = Some ex
               /\ body = format_amount_in
                           (py_abs (tx_amount row))
                           (if decide (tx_currency row = "") then "RUB"
                            else tx_currency row)
               /\ body = String d rest /\ is_digit d = true
               /\ ex_amount ex
                  = (if decide (tx_type row = Expense) then "-" ++ body
                     else body)
               /\ ex_date ex = strftime_dmy (tx_date row)
               /\ String.length (ex_date ex) = 10%nat
               /\ ex_type ex = tx_type row
               /\ ex_category ex = tx_category row
               /\ ex_description ex = tx_description row
               /\ ex_budget ex = tx_budget row
               /\ ex_currency ex = tx_currency row).
Proof.
  assert (supported_default two_purchases "RUB") as Hdc
    by (by apply supported_default_RUB).
  assert (transactions (session two_purchases) ≠ []) as Hne by discriminate.
  split; [exact Hdc|]. split; [exact Hne|].
  exact (export_to_csv_rows (fun _ => "") (transactions (session two_purchases))
           two_purchases "RUB" Hdc Hne).
Defined.

(** The rows of the export of two purchases and a budget of 5000: the
    purchases, and the budget row of amount 0 with its minus sign. *)
Example export_df_of_budget_row :
  fst (export_df (transactions
                    (session (run (SetBudget noon "Транспорт" (Q2Qc 5000))
                                  two_purchases)))
                 two_purchases)
  = Ok [ExportRow "01.05.2024" Expense "Продукты" "-200.00 ₽" "" 0 "RUB";
        ExportRow "01.05.2024" Expense "Продукты" "-50.00 ₽" "" 0 "RUB";
        ExportRow "01.05.2024" Expense "Транспорт" "-0.00 ₽"
                  "Установка бюджета" (Q2Qc 5000) "RUB"].
Proof. vm_compute. reflexivity. Qed.

(** ** Grouping *)

Lemma fields_leb_refl a : fields_leb a a = true.
Proof.
  induction a as [|x a IH]; [done|]. simpl.
  by rewrite Nat.eqb_refl, IH, orb_true_r.
Qed.

Lemma fields_leb_total a b : fields_leb a b = true \/ fields_leb b a = true.
Proof.
  revert b. induction a as [|x a IH]; intros [|y b]; simpl; auto.
  destruct (Nat.lt_trichotomy x y) as [H|[->|H]].
  - left. apply Nat.ltb_lt in H. by rewrite H.
  - rewrite Nat.eqb_refl, Nat.ltb_irrefl. simpl. apply IH.
  - right. apply Nat.ltb_lt in H. by rewrite H.
Qed.

Lemma fields_leb_trans a b c :
  fields_leb a b = true -> fields_leb b c = true -> fields_leb a c = true.
Proof.
  revert b c. induction a as [|x a IH]; intros [|y b] [|z c]; simpl; try done.
  rewrite !orb_true_iff, !andb_true_iff, !Nat.ltb_lt, !Nat.eqb_eq.
  intros [H1|[-> H1]] [H2|[-> H2]]; eauto with lia.
Qed.

Lemma fields_leb_antisym a b :
  length a = length b ->
  fields_leb a b = true -> fields_leb b a = true -> a = b.
Proof.
  revert b. induction a as [|x a IH]; intros [|y b]; simpl; try done.
  rewrite !orb_true_iff, !andb_true_iff, !Nat.ltb_lt, !Nat.eqb_eq.
  intros [= Hlen] [H1|[-> H1]] [H2|[H2 H3]]; try lia.
  f_equal. by apply IH.
Qed.

#[global] Instance timestamp_le_total : Total timestamp_le.
Proof. intros a b. apply fields_leb_total. Qed.

#[global] Instance timestamp_le_trans : Transitive timestamp_le.
Proof. intros a b c. apply fields_leb_trans. Qed.

#[global] Instance timestamp_le_refl : Reflexive timestamp_le.
Proof. intros a. apply fields_leb_refl. Qed.

#[global] Instance timestamp_le_antisym : AntiSymm (=) timestamp_le.
Proof.
  intros a b H1 H2.
  assert (timestamp_fields a = timestamp_fields b) as E
    by (by apply fields_leb_antisym).
  destruct a, b. by injection E as -> -> -> -> -> -> ->.
Qed.

Section GroupByFacts.
Context {K : Type} `{EqDecision K}.
Variable le : relation K.
Context `{!RelDecision le}.
Variable key : transaction -> K.

Lemma elem_of_group_keys (df : frame) k :
  k ∈ group_keys le key df <-> exists row, row ∈ df /\ key row = k.
Proof.
  unfold group_keys. rewrite merge_sort_Permutation, elem_of_remove_dups.
  rewrite list_elem_of_fmap. split.
  - intros (row & -> & Hin). by exists row.
  - intros (row & Hin & <-). by exists row.
Qed.

Lemma NoDup_group_keys (df : frame) : NoDup (group_keys le key df).
Proof.
  unfold group_keys. rewrite merge_sort_Permutation. apply NoDup_remove_dups.
Qed.

Lemma elem_of_group (df : frame) k row :
  row ∈ group key k df <-> row ∈ df /\ key row = k.
Proof. unfold group. rewrite list.list_elem_of_filter. tauto. Qed.

Lemma group_nonempty (df : frame) k :
  k ∈ group_keys le key df -> group key k df ≠ [].
Proof.
  intros (row & Hin & Hk)%elem_of_group_keys Hnil.
  assert (row ∈ group key k df) as H' by (by apply elem_of_group).
  rewrite Hnil in H'. by apply elem_of_nil in H'.
Qed.

Lemma group_filter_other (df : frame) k k' :
  k' ≠ k ->
  group key k' (filter (fun row => ¬ key row = k) df) = group key k' df.
Proof.
  intros Hne. unfold group. induction df as [|row df IH]; [done|].
  destruct (decide (key row = k)) as [E|E].
  - rewrite (list.filter_cons_False (fun row => ¬ key row = k)) by tauto.
    rewrite IH. rewrite list.filter_cons_False; [done|]. congruence.
  - rewrite (list.filter_cons_True (fun row => ¬ key row = k)) by done.
    destruct (decide (key row = k')).
    + by rewrite !list.filter_cons_True, IH by done.
    + by rewrite !list.filter_cons_False, IH by done.
Qed.

Lemma groups_partition (keys : list K) (df : frame) :
  NoDup keys -> (forall row, row ∈ df -> key row ∈ keys) ->
  concat (map (fun k => group key k df) keys) ≡ₚ df.
Proof.
  revert df. induction keys as [|k keys IH]; intros df Hnd Hall.
  - destruct df as [|row df]; [done|].
    specialize (Hall row (list_elem_of_here _ _)). by apply elem_of_nil in Hall.
  - apply list.NoDup_cons in Hnd as [Hk Hnd]. simpl.
    etrans; [|apply (filter_app_complement (fun row => key row = k) df)].
    apply Permutation_app; [done|].
    rewrite <- (IH (filter (fun row => ¬ key row = k) df) Hnd).
    + apply eq_subrelation; [apply _|]. f_equal.
      apply list.Forall_fmap_ext_1, list.Forall_forall. intros k' Hk'.
      symmetry. apply group_filter_other. by intros ->.
    + intros row [Hne Hin]%list.list_elem_of_filter.
      specialize (Hall row Hin). apply elem_of_cons in Hall as [?|?]; done.
Qed.

Lemma group_keys_partition (df : frame) :
  concat (map (fun k => group key k df) (group_keys le key df)) ≡ₚ df.
Proof.
  apply groups_partition; [apply NoDup_group_keys|].
  intros row Hrow. apply elem_of_group_keys. eauto.
Qed.
End GroupByFacts.

Lemma groupby_sum_keys {K} `{EqDecision K} (le : relation K)
      `{!RelDecision le} (key : transaction -> K) (df : frame) :
  (groupby_sum le key df).*1 = group_keys le key df.
Proof.
  unfold groupby_sum. rewrite <- list_fmap_compose. apply list_fmap_id.
Qed.

Lemma cumsum_from_length acc l : length (cumsum_from acc l) = length l.
Proof. revert acc. induction l as [|x l IH]; intros acc; simpl; by rewrite ?IH. Qed.

Lemma daily_balance_dates df :
  (daily_balance df).*1 = group_keys timestamp_le tx_date df.
Proof.
  unfold daily_balance. cbv zeta. rewrite fst_zip.
  - apply groupby_sum_keys.
  - unfold cumsum. rewrite cumsum_from_length. by rewrite !length_fmap.
Qed.

(** X25.  The balance chart of the overview has one point for each date
    that occurs in the ledger: its dates are those dates, each once, in
    ascending order, a row dated at another time of the same day making a
    point of its own.  For the empty ledger it has no point. *)
Theorem daily_balance_chart_dates (df : frame) :
  StronglySorted timestamp_le ((daily_balance df).*1)
  /\ NoDup ((daily_balance df).*1)
  /\ (forall d, d ∈ (daily_balance df).*1
                <-> exists row, row ∈ df /\ tx_date row = d)
  /\ length (daily_balance df) = length (remove_dups (map tx_date df))
  /\ (df = [] -> daily_balance df = []).
Proof.
  rewrite daily_balance_dates.
  split; [apply StronglySorted_merge_sort; apply _|].
  split; [apply NoDup_group_keys|].
  split; [intros d; apply elem_of_group_keys|].
  split; [|by intros ->].
  rewrite <- (length_fmap fst), daily_balance_dates.
  unfold group_keys. apply Permutation_length, merge_sort_Permutation.
Qed.

(** The chart after a salary of 1000 dated at midnight and a contribution
    of 2500 dated at noon of the same day: two points. *)
Example daily_balance_of_salary_and_contribution :
  map fst (daily_balance salary_and_contribution)
  = [to_datetime_date may_day; noon]
  /\ map snd (daily_balance salary_and_contribution)
     = [0 + (Q2Qc 1000 + 0); 0 + (Q2Qc 1000 + 0) + (- Q2Qc 2500 + 0)]
  /\ 0 + (Q2Qc 1000 + 0) + (- Q2Qc 2500 + 0) = - Q2Qc 1500.
Proof.
  split; [reflexivity|]. split; [reflexivity | apply Qc_is_canon; reflexivity].
Qed.

(** ** The analytics tab *)

Lemma fields_leb_same x a b : fields_leb (x :: a) (x :: b) = fields_leb a b.
Proof. simpl. by rewrite Nat.eqb_refl, Nat.ltb_irrefl. Qed.

Lemma fields_leb_midnight (y m d h mi s us : nat) :
  fields_leb [y; m; d; h; mi; s; us] [y; m; d; 0; 0; 0; 0]%nat = true
  <-> h = 0%nat /\ mi = 0%nat /\ s = 0%nat /\ us = 0%nat.
Proof.
  rewrite !fields_leb_same.
  destruct h, mi, s, us; simpl; split; try done; intros (? & ? & ? & ?); done.
Qed.

Lemma fields_leb_from_midnight (y m d h mi s us : nat) :
  fields_leb [y; m; d; 0; 0; 0; 0]%nat [y; m; d; h; mi; s; us] = true.
Proof. rewrite !fields_leb_same. destruct h, mi, s, us; done. Qed.

(** X27.  The period of the analytics tab runs from midnight of the start
    date to midnight of the end date, ends included: a row of the end
    date is in it only when its time is midnight, as for the rows the
    transaction form dates, and not when it carries the time of day, as
    the rows of a contribution or a budget do.  A row of the start date is
    in it at any time of day, given the end is not before it. *)
Theorem filtered_df_period (start_date end_date : date) (df : frame)
        (row : transaction) :
  (row ∈ filtered_df start_date end_date df
   <-> row ∈ df
       /\ timestamp_le (to_datetime_date start_date) (tx_date row)
       /\ timestamp_le (tx_date row) (to_datetime_date end_date))
  /\ (ts_year (tx_date row) = d_year end_date ->
      ts_month (tx_date row) = d_month end_date ->
      ts_day (tx_date row) = d_day end_date ->
      (timestamp_le (tx_date row) (to_datetime_date end_date)
       <-> ts_hour (tx_date row) = 0%nat /\ ts_minute (tx_date row) = 0%nat
           /\ ts_second (tx_date row) = 0%nat
           /\ ts_microsecond (tx_date row) = 0%nat))
  /\ (ts_year (tx_date row) = d_year start_date ->
      ts_month (tx_date row) = d_month start_date ->
      ts_day (tx_date row) = d_day start_date ->
      timestamp_le (to_datetime_date start_date) (tx_date row)).
Proof.
  split; [|split].
  - unfold filtered_df, in_period. rewrite list.list_elem_of_filter. tauto.
  - destruct (tx_date row) as [y m d h mi s us], end_date as [ey em ed].
    simpl. intros -> -> ->. apply fields_leb_midnight.
  - destruct (tx_date row) as [y m d h mi s us], start_date as [sy sm sd].
    simpl. intros -> -> ->. apply fields_leb_from_midnight.
Qed.

(** A contribution made at noon of the first of May is not in the period
    from the first of May to the first of May; the salary dated that day
    by the form is. *)
Example contribution_of_the_last_day :
  map tx_category (filtered_df may_day may_day salary_and_contribution)
  = ["Зарплата"]
  /\ map tx_category salary_and_contribution = ["Зарплата"; "Накопления"].
Proof. split; reflexivity. Qed.

#[global] Instance string_le_total : Total string_le.
Proof. intros a b. apply String.leb_total. Qed.

(** X28.  The expenses analysis returns a table with one line for each
    category that has a negative amount in the period: the categories, each
    once, in ascending order, each with the number of such rows, at least
    one, and with the text [format_amount] gives, in the default currency,
    for the rounded sum of their amounts with its sign removed, a text that
    begins with a digit.  The numbers of rows add up to the rows with a
    negative amount in the period.  The session is untouched. *)
Theorem expenses_analysis_table sum_round2 (start_date end_date : date)
        (df : frame) (r : runtime) dc :
  supported_default r dc ->
  let spent := filter (fun row => tx_amount row < 0)
                      (filtered_df start_date end_date df) in
  exists table,
    expenses_analysis sum_round2 start_date end_date df r = (Ok table, r)
    /\ NoDup (table.*1) /\ Sorted string_le (table.*1)
    /\ (forall category,
          category ∈ table.*1
          <-> exists row, row ∈ spent /\ tx_category row = category)
    /\ (forall category text n,
          (category, (text, n)) ∈ table ->
          let rows := filter (fun row => tx_category row = category) spent in
          n = length rows /\ (1 <= n)%nat
          /\ text = format_amount_in
                      (py_abs (sum_round2 (map tx_amount rows))) dc
          /\ exists d rest, text = String d rest /\ is_digit d = true)
    /\ sum_list (map (fun line => line.2.2) table) = length spent.
Proof.
  intros Hdc. cbv zeta.
  set (spent := filter (fun row => tx_amount row < 0)
                       (filtered_df start_date end_date df)).
  set (keys := group_keys string_le tx_category spent).
  set (line := fun category : string =>
                 (category,
                  (format_amount_in
                     (py_abs (sum_round2
                                (map tx_amount
                                     (group tx_category category spent))))
                     dc,
                   length (group tx_category category spent)))).
  exists (map line keys).
  assert ((map line keys).*1 = keys) as Hkeys.
  { rewrite <- list_fmap_compose. apply list_fmap_id. }
  split.
  { unfold expenses_analysis. fold spent. fold keys.
    apply apply_rows_ok. intros category _. cbv zeta.
    erewrite bind_ok; [done|]. apply format_amount_default; [done | by left]. }
  rewrite Hkeys.
  split; [apply NoDup_group_keys|].
  split; [apply Sorted_merge_sort; apply _|].
  split; [intros category; apply elem_of_group_keys|].
  split.
  - intros category text n (c & [= -> -> ->] & Hc)%list_elem_of_fmap.
    change (filter (fun row => tx_category row = c) spent)
      with (group tx_category c spent).
    split; [done|]. split.
    { pose proof (group_nonempty string_le tx_category spent c Hc) as Hne.
      destruct (group tx_category c spent); [done | simpl; lia]. }
    split; [done|]. apply format_amount_in_abs.
  - rewrite <- list_fmap_compose.
    change (sum_list (map (fun c => length (group tx_category c spent)) keys)
            = length spent).
    rewrite <- (Permutation_length (group_keys_partition string_le tx_category spent)).
    rewrite length_concat. fold keys. by rewrite <- list_fmap_compose.
Qed.

(** X28 at work: the first two days of May after a salary and a
    contribution.  The amounts are whole numbers, which the sum and the
    rounding leave as they are. *)
Lemma expenses_analysis_table_witness :
  supported_default after_contribution "RUB"
  /\ let spent := filter (fun row => tx_amount row < 0)
                         (filtered_df may_day (Date 2024 5 2)
                                      salary_and_contribution) in
     exists table,
       expenses_analysis column_sum may_day (Date 2024 5 2)
                         salary_and_contribution after_contribution
       = (Ok table, after_contribution)
       /\ NoDup (table.*1) /\ Sorted string_le (table.*1)
       /\ (forall category,
             category ∈ table.*1
             <-> exists row, row ∈ spent /\ tx_category row = category)
       /\ (forall category text n,
             (category, (text, n)) ∈ table ->
             let rows := filter (fun row => tx_category row = category) spent in
             n = length rows /\ (1 <= n)%nat
             /\ text = format_amount_in
                         (py_abs (column_sum (map tx_amount rows))) "RUB"
             /\ exists d rest, text = String d rest /\ is_digit d = true)
       /\ sum_list (map (fun line => line.2.2) table) = length spent.
Proof.
  assert (supported_default after_contribution "RUB") as Hdc
    by (by apply supported_default_RUB).
  split; [exact Hdc|].
  exact (expenses_analysis_table column_sum may_day (Date 2024 5 2)
           salary_and_contribution after_contribution "RUB" Hdc).
Defined.

Example expenses_analysis_of_contribution :
  fst (expenses_analysis column_sum may_day (Date 2024 5 2)
                         salary_and_contribution after_contribution)
  = Ok [("Накопления", ("2,500.00 ₽", 1%nat))].
Proof. vm_compute. reflexivity. Qed.
